(** * Crystal: intent arbitration, skill dispatch and the background monitor

    A shallow embedding of the routing core of the Crystal assistant:

    - [brain/intent_judge.py]: [detect_intent], the confidence tiers and
      the ambiguity check;
    - [skill_manager.py]: [SkillManager.run_skill], the intent dispatcher;
    - [brain/arbitrator.py]: [SkillArbitrator.select_skill];
    - [brain/brain.py]: [CrystalBrain._background_monitor].

    Python floats are IEEE binary64 numbers and are modelled by Rocq's
    primitive floats, on which [<=?], [-] and [abs] are the very operations
    the interpreter performs.  Code that calls skills, prints, sleeps or
    asks the operator runs in a small monad that threads the world the
    skills act on, records every call with its outcome, and propagates
    exceptions the way Python does. *)

From Stdlib Require Import PrimFloat FloatOps SpecFloat FloatAxioms.
From Stdlib Require Import ZArith List String Ascii Bool Lia DecimalString.
From Stdlib Require Import Permutation.
Import ListNotations.

Set Implicit Arguments.
Set Warnings "-inexact-float".

(** ** Python values shared by the modules *)

Module Py.

(** Exceptions derived from [Exception]; every handler in the modelled
    code is [except Exception].  The constructors are the ones the modelled
    code can raise by itself, [OtherError] stands for whatever a
    collaborator (a skill, the language model, the embedding model, psutil)
    raises. *)
Inductive exn : Type :=
| KeyError (key : string)
| IndexError (msg : string)
| ValueError (msg : string)
| AttributeError (msg : string)
| OtherError (msg : string).

(** [str(e)], as interpolated by the f-strings of the handlers. *)
Definition exn_str (e : exn) : string :=
  match e with
  | KeyError k => "'" ++ k ++ "'"
  | IndexError m | ValueError m | AttributeError m | OtherError m => m
  end.

(** The outcome of evaluating an expression: a value or a raised
    exception. *)
Inductive result (A : Type) : Type :=
| Ok (a : A)
| Raise (e : exn).
Arguments Ok {A} a.
Arguments Raise {A} e.

Definition rbind {A B} (r : result A) (k : A -> result B) : result B :=
  match r with
  | Ok a => k a
  | Raise e => Raise e
  end.

(** [x in l] for a list of strings; [None in l] is False. *)
Definition str_in (x : string) (l : list string) : bool :=
  existsb (String.eqb x) l.

Definition opt_in (x : option string) (l : list string) : bool :=
  match x with
  | Some s => str_in s l
  | None => false
  end.

(** [sep.join(l)] *)
Fixpoint join (sep : string) (l : list string) : string :=
  match l with
  | [] => EmptyString
  | [x] => x
  | x :: rest => x ++ sep ++ join sep rest
  end.

(** [a in b] on strings: [a] occurs in [b] as a contiguous substring. *)
Fixpoint is_prefix (a b : string) : bool :=
  match a, b with
  | EmptyString, _ => true
  | String x a', String y b' => Ascii.eqb x y && is_prefix a' b'
  | String _ _, EmptyString => false
  end.

Fixpoint is_substring (a b : string) : bool :=
  is_prefix a b ||
  match b with
  | EmptyString => false
  | String _ b' => is_substring a b'
  end.

(** The nearest integer to [a / d] for [0 <= a], ties to the even one. *)
Definition div_half_even (a : Z) (d : positive) : Z :=
  let q := (a / Zpos d)%Z in
  let r := (a mod Zpos d)%Z in
  match (2 * r ?= Zpos d)%Z with
  | Lt => q
  | Gt => (q + 1)%Z
  | Eq => if Z.even q then q else (q + 1)%Z
  end.

(** [round(x, 3)] on a float.  CPython prints [x] correctly rounded to
    three decimals (ties on the exact binary value go to even) and reads
    the decimal back as the nearest binary64 number; zeros, infinities and
    NaN are returned unchanged, and so is every float that is an
    integer. *)
Definition round3 (x : float) : float :=
  match Prim2SF x with
  | S754_finite s m e =>
      if (0 <=? e)%Z then x
      else
        match div_half_even (Zpos m * 1000) (Pos.pow 2 (Z.to_pos (- e))) with
        | Zpos n =>
            SF2Prim (SFdiv prec emax (S754_finite s n 0)
                                     (S754_finite false 1000 0))
        | _ => if s then (- 0)%float else 0%float
        end
  | _ => x
  end.

End Py.

Import Py.

(** ** brain/intent_judge.py *)

Module IntentJudge.

Definition HIGH_CONFIDENCE : float := 0.70%float.
Definition MEDIUM_CONFIDENCE : float := 0.50%float.
Definition AMBIGUITY_MARGIN : float := 0.07%float.

(** The keys of [INTENTS], in the order of the dict literal, which is the
    order [INTENT_EMBEDDINGS.items()] iterates in. *)
Definition INTENTS : list string :=
  [ "app_pilot"; "music_skill"; "camera_skill"; "weather_sentinel"; "clock";
    "file_commander"; "email_skill"; "web_researcher"; "reminder_skill";
    "smart_home"; "system_sentinel"; "wifi_scanner"; "osint_investigator";
    "location_sentinel"; "greet" ]%string.

Definition IMPERATIVE_VERBS : list string :=
  [ "open"; "launch"; "start"; "play"; "search"; "watch"; "stream";
    "type"; "move"; "delete"; "rename"; "copy" ]%string.

(** The dict [detect_intent] returns.  A key that the dict does not have
    is [None] here; [action] is always present. *)
Record IntentResult : Type := mkIntentResult {
  action : string;
  intent : option string;
  confidence : option float;
  candidates : option (list string)
}.

Definition action_none : IntentResult :=
  mkIntentResult "none" None None None.

(** Lines 233-236: the intents of [scores[1:]] whose score is within the
    margin of the top score. *)
Definition close_matches (top_score : float) (rest : list (string * float))
  : list string :=
  map fst
    (filter (fun p => (abs (top_score - snd p) <=? AMBIGUITY_MARGIN)%float)
            rest).

(** Lines 227-268: the decision on the sorted scores.  [scores[0]] raises
    [IndexError] on an empty list. *)
Definition decide (scores : list (string * float)) : result IntentResult :=
  match scores with
  | [] => Raise (IndexError "list index out of range")
  | (top_intent, top_score) :: rest =>
      let close := close_matches top_score rest in
      if negb (match close with [] => true | _ => false end)
         && (MEDIUM_CONFIDENCE <=? top_score)%float
      then Ok (mkIntentResult "clarify" (Some top_intent)
                 (Some (round3 top_score)) (Some (top_intent :: close)))
      else if (HIGH_CONFIDENCE <=? top_score)%float
      then Ok (mkIntentResult "execute" (Some top_intent)
                 (Some (round3 top_score)) None)
      else if (MEDIUM_CONFIDENCE <=? top_score)%float
      then Ok (mkIntentResult "confirm" (Some top_intent)
                 (Some (round3 top_score)) None)
      else Ok action_none
  end.

(** [scores.sort(key=lambda x: x[1], reverse=True)]: a stable sort by
    descending score (entries of equal score keep their order).  It is the
    list Python computes whenever no score is NaN. *)
Fixpoint insert_desc (x : string * float) (l : list (string * float))
  : list (string * float) :=
  match l with
  | [] => [x]
  | y :: l' =>
      if (snd x <? snd y)%float then y :: insert_desc x l' else x :: l
  end.

Definition sort_desc (l : list (string * float)) : list (string * float) :=
  fold_right insert_desc [] l.

Section DetectIntent.

(** Collaborators: the [str] methods, FlashText's keyword processor and
    the sentence-embedding model. *)
Variable lower : string -> string.
Variable strip : string -> string.
Variable split : string -> list string.
Variable extract_keywords : string -> list string.
Variable Embedding : Type.
(** [model.encode(text, convert_to_tensor=True)] *)
Variable encode : string -> result Embedding.
(** [util.cos_sim(text_emb, INTENT_EMBEDDINGS[intent]).max().item()] *)
Variable cos_sim_max : Embedding -> string -> result float.

(** Lines 220-223 *)
Fixpoint score_intents (text_emb : Embedding) (intents : list string)
  : result (list (string * float)) :=
  match intents with
  | [] => Ok []
  | i :: rest =>
      rbind (cos_sim_max text_emb i) (fun score =>
      rbind (score_intents text_emb rest) (fun scores =>
      Ok ((i, score) :: scores)))
  end.

Definition detect_intent (text : string) : result IntentResult :=
  let text := strip (lower text) in
  if String.eqb text "" then Ok action_none
  else
    let keywords := extract_keywords text in
    match split text with
    | [] => Raise (IndexError "list index out of range")
    | first_word :: _ =>
        if (match keywords with [] => true | _ => false end)
           && negb (str_in first_word IMPERATIVE_VERBS)
        then Ok action_none
        else
          rbind (encode text) (fun text_emb =>
          rbind (score_intents text_emb INTENTS) (fun scores =>
          decide (sort_desc scores)))
    end.

End DetectIntent.

End IntentJudge.

(** ** Calls with effects

    What a skill does when it is called is its own business: it acts on a
    world of type [W] (its queues, the network, the clock).  A computation
    takes the world, returns the new one, the calls it made in the order it
    made them, and a value or the exception that ended it. *)

Module Eff.

(** The dict handed to [run]: the dispatcher's intent path (lines 134-139),
    its name and keyword paths (lines 154-158 and 169-173, where
    ["intent"] is [None]), and the arbitrator's [{"user_input": ...}]. *)
Inductive params : Type :=
| IntentParams (user_input : string) (intent : option string)
    (confidence : float) (entities : option (list (string * string)))
| ManualParams (user_input : string)
    (entities : option (list (string * string)))
| ArbiterParams (user_input : string).

(** One observable call and how it ended.  Skill instances are named by
    [inst_id], which stands for the identity of the Python object. *)
Inductive event : Type :=
| EvCheck (id : string) (out : result (bool * string))
| EvRun (id : string) (p : params) (out : result (option string))
| EvHook (id : string) (hook : string) (out : result unit)
| EvCpu (out : result float)
| EvLLM (prompt : list (string * string)) (out : result string)
| EvInput (prompt : string) (out : result string)
| EvPrint (line : string)
| EvSleep (seconds : Z).

Definition M (W A : Type) : Type := W -> W * list event * result A.

Definition ret {W A} (a : A) : M W A := fun w => (w, [], Ok a).

Definition raise {W A} (e : exn) : M W A := fun w => (w, [], Raise e).

Definition bind {W A B} (m : M W A) (k : A -> M W B) : M W B :=
  fun w =>
    let '(w1, t1, r) := m w in
    match r with
    | Ok a => let '(w2, t2, r2) := k a w1 in (w2, t1 ++ t2, r2)
    | Raise e => (w1, t1, Raise e)
    end.

(** [try: m  except Exception as e: h e] *)
Definition catch {W A} (m : M W A) (h : exn -> M W A) : M W A :=
  fun w =>
    let '(w1, t1, r) := m w in
    match r with
    | Ok a => (w1, t1, Ok a)
    | Raise e => let '(w2, t2, r2) := h e w1 in (w2, t1 ++ t2, r2)
    end.

(** An external call: run it on the world and record it with its
    outcome. *)
Definition call {W A} (f : W -> W * result A) (ev : result A -> event)
  : M W A :=
  fun w => let '(w1, r) := f w in (w1, [ev r], r).

Definition emit {W} (ev : event) : M W unit := fun w => (w, [ev], Ok tt).

Definition print {W} (line : string) : M W unit := emit (EvPrint line).

(** [time.sleep(seconds)] *)
Definition sleep {W} (seconds : Z) : M W unit := emit (EvSleep seconds).

Declare Scope eff_scope.
Delimit Scope eff_scope with eff.
Notation "x <- m ;; k" := (bind m (fun x => k))
  (at level 61, m at next level, right associativity) : eff_scope.
Notation "m ;;; k" := (bind m (fun _ => k))
  (at level 61, right associativity) : eff_scope.

(** A [for] loop whose body may [return]: the body answers [Some v] when
    it returns [v] from the enclosing function and [None] when control
    reaches the end of the body (or a [continue]). *)
Fixpoint for_return {W A B} (l : list A) (body : A -> M W (option B))
  : M W (option B) :=
  match l with
  | [] => ret None
  | x :: rest =>
      bind (body x) (fun o =>
        match o with
        | Some v => ret (Some v)
        | None => for_return rest body
        end)
  end.

(** A [for] loop without [return] or [break]. *)
Fixpoint for_each {W A} (l : list A) (body : A -> M W unit) : M W unit :=
  match l with
  | [] => ret tt
  | x :: rest => bind (body x) (fun _ => for_each rest body)
  end.

(** A skill object: [check_requirements()], [run(parameters)] and the
    attributes the monitor looks up by name ([hooks h] is [Some fn] when
    [getattr(instance, h, None)] is callable). *)
Record Instance (W : Type) : Type := mkInstance {
  inst_id : string;
  check_requirements : W -> W * result (bool * string);
  run : params -> W -> W * result (option string);
  hooks : string -> option (W -> W * result unit)
}.

(** An entry of [SkillManager.skills].  [load_skills] stores the keys
    ["instance"], ["name"], ["keywords"] and ["supported_intents"]
    (lines 60-65); the arbitrator also reads ["description"], which is
    [None] here when the dict has no such key; the monitor reads the
    instance with [.get] and skips a missing or falsy one. *)
Record skill_info (W : Type) : Type := mkSkill {
  instance : option (Instance W);
  name : string;
  keywords : list string;
  supported_intents : list string;
  description : option string
}.

(** [instance.check_requirements()]; on [None] the attribute lookup
    fails. *)
Definition call_check {W} (i : option (Instance W)) : M W (bool * string) :=
  match i with
  | Some inst => call (check_requirements inst) (EvCheck (inst_id inst))
  | None =>
      raise (AttributeError
        "'NoneType' object has no attribute 'check_requirements'")
  end.

(** [instance.run(p)] *)
Definition call_run {W} (i : option (Instance W)) (p : params)
  : M W (option string) :=
  match i with
  | Some inst => call (run inst p) (EvRun (inst_id inst) p)
  | None => raise (AttributeError "'NoneType' object has no attribute 'run'")
  end.

(** Recognisers of the calls a trace records. *)
Definition is_run (ev : event) : bool :=
  match ev with EvRun _ _ _ => true | _ => false end.

Definition is_run_of (id : string) (ev : event) : bool :=
  match ev with EvRun i _ _ => String.eqb i id | _ => false end.

Definition is_check (ev : event) : bool :=
  match ev with EvCheck _ _ => true | _ => false end.

Definition is_input (ev : event) : bool :=
  match ev with EvInput _ _ => true | _ => false end.

Definition is_hook_of (hook : string) (ev : event) : bool :=
  match ev with EvHook _ h _ => String.eqb h hook | _ => false end.

(** Prints and the call of the language model: calls that neither run nor
    ask a skill nor read from the operator. *)
Definition is_quiet (ev : event) : bool :=
  match ev with EvPrint _ | EvLLM _ _ => true | _ => false end.

(** A hook that returned, and a hook that raised. *)
Definition is_hook_ok (ev : event) : bool :=
  match ev with EvHook _ _ (Ok _) => true | _ => false end.

Definition is_hook_failed (ev : event) : bool :=
  match ev with EvHook _ _ (Raise _) => true | _ => false end.

(** Every call a computation makes, from whatever world, satisfies [P]. *)
Definition emits {W A} (P : event -> bool) (m : M W A) : Prop :=
  forall w, forallb P (snd (fst (m w))) = true.

End Eff.

Import Eff.
Local Open Scope eff_scope.

(** ** skill_manager.py *)

Module SkillManager.

Import IntentJudge.
Local Open Scope string_scope.

(** [f"{intent}"]: [None] prints as the word None. *)
Definition fmt (x : option string) : string :=
  match x with
  | Some s => s
  | None => "None"
  end.

Section RunSkill.

Variable W : Type.
(** [str.lower] *)
Variable lower : string -> string.
(** [re.search(rf"\b{re.escape(kw)}\b", text)] is not [None] *)
Variable word_search : string -> string -> bool.

(** Lines 120-124: the instances of the skills that list the intent, in
    the order of [self.skills]. *)
Definition matches_for (skills : list (skill_info W))
  (intent : option string) : list (option (Instance W)) :=
  map (@instance W)
    (filter (fun s => opt_in intent (supported_intents s)) skills).

(** Lines 129-142: one round of the loop over [matches]. *)
Definition try_instance (p : params) (inst : option (Instance W))
  : M W (option (option string)) :=
  cr <- call_check inst ;;
  if negb (fst cr) then ret None
  else
    result <- call_run inst p ;;
    match result with
    | Some r => ret (Some (Some r))
    | None => ret None
    end.

(** Lines 120-144, reached when [action == "execute"]. *)
Definition run_intent (skills : list (skill_info W)) (user_input : string)
  (intent : option string) (confidence : float)
  (entities : option (list (string * string))) : M W (option string) :=
  let matches := matches_for skills intent in
  match matches with
  | [] =>
      ret (Some ("⚠️ Intent '" ++ fmt intent ++ "' has no mapped skills."))
  | _ =>
      o <- for_return matches
             (try_instance
                (IntentParams user_input intent confidence entities)) ;;
      match o with
      | Some v => ret v
      | None =>
          ret (Some ("⚠️ No skill could execute intent '"
                      ++ fmt intent ++ "'."))
      end
  end.

(** Lines 151-158 and 166-173: ask the skill whether it can run and, if
    so, return whatever its [run] returns. *)
Definition run_if_ready (user_input : string)
  (entities : option (list (string * string))) (s : skill_info W)
  : M W (option (option string)) :=
  cr <- call_check (instance s) ;;
  if fst cr then
    out <- call_run (instance s) (ManualParams user_input entities) ;;
    ret (Some out)
  else ret None.

(** [run_skill].  [intent_result] is [None] or a dict that has at least
    the key ["action"], so the test [if intent_result:] is the test
    against [None]. *)
Definition run_skill (skills : list (skill_info W)) (user_input : string)
  (intent_result : option IntentResult)
  (entities : option (list (string * string))) : M W (option string) :=
  match intent_result with
  | Some ir =>
      let intent := IntentJudge.intent ir in
      let confidence :=
        match IntentJudge.confidence ir with
        | Some c => c
        | None => 0.0%float
        end in
      let candidates :=
        match IntentJudge.candidates ir with
        | Some l => l
        | None => []
        end in
      if String.eqb (action ir) "none" then ret None
      else if String.eqb (action ir) "clarify" then
        ret (Some ("🤔 I found multiple possible actions: "
                    ++ join ", " candidates
                    ++ ". Which one should I run?"))
      else if String.eqb (action ir) "confirm" then
        ret (Some ("❓ Do you want me to run '" ++ fmt intent
                    ++ "'? (yes / no)"))
      else if negb (String.eqb (action ir) "execute") then ret None
      else run_intent skills user_input intent confidence entities
  | None =>
      (* 2: exact skill name *)
      o <- for_return skills (fun s =>
             if String.eqb (lower user_input) (lower (name s))
             then run_if_ready user_input entities s
             else ret None) ;;
      match o with
      | Some v => ret v
      | None =>
          (* 3: keyword fallback *)
          o <- for_return skills (fun s =>
                 for_return (keywords s) (fun kw =>
                   if word_search (lower kw) (lower user_input)
                   then run_if_ready user_input entities s
                   else ret None)) ;;
          match o with
          | Some v => ret v
          | None => ret None
          end
      end
  end.

(** What a dispatch over the candidates [cands] may leave behind, read
    off the loop of lines 129-142 clause by clause: the candidates are
    taken in order; one that is not ready is only asked; a ready one is
    asked and run; a string it returns ends the dispatch; on [None] the
    dispatch goes on with the rest; an exception ends it.  The answer is
    [Ok (Some v)] when the loop returned [v] and [Ok None] when it ran
    out of candidates. *)
Inductive dispatch_trace (p : params)
  : list (option (Instance W)) -> list event ->
    result (option (option string)) -> Prop :=
| dt_exhausted :
    dispatch_trace p [] [] (Ok None)
| dt_not_ready inst rest msg t r :
    dispatch_trace p rest t r ->
    dispatch_trace p (Some inst :: rest)
      (EvCheck (inst_id inst) (Ok (false, msg)) :: t) r
| dt_answer inst rest msg s :
    dispatch_trace p (Some inst :: rest)
      [EvCheck (inst_id inst) (Ok (true, msg));
       EvRun (inst_id inst) p (Ok (Some s))]
      (Ok (Some (Some s)))
| dt_no_answer inst rest msg t r :
    dispatch_trace p rest t r ->
    dispatch_trace p (Some inst :: rest)
      (EvCheck (inst_id inst) (Ok (true, msg))
       :: EvRun (inst_id inst) p (Ok None) :: t) r
| dt_check_raises inst rest e :
    dispatch_trace p (Some inst :: rest)
      [EvCheck (inst_id inst) (Raise e)] (Raise e)
| dt_run_raises inst rest msg e :
    dispatch_trace p (Some inst :: rest)
      [EvCheck (inst_id inst) (Ok (true, msg));
       EvRun (inst_id inst) p (Raise e)]
      (Raise e)
| dt_no_instance rest :
    dispatch_trace p (None :: rest) []
      (Raise (AttributeError
         "'NoneType' object has no attribute 'check_requirements'")).

(** Lines 126-127 and 144: what [run_skill] returns for the answer of
    the loop. *)
Definition intent_answer (intent : option string)
  (o : result (option (option string))) : result (option string) :=
  match o with
  | Ok (Some v) => Ok v
  | Ok None =>
      Ok (Some ("⚠️ No skill could execute intent '" ++ fmt intent ++ "'."))
  | Raise e => Raise e
  end.

End RunSkill.

End SkillManager.

(** ** brain/arbitrator.py *)

Module Arbitrator.

Local Open Scope string_scope.

(** [str(n)] for a natural number. *)
Definition str_of_nat (n : nat) : string :=
  DecimalString.NilZero.string_of_uint (Nat.to_uint n).

Definition newline : string := String (ascii_of_nat 10) EmptyString.

Section SelectSkill.

Variable W : Type.
(** [str.lower], [str.strip()] and [str.strip(chars)] *)
Variable lower : string -> string.
Variable strip : string -> string.
Variable strip_chars : string -> string -> string.
(** [int(s)]: [None] when it raises [ValueError] *)
Variable py_int : string -> option Z.
(** [run_llm(prompt, task_type="skill_routing")] and [input(prompt)] *)
Variable run_llm : list (string * string) -> W -> W * result string.
Variable input : string -> W -> W * result string.

(** [s['description']] *)
Definition get_description (s : skill_info W) : M W string :=
  match description s with
  | Some d => ret d
  | None => raise (KeyError "description")
  end.

(** Lines 44-46: one line per candidate. *)
Fixpoint describe (cands : list (skill_info W)) : M W (list string) :=
  match cands with
  | [] => ret []
  | s :: rest =>
      d <- get_description s ;;
      ds <- describe rest ;;
      ret (("- " ++ name s ++ ": " ++ d) :: ds)
  end.

(** Lines 76-77: the numbered list shown to the operator. *)
Fixpoint print_choices (i : nat) (cands : list (skill_info W)) : M W unit :=
  match cands with
  | [] => ret tt
  | s :: rest =>
      d <- get_description s ;;
      print (str_of_nat (i + 1) ++ ": " ++ name s ++ " - " ++ d) ;;;
      print_choices (S i) rest
  end.

(** Lines 28-32 *)
Definition keyword_candidates (skills : list (skill_info W))
  (user_input : string) : list (skill_info W) :=
  let clean_input := strip_chars (lower user_input) "?!. " in
  filter (fun skill =>
            existsb (fun word => is_substring (lower word) clean_input)
                    (keywords skill))
         skills.

(** Lines 47-59 *)
Definition routing_prompt (user_input skill_descriptions : string)
  : list (string * string) :=
  [ ("system",
     "You are a tool arbitrator. The user input may match multiple skills. "
     ++ "Return ONLY the exact skill name that best fits the user's intent.");
    ("user",
     "User input: " ++ user_input ++ newline ++ "Available skills:"
     ++ newline ++ skill_descriptions) ]%string.

(** Lines 78-85: [Some (Some s)] a valid choice, [Some None] a number out
    of range, [None] when [int] raised and the handler returned. *)
Definition read_choice (cands : list (skill_info W)) (choice : string)
  : option (option (skill_info W)) :=
  match py_int choice with
  | Some n =>
      let choice_idx := (n - 1)%Z in
      if ((0 <=? choice_idx) && (choice_idx <? Z.of_nat (List.length cands)))%Z
      then Some (nth_error cands (Z.to_nat choice_idx))
      else Some None
  | None => None
  end.

(** Lines 88-96 *)
Definition execute_selected (user_input : string)
  (selected_skill : option (skill_info W)) : M W (option string) :=
  match selected_skill with
  | Some s =>
      catch (call_run (instance s) (ArbiterParams user_input))
            (fun e =>
               print ("❌ [ARBITRATOR]: Skill execution failed: "
                       ++ exn_str e) ;;;
               ret None)
  | None => ret None
  end.

(** Lines 74-85: the operator is asked to choose. *)
Definition ask_operator (user_input : string)
  (cands : list (skill_info W)) : M W (option string) :=
  print "⚖️ [ARBITRATOR]: Multiple skills matched. Please classify:" ;;;
  print_choices 0 cands ;;;
  raw <- call (input "Enter the number of the desired skill: ")
              (EvInput "Enter the number of the desired skill: ") ;;
  match read_choice cands (strip raw) with
  | Some selected_skill => execute_selected user_input selected_skill
  | None =>
      print "❌ Invalid choice. No skill executed." ;;;
      ret None
  end.

(** [select_skill].  The call of [skill_bridge._find_skill_by_keywords]
    (lines 23-25) only scores strings and its result is never read; it
    is left out. *)
Definition select_skill (skills : list (skill_info W))
  (user_input : string) : M W (option string) :=
  let cands := keyword_candidates skills user_input in
  match cands with
  | [] => ret None
  | [c] => call_run (instance c) (ArbiterParams user_input)
  | _ =>
      lines <- describe cands ;;
      let prompt := routing_prompt user_input (join newline lines) in
      decision <-
        catch (d <- call (run_llm prompt) (EvLLM prompt) ;; ret (strip d))
              (fun e =>
                 print ("❌ [ARBITRATOR]: LLM classification failed: "
                         ++ exn_str e) ;;;
                 ret EmptyString) ;;
      match find (fun s => is_substring (lower (name s)) (lower decision))
                 cands with
      | Some s => execute_selected user_input (Some s)
      | None => ask_operator user_input cands
      end
  end.

End SelectSkill.

End Arbitrator.

(** ** brain/brain.py: the background monitor *)

Module Brain.

Definition HOOKS : list string :=
  [ "check_queue_loop"; "price_monitor"; "weather_monitor";
    "reminder_monitor" ]%string.

Section Monitor.

Variable W : Type.
(** [psutil.cpu_percent()] *)
Variable cpu_percent : W -> W * result float.

(** Lines 86-88 *)
Definition tick_hook (inst : Instance W) (hook : string) : M W unit :=
  match hooks inst hook with
  | Some fn => call fn (EvHook (inst_id inst) hook)
  | None => ret tt
  end.

(** Lines 75-88 *)
Definition tick_skills (skills : list (skill_info W)) : M W unit :=
  for_each skills (fun skill_info =>
    match instance skill_info with
    | None => ret tt
    | Some inst => for_each HOOKS (tick_hook inst)
    end).

(** Lines 71-90: the body of the [try]. *)
Definition monitor_body (skills : list (skill_info W)) : M W unit :=
  cpu <- call cpu_percent EvCpu ;;
  if (90 <? cpu)%float then sleep 10
  else tick_skills skills ;;; sleep 5.

(** Lines 70-94: one turn of the [while] loop. *)
Definition monitor_cycle (skills : list (skill_info W)) : M W unit :=
  catch (monitor_body skills)
        (fun e =>
           print ("⚠️ [MONITOR ERROR]: " ++ exn_str e) ;;;
           sleep 10).






(** The hook calls one cycle has to make when nothing raises: for each
    skill with an instance, in the order of [skills], the hooks of [HOOKS]
    that the instance has, in the order of [HOOKS]. *)
Definition hooks_of (inst : Instance W) (names : list string)
  : list (string * string) :=
  map (fun h => (inst_id inst, h))
      (filter (fun h => match hooks inst h with
                        | Some _ => true
                        | None => false
                        end) names).

Definition scheduled (skills : list (skill_info W)) : list (string * string) :=
  flat_map (fun s => match instance s with
                     | Some inst => hooks_of inst HOOKS
                     | None => []
                     end) skills.

End Monitor.

(** The hook calls a trace records, in order. *)
Definition hook_calls (t : list event) : list (string * string) :=
  flat_map (fun ev => match ev with
                      | EvHook id hook _ => [(id, hook)]
                      | _ => []
                      end) t.

(** The outcome of ticking hooks: all of them returned, or they returned
    up to one that raised, after which nothing was called. *)
Definition until_failure {W} (x : W * list event * result unit) : Prop :=
  let '(_, t, r) := x in
  (r = Ok tt /\ forallb is_hook_ok t = true) \/
  (exists t0 id hook e,
     t = t0 ++ [EvHook id hook (Raise e)] /\
     forallb is_hook_ok t0 = true /\ r = Raise e).

End Brain.

(** ** Concrete collaborators and stub skills

    Instances of the collaborators on which the statements below are
    evaluated.  The string functions agree with CPython's on ASCII text,
    which is all the examples use. *)

Module Examples.

Local Open Scope string_scope.

Definition lower_ascii (c : ascii) : ascii :=
  let n := nat_of_ascii c in
  if ((65 <=? n) && (n <=? 90))%nat then ascii_of_nat (n + 32) else c.

Fixpoint lower (s : string) : string :=
  match s with
  | EmptyString => EmptyString
  | String c s' => String (lower_ascii c) (lower s')
  end.

Definition is_space (c : ascii) : bool :=
  let n := nat_of_ascii c in
  ((n =? 32) || ((9 <=? n) && (n <=? 13)))%nat.

Definition in_chars (chars : string) (c : ascii) : bool :=
  existsb (Ascii.eqb c) (list_ascii_of_string chars).

Fixpoint lstrip_by (drop : ascii -> bool) (s : string) : string :=
  match s with
  | EmptyString => EmptyString
  | String c s' => if drop c then lstrip_by drop s' else s
  end.

Fixpoint rstrip_by (drop : ascii -> bool) (s : string) : string :=
  match s with
  | EmptyString => EmptyString
  | String c s' =>
      match rstrip_by drop s' with
      | EmptyString => if drop c then EmptyString else String c EmptyString
      | r => String c r
      end
  end.

Definition strip (s : string) : string :=
  rstrip_by is_space (lstrip_by is_space s).

Definition strip_chars (s chars : string) : string :=
  rstrip_by (in_chars chars) (lstrip_by (in_chars chars) s).

(** [s.split()]: the maximal runs of non-blank characters. *)
Fixpoint split_acc (word : string) (s : string) : list string :=
  match s with
  | EmptyString =>
      match word with EmptyString => [] | _ => [word] end
  | String c s' =>
      if is_space c then
        match word with
        | EmptyString => split_acc EmptyString s'
        | _ => word :: split_acc EmptyString s'
        end
      else split_acc (word ++ String c EmptyString) s'
  end.

Definition split (s : string) : list string := split_acc EmptyString s.

(** [int(s)] on an optional sign followed by decimal digits. *)
Fixpoint digits (acc : Z) (s : string) : option Z :=
  match s with
  | EmptyString => Some acc
  | String c s' =>
      let n := nat_of_ascii c in
      if ((48 <=? n) && (n <=? 57))%nat
      then digits (10 * acc + Z.of_nat (n - 48))%Z s'
      else None
  end.

Definition py_int (s : string) : option Z :=
  match s with
  | EmptyString => None
  | String "-" (String _ _ as d) => option_map Z.opp (digits 0 d)
  | String "+" (String _ _ as d) => digits 0 d
  | _ => digits 0 s
  end.

(** A keyword processor that knows the imperative verbs and the one-word
    phrases of [INTENTS]. *)
Definition extract_keywords (text : string) : list string :=
  filter (fun w => str_in w (IntentJudge.IMPERATIVE_VERBS
                               ++ ["snapshot"; "todo"; "hello"])%list)
         (split text).

(** An embedding model that is sure of music and lukewarm about the
    rest, one that cannot tell music from the app pilot, and one that is
    down. *)
Definition encode (text : string) : result string := Ok text.

Definition cos_sim_music (emb intent : string) : result float :=
  if String.eqb intent "music_skill" then Ok 0.84375%float
  else Ok 0.375%float.

Definition cos_sim_tied (emb intent : string) : result float :=
  if String.eqb intent "music_skill" then Ok 0.72%float
  else if String.eqb intent "app_pilot" then Ok 0.68%float
  else Ok 0.10%float.

Definition encode_down (text : string) : result string :=
  Raise (OtherError "model unavailable").

Definition detect (text : string) : result IntentJudge.IntentResult :=
  IntentJudge.detect_intent lower strip split extract_keywords
    encode cos_sim_music text.

Definition detect_down (text : string) : result IntentJudge.IntentResult :=
  IntentJudge.detect_intent lower strip split extract_keywords
    encode_down cos_sim_music text.

(** Stub skills on a world that counts the calls of [run]. *)
Definition stub (id : string) (ready : bool) (out : result (option string))
  (hook_table : list (string * result unit)) : Instance nat :=
  mkInstance id
    (fun w => (w, Ok (ready, if ready then "" else "missing credentials")))
    (fun _ w => (S w, out))
    (fun h =>
       match find (fun e => String.eqb (fst e) h) hook_table with
       | Some e => Some (fun w => (w, snd e))
       | None => None
       end).

Definition skill (id : string) (kws intents : list string) (ready : bool)
  (out : result (option string)) (hook_table : list (string * result unit))
  : skill_info nat :=
  mkSkill (Some (stub id ready out hook_table)) id kws intents
          (Some ("the " ++ id ++ " skill")).

Definition execute_music : IntentJudge.IntentResult :=
  IntentJudge.mkIntentResult "execute" (Some "music_skill")
    (Some 0.844%float) None.

Definition music_params : params :=
  IntentParams "play jazz" (Some "music_skill") 0.844%float None.

Definition word_search (kw text : string) : bool :=
  str_in kw (split text).

Definition cpu_idle (w : nat) : nat * result float := (w, Ok 12.5%float).
Definition cpu_busy (w : nat) : nat * result float := (w, Ok 97.0%float).

Definition llm_unsure (prompt : list (string * string)) (w : nat)
  : nat * result string := (w, Ok "I am not sure").

Definition llm_says (answer : string) (prompt : list (string * string))
  (w : nat) : nat * result string := (w, Ok answer).

Definition operator_types (answer : string) (prompt : string) (w : nat)
  : nat * result string := (w, Ok answer).

(** Four skills for the intent music_skill: a radio that is not ready, one
    that returns [None], one that returns the empty string, one whose
    [run] raises, and a jukebox that answers. *)
Definition radio_offline : skill_info nat :=
  skill "RadioOffline" ["radio"] ["music_skill"] false (Ok (Some "never")) [].
Definition radio_mute : skill_info nat :=
  skill "RadioMute" ["radio"] ["music_skill"] true (Ok None) [].
Definition radio_silent : skill_info nat :=
  skill "RadioSilent" ["radio"] ["music_skill"] true (Ok (Some "")) [].
Definition radio_broken : skill_info nat :=
  skill "RadioBroken" ["radio"] ["music_skill"] true
        (Raise (OtherError "stream down")) [].
Definition jukebox : skill_info nat :=
  skill "Jukebox" ["play"; "jazz"] ["music_skill"] true
        (Ok (Some "Playing jazz")) [].
Definition clock : skill_info nat :=
  skill "Clock" ["time"] ["clock"] true (Ok (Some "It is noon")) [].

Definition dispatch (skills : list (skill_info nat))
  : nat * list event * result (option string) :=
  SkillManager.run_skill lower word_search skills "play jazz"
    (Some execute_music) None 0.

(** A call of the arbitrator from the world 0: what the language model
    answers and what the operator types are fixed. *)
Definition arbitrate (llm : list (string * string) -> nat -> nat * result string)
  (typed : string) (skills : list (skill_info nat)) (user_input : string)
  : nat * list event * result (option string) :=
  Arbitrator.select_skill lower strip strip_chars py_int llm
    (operator_types typed) skills user_input 0.

(** A price scout with three of the monitor's hooks, the second of which
    raises, and a reminder skill with the fourth. *)
Definition scout : skill_info nat :=
  skill "Scout" ["price"] ["ecommerce_scout"] true (Ok None)
        [("check_queue_loop", Ok tt);
         ("price_monitor", Raise (OtherError "site down"));
         ("weather_monitor", Ok tt)].
Definition reminder : skill_info nat :=
  skill "Reminder" ["remind"] ["reminder_skill"] true (Ok None)
        [("reminder_monitor", Ok tt)].

Definition cycle (cpu : nat -> nat * result float)
  (skills : list (skill_info nat)) : nat * list event * result unit :=
  Brain.monitor_cycle cpu skills 0.

End Examples.

(** ** Reading the traces of the dispatcher *)

Module DispatchSpec.

(** A run that returned a string. *)
Definition is_answer (ev : event) : bool :=
  match ev with EvRun _ _ (Ok (Some _)) => true | _ => false end.

(** The skills whose readiness was asked, in the order of the calls. *)
Definition checked (t : list event) : list string :=
  flat_map (fun ev => match ev with
                      | EvCheck id _ => [id]
                      | _ => []
                      end) t.

(** What the name path and the keyword path of [run_skill] (lines 149-175)
    may leave behind: readiness checks, then at most one run, which comes
    right after the check that allowed it and ends the call with its own
    outcome. *)
Inductive legacy_shape (p : params)
  : list event -> result (option (option string)) -> Prop :=
| ls_through cs :
    forallb is_check cs = true -> legacy_shape p cs (Ok None)
| ls_raised cs e :
    forallb is_check cs = true -> legacy_shape p cs (Raise e)
| ls_run cs id msg out :
    forallb is_check cs = true ->
    legacy_shape p
      (cs ++ [EvCheck id (Ok (true, msg)); EvRun id p out])
      (match out with
       | Ok v => Ok (Some v)
       | Raise e => Raise e
       end).

End DispatchSpec.

(** ** Python sequences *)

Module PySeq.

(** [l[k:]] and [l[:k]]: a negative index counts from the end, and an
    index beyond either end is clipped. *)
Definition slice_from {A} (l : list A) (k : Z) : list A :=
  if (0 <=? k)%Z then skipn (Z.to_nat k) l
  else skipn (List.length l - Z.to_nat (- k)) l.

Definition slice_to {A} (l : list A) (k : Z) : list A :=
  if (0 <=? k)%Z then firstn (Z.to_nat k) l
  else firstn (List.length l - Z.to_nat (- k)) l.

End PySeq.

(** A call of a collaborator that the traces do not record (the clock, a
    file). *)
Definition perform {W A} (f : W -> W * result A) : M W A :=
  fun w => let '(w1, r) := f w in (w1, [], r).

(** ** brain/memory.py *)

Module Memory.

Import PySeq.
Local Open Scope string_scope.

(** A message dict: the entries of the history have the four keys, the
    system prompt has ["role"] and ["content"] only.  An entity is a dict
    with ["type"] and ["value"]. *)
Record message : Type := mkMessage {
  role : string;
  content : string;
  timestamp : option float;
  entities : option (list (string * string))
}.

(** The fields of a [Memory] object that change or are read. *)
Record memory : Type := mkMemory {
  file : string;
  history : list message;
  max_turns : Z
}.

Definition system_prompt : message :=
  mkMessage "system"
    "You are Crystal, Lucky's personal AI. Be concise, technical, and intelligent."
    None None.

Section Methods.

Variable W : Type.
(** [time.time()] *)
Variable time_time : W -> W * float.
(** [open(file, "w")] and [json.dump(history, f, ...)] *)
Variable write_json : string -> list message -> W -> W * result unit.
(** [str.lower] *)
Variable lower : string -> string.

(** Lines 34-39 *)
Definition save (m : memory) : M W unit :=
  catch (perform (write_json (file m) (history m)))
        (fun e => print ("❌ Memory Save Error: " ++ exn_str e)).

(** Lines 22-32.  [meta] is the list under ["entities"], [None] when
    there is no [meta] or it has no such key. *)
Definition add (m : memory) (role text : string)
  (meta : option (list (string * string))) : M W memory :=
  now <- perform (fun w => let '(w1, t) := time_time w in (w1, Ok t)) ;;
  let entry :=
    mkMessage role text (Some now)
      (Some (match meta with Some es => es | None => [] end)) in
  let m' :=
    mkMemory (file m)
      (slice_from (history m ++ [entry])%list (- max_turns m))
      (max_turns m) in
  save m' ;;;
  ret m'.

(** Lines 50-52 *)
Definition context (m : memory) (last_n : Z) : list message :=
  let msgs :=
    if (0 <=? last_n)%Z then slice_from (history m) (- last_n)
    else slice_from (history m) last_n in
  system_prompt :: msgs.

(** Lines 54-55 *)
Definition query (text : string) : string :=
  "[Memory Query] I don't have a detailed answer for: " ++ text.

(** Lines 60-63: the entities of one entry. *)
Definition collect (entity_type : option string)
  (es : list (string * string)) (found : list string) : list string :=
  fold_left
    (fun found e =>
       if match entity_type with
          | None => true
          | Some ty => String.eqb (fst e) ty
          end
       then if str_in (snd e) found then found else (found ++ [snd e])%list
       else found)
    es found.

(** Lines 59-65: the loop over the entries, newest first, with its
    [break]. *)
Fixpoint scan (entity_type : option string) (limit : Z)
  (entries : list message) (found : list string) : list string :=
  match entries with
  | [] => found
  | entry :: rest =>
      let found' :=
        collect entity_type
          (match entities entry with Some es => es | None => [] end) found in
      if (limit <=? Z.of_nat (List.length found'))%Z then found'
      else scan entity_type limit rest found'
  end.

(** Lines 57-66 *)
Definition get_recent_entities (m : memory) (entity_type : option string)
  (limit : Z) : list string :=
  slice_to (scan entity_type limit (rev (history m)) []) limit.

(** Lines 68-79 *)
Definition query_entities (m : memory) (query_text : string) : string :=
  let lower := lower query_text in
  if is_substring "who did i ask" lower || is_substring "what did i ask" lower
  then
    match get_recent_entities m None 10 with
    | [] => "You haven't asked me about anyone or anything recently."
    | recent => "You recently asked about: " ++ join ", " recent
    end
  else "".

End Methods.

End Memory.

(** ** Python strings: [replace] and [split(sep)] *)

Module PyStr.

(** [s.replace(old, new)] for a non-empty [old]: the occurrences of [old]
    are found from left to right and do not overlap.  [skip] counts the
    characters of an occurrence that are still to be passed over. *)
Fixpoint replace_from (old new : string) (skip : nat) (s : string) : string :=
  match s with
  | EmptyString => EmptyString
  | String c s' =>
      match skip with
      | S k => replace_from old new k s'
      | O =>
          if is_prefix old s
          then new ++ replace_from old new (String.length old - 1) s'
          else String c (replace_from old new 0 s')
      end
  end.

(** With an empty [old], Python puts [new] before every character and at
    the end. *)
Fixpoint intersperse (new : string) (s : string) : string :=
  match s with
  | EmptyString => new
  | String c s' => new ++ String c (intersperse new s')
  end.

Definition replace (s old new : string) : string :=
  match old with
  | EmptyString => intersperse new s
  | _ => replace_from old new 0 s
  end.

(** [s.split(sep)] for a one-character separator. *)
Fixpoint split_on (sep : ascii) (s : string) : list string :=
  match s with
  | EmptyString => [EmptyString]
  | String c s' =>
      if Ascii.eqb c sep then EmptyString :: split_on sep s'
      else
        match split_on sep s' with
        | h :: t => String c h :: t
        | [] => [String c EmptyString]
        end
  end.

(** [len(s)] counts code points: the bytes of the UTF-8 text that are not
    continuation bytes. *)
Fixpoint len (s : string) : nat :=
  match s with
  | EmptyString => 0
  | String c s' =>
      let n := nat_of_ascii c in
      if ((128 <=? n) && (n <? 192))%nat then len s' else S (len s')
  end.

(** [c in s] for one character, and "[t] is [s] with some characters
    removed". *)
Fixpoint has_char (c : ascii) (s : string) : bool :=
  match s with
  | EmptyString => false
  | String x s' => Ascii.eqb x c || has_char c s'
  end.

Inductive subseq : string -> string -> Prop :=
| subseq_nil : subseq EmptyString EmptyString
| subseq_keep c t s : subseq t s -> subseq (String c t) (String c s)
| subseq_drop c t s : subseq t s -> subseq t (String c s).

End PyStr.

(** ** brain/guard.py *)

Module Guard.

Import PyStr.
Local Open Scope string_scope.

Inductive Intent : Type := GREETING | INSTRUCTION | SYSTEM | GENERAL.

Inductive Judgment : Type := PASS | FAIL.

(** The dict [SYSTEM_RULES] and its copies. *)
Record rules : Type := mkRules {
  persona : string;
  priority : string;
  max_words : option Z;
  tone : string
}.

Definition SYSTEM_RULES : rules :=
  mkRules "Crystal" "instructions_over_content" None "controlled".

(** The dict [build_prompt] returns. *)
Record prompt : Type := mkPrompt {
  p_intent : Intent;
  p_rules : rules;
  system_prompt : string;
  p_user_input : string
}.

Section Functions.

Variable lower : string -> string.
Variable strip : string -> string.
(** [str.split()] *)
Variable split : string -> list string.
(** [re.match(r"^(hi|hello|hey|yo)\b", s)] is not [None] *)
Variable re_greeting : string -> bool.
(** [int(m.group(1))] for [m = re.search(r"respond with (\d+) words?", s)],
    [None] when there is no match *)
Variable re_respond_with : string -> option Z.

(** Lines 28-36 *)
Definition classify_intent (text : string) : Intent :=
  let text_l := strip (lower text) in
  if re_greeting text_l then GREETING
  else if existsb (fun k => is_substring k text_l)
            ["respond with"; "answer with"; "only"; "exactly"]
  then INSTRUCTION
  else if is_prefix "/" text_l then SYSTEM
  else GENERAL.

(** Lines 38-42: the value to put under ["max_words"], if any. *)
Definition extract_instruction (text : string) : option Z :=
  re_respond_with (lower text).

(** Lines 44-49 *)
Definition strip_story (text : string) : string :=
  match find (fun line => is_substring "respond with" (lower line)
                          || is_substring "only" (lower line))
             (split_on (ascii_of_nat 10) text) with
  | Some line => line
  | None => text
  end.

(** The f-string of lines 58-64. *)
Definition prompt_template (tone : string) : string :=
  Arbitrator.newline
  ++ "You are Crystal." ++ Arbitrator.newline
  ++ "Persona is immutable." ++ Arbitrator.newline
  ++ "Instructions have absolute priority over content." ++ Arbitrator.newline
  ++ "Tone: " ++ tone ++ Arbitrator.newline
  ++ "Response must obey enforced limits." ++ Arbitrator.newline.

(** Lines 51-70 *)
Definition build_prompt (user_input : string) : prompt :=
  let intent := classify_intent user_input in
  let enforced_rules := SYSTEM_RULES in
  let '(enforced_rules, user_input) :=
    match intent with
    | INSTRUCTION =>
        (match extract_instruction user_input with
         | Some n => mkRules (persona enforced_rules) (priority enforced_rules)
                             (Some n) (tone enforced_rules)
         | None => enforced_rules
         end,
         strip_story user_input)
    | _ => (enforced_rules, user_input)
    end in
  mkPrompt intent enforced_rules
    (strip (prompt_template (tone enforced_rules)))
    (strip user_input).

(** Lines 72-73 *)
Definition word_count (text : string) : Z :=
  Z.of_nat (List.length (split (strip text))).

(** Lines 75-78 *)
Definition violates_length (text : string) (r : rules) : bool :=
  match max_words r with
  | None => false
  | Some n => negb (word_count text =? n)%Z
  end.

(** Lines 80-82 *)
Definition violates_persona (text : string) : bool :=
  existsb (fun b => is_substring b (lower text))
          ["as an ai"; "i cannot"; "i'm just"].

(** Lines 84-89 *)
Definition judge (output : string) (r : rules) : Judgment :=
  if violates_length output r then FAIL
  else if violates_persona output then FAIL
  else PASS.

(** Lines 91-95: the first [def enforce], which the second one replaces
    when the module is loaded. *)
Definition enforce_max_words (output : string) (r : rules) : string :=
  match max_words r with
  | Some n =>
      if (n =? 0)%Z then output
      else join " " (PySeq.slice_to (split (strip output)) n)
  | None => output
  end.

(** Lines 96-100: the [enforce] that callers get. *)
Definition enforce (text : string) (r : rules) : string :=
  strip (fold_left (fun text f => replace text f "")
                   ["*"; "..."; "pauses"; "watching"; "smiles"] text).

End Functions.

End Guard.

(** ** brain/llm.py *)

Module LLM.

Import Memory.
Local Open Scope string_scope.

Definition sys (text : string) : message := mkMessage "system" text None None.

Definition SYSTEM_CLEAN : message :=
  sys ("You are Crystal, a voice assistant. "
       ++ "Respond clearly, concisely, and professionally. "
       ++ "Answer the user's request directly. "
       ++ "Do not narrate your reasoning. "
       ++ "Do not role-play. "
       ++ "Do not add commentary or personality unless explicitly asked. "
       ++ "Do not include labels, headings, logs, or metadata.").

(** [m.get("role") in ("user", "assistant")] *)
Definition is_turn (m : message) : bool :=
  String.eqb (role m) "user" || String.eqb (role m) "assistant".

(** What a trace records of a message. *)
Definition as_pair (m : message) : string * string := (role m, content m).

Definition of_pair (p : string * string) : message :=
  mkMessage (fst p) (snd p) None None.

(** The argument of [run_llm]: a string or a list of messages. *)
Inductive llm_input : Type :=
| Text (s : string)
| Messages (l : list message).

Section Functions.

Variable W : Type.
Variable strip : string -> string.
(** [get_dynamic_context()]: the clock and the battery. *)
Variable get_dynamic_context : W -> W * result string.
(** Lines 74-77 up to [.strip()]: the request to Ollama with the messages
    and the temperature, [raise_for_status()], [resp.json()] and
    [data.get("message", {}).get("content", "")]. *)
Variable chat : list message -> float -> W -> W * result string.

(** Lines 46-79 *)
Definition generate_response (system_prompt : string)
  (messages : list message) (temperature : float) : M W string :=
  ctx <- perform get_dynamic_context ;;
  let full_messages :=
    ([SYSTEM_CLEAN; sys system_prompt; sys ctx]
     ++ filter is_turn messages)%list in
  catch (text <- call (chat full_messages temperature)
                      (EvLLM (map as_pair full_messages)) ;;
         ret (strip text))
        (fun e => ret ("LLM core error: " ++ exn_str e)).

(** Lines 85-95 *)
Definition run_llm (messages : llm_input) : M W string :=
  let messages :=
    match messages with
    | Text s => [mkMessage "user" s None None]
    | Messages l => l
    end in
  generate_response "" messages 0.3%float.

(** [run_llm] as the arbitrator calls it, with its list of role/content
    dicts. *)
Definition run_llm_on (prompt : list (string * string)) (w : W)
  : W * result string :=
  let '(w1, _, r) := run_llm (Messages (map of_pair prompt)) w in (w1, r).

End Functions.

End LLM.

(** ** A Python dict with string keys

    The items are kept in insertion order; assigning to a key that is
    there replaces its value in place. *)

Module PyDict.

Fixpoint dict_set {V} (d : list (string * V)) (k : string) (v : V)
  : list (string * V) :=
  match d with
  | [] => [(k, v)]
  | (k', v') :: rest =>
      if String.eqb k' k then (k, v) :: rest
      else (k', v') :: dict_set rest k v
  end.

Fixpoint dict_get {V} (d : list (string * V)) (k : string) : option V :=
  match d with
  | [] => None
  | (k', v') :: rest => if String.eqb k' k then Some v' else dict_get rest k
  end.

End PyDict.

(** ** brain/skill_bridge.py *)

Module SkillBridge.

Import PyDict.
Local Open Scope string_scope.

Section Bridge.

Variable W : Type.
Variable lower : string -> string.
Variable word_search : string -> string -> bool.
(** [getattr(instance, 'keywords', [])] *)
Variable inst_keywords : Instance W -> list string.

(** Lines 10-25: the index [skill_keywords], built skill by skill. *)
Fixpoint _load_skill_keywords (skills : list (skill_info W))
  (skill_keywords : list (string * list string))
  : M W (list (string * list string)) :=
  match skills with
  | [] => ret skill_keywords
  | skill_data :: rest =>
      match instance skill_data with
      | None => _load_skill_keywords rest skill_keywords
      | Some inst =>
          if String.eqb (name skill_data) ""
          then _load_skill_keywords rest skill_keywords
          else
            match inst_keywords inst with
            | [] => _load_skill_keywords rest skill_keywords
            | keywords =>
                print ("🔧 [SKILL BRIDGE]: Indexed "
                        ++ Arbitrator.str_of_nat (List.length keywords)
                        ++ " keywords for '" ++ name skill_data ++ "'") ;;;
                _load_skill_keywords rest
                  (dict_set skill_keywords (name skill_data)
                            (map lower keywords))
            end
      end
  end.

(** Lines 36-43: the score of one skill. *)
Definition keyword_score (user_input_lower : string)
  (keywords : list string) : nat :=
  fold_left
    (fun score keyword =>
       if is_substring keyword user_input_lower
       then
         if is_substring (" " ++ keyword ++ " ")
                         (" " ++ user_input_lower ++ " ")
         then score + 1 + 2
         else score + 1
       else score)
    keywords 0.

(** Lines 32-47: the best score and the first skill that reaches it. *)
Definition best_match (user_input_lower : string)
  (skill_keywords : list (string * list string)) : nat * option string :=
  fold_left
    (fun best item =>
       let score := keyword_score user_input_lower (snd item) in
       if (fst best <? score)%nat then (score, Some (fst item)) else best)
    skill_keywords (0, None).

Definition strong_triggers : list string :=
  ["weather"; "news"; "email"; "reminder"; "osint"; "search"].

(** Lines 27-60 *)
Definition _find_skill_by_keywords
  (skill_keywords : list (string * list string)) (user_input : string)
  : option string :=
  let user_input_lower := lower user_input in
  let '(best_score, best_skill) :=
    best_match user_input_lower skill_keywords in
  if (2 <=? best_score)%nat then best_skill
  else if (best_score =? 1)%nat then
    match find (fun item =>
                  existsb (fun k => str_in k strong_triggers
                                    && is_substring k user_input_lower)
                          (snd item))
               skill_keywords with
    | Some item => Some (fst item)
    | None => None
    end
  else None.

(** Lines 62-80 *)
Definition try_run (skills : list (skill_info W))
  (skill_keywords : list (string * list string)) (user_input : string)
  : M W (option string) :=
  print ("🔧 [SKILL BRIDGE]: Analyzing: '" ++ user_input ++ "'") ;;;
  match _find_skill_by_keywords skill_keywords user_input with
  | Some skill_name =>
      if String.eqb skill_name "" then ret None
      else
        print ("⚡ [SKILL BRIDGE]: Best Match found -> '"
                ++ skill_name ++ "'") ;;;
        catch (SkillManager.run_skill lower word_search skills user_input
                 None None)
              (fun e =>
                 print ("❌ [SKILL BRIDGE]: Execution error: "
                         ++ exn_str e) ;;;
                 ret None)
  | None => ret None
  end.

End Bridge.

End SkillBridge.

(** ** brain/brain.py: the intent map *)

Module IntentMap.

Import PyDict.

Section Map.

Variable W : Type.
Variable lower : string -> string.
(** [getattr(instance, "supported_intents", [])] *)
Variable inst_intents : Instance W -> list string.

(** Lines 256-269 *)
Definition _build_intent_skill_map (skills : list (skill_info W))
  : list (string * string) :=
  fold_left
    (fun mapping skill_info =>
       match instance skill_info with
       | None => mapping
       | Some inst =>
           fold_left
             (fun mapping intent =>
                dict_set mapping (lower intent) (name skill_info))
             (inst_intents inst) mapping
       end)
    skills [].

(** Lines 271-272 *)
Definition _map_intent_to_skill (intent_skill_map : list (string * string))
  (intent_name : string) : option string :=
  dict_get intent_skill_map (lower intent_name).

(** A skill that has an instance which lists the intent, compared in
    lower case. *)
Definition lists_intent (intent_name : string) (s : skill_info W) : bool :=
  match instance s with
  | Some inst =>
      existsb (fun i => String.eqb (lower i) (lower intent_name))
              (inst_intents inst)
  | None => false
  end.

End Map.

End IntentMap.

(** ** brain/brain.py: custom commands and the main pipeline *)

Module Pipeline.

Import PyDict PyStr.
Local Open Scope string_scope.

(** The state of a [CrystalBrain] that [process] changes: its memory, and
    the world outside. *)
Record brain_state (W : Type) : Type := mkState {
  memory : Memory.memory;
  ext : W
}.

(** What [__init__] fixes: the skills of the skill manager, the intent
    map built from them, the awareness dict (values as [str] prints them)
    and the temperature of conversations. *)
Record brain_config (W : Type) : Type := mkConfig {
  skills : list (skill_info W);
  intent_skill_map : list (string * string);
  awareness : list (string * string);
  temp_conversation : float
}.

(** A computation on the outside world, run by the brain. *)
Definition lift {W A} (m : M W A) : M (brain_state W) A :=
  fun s =>
    let '(w1, t, r) := m (ext s) in (mkState (memory s) w1, t, r).

(** A value of a pure computation that may have raised. *)
Definition lift_result {W A} (r : result A) : M W A := fun w => (w, [], r).

(** [if x:] for an optional string. *)
Definition truthy (x : option string) : bool :=
  match x with
  | Some s => negb (String.eqb s "")
  | None => false
  end.

Section Process.

Variable W : Type.
(** [str] methods, FlashText, the embedding model, [re.search] with word
    boundaries: as for [detect_intent] and [run_skill]. *)
Variable lower : string -> string.
Variable strip : string -> string.
Variable split : string -> list string.
Variable extract_keywords : string -> list string.
Variable Embedding : Type.
Variable encode : string -> result Embedding.
Variable cos_sim_max : Embedding -> string -> result float.
Variable word_search : string -> string -> bool.
(** The clock and the memory file. *)
Variable time_time : W -> W * float.
Variable write_json : string -> list Memory.message -> W -> W * result unit.
(** The regular expressions of the guard. *)
Variable re_greeting : string -> bool.
Variable re_respond_with : string -> option Z.
(** The language model. *)
Variable get_dynamic_context : W -> W * result string.
Variable chat : list Memory.message -> float -> W -> W * result string.
(** [core/custom_commands.json]: [None] when the file does not exist,
    otherwise the JSON object it holds, whose values are strings, or the
    exception of [open] or [json.load]. *)
Variable read_commands : W -> W * option (result (list (string * string))).
(** [time.strftime("%H:%M:%S")] *)
Variable strftime : W -> W * string.
(** [_extract_entities], three regular-expression scans of the text. *)
Variable _extract_entities : string -> list (string * string).
(** [str(d)] for the dict of [detect_intent] and for a list of entities *)
Variable str_result : IntentJudge.IntentResult -> string.

(** Lines 60-62 *)
Definition _trace (direction branch payload : string)
  : M (brain_state W) unit :=
  ts <- lift (perform (fun w => let '(w1, s) := strftime w in (w1, Ok s))) ;;
  print ("[" ++ ts ++ "] [BRAIN:" ++ branch ++ "] " ++ direction
          ++ " -> " ++ payload).

(** [self.memory.add(role, text, meta)] *)
Definition remember (role text : string)
  (meta : option (list (string * string))) : M (brain_state W) unit :=
  fun s =>
    let '(w1, t, r) :=
      Memory.add time_time write_json (memory s) role text meta (ext s) in
    match r with
    | Ok m' => (mkState m' w1, t, Ok tt)
    | Raise e => (mkState (memory s) w1, t, Raise e)
    end.

(** Lines 100-123 *)
Definition _check_custom_commands (cfg : brain_config W) (text : string)
  : M W (option string) :=
  fun w =>
    match read_commands w with
    | (w1, None) => (w1, [], Ok None)
    | (w1, Some loaded) =>
        catch
          (commands <- lift_result loaded ;;
           let trigger := strip (lower text) in
           match dict_get commands trigger with
           | None => ret None
           | Some mapped =>
               if is_prefix "skill:" mapped
               then SkillManager.run_skill lower word_search (skills cfg)
                      trigger None None
               else ret (Some mapped)
           end)
          (fun e =>
             print ("⚠️ [COMMAND ERROR]: " ++ exn_str e) ;;;
             ret None)
          w1
    end.

(** Lines 148-151 *)
Definition with_awareness (cfg : brain_config W) (system_prompt : string)
  : string :=
  match awareness cfg with
  | [] => system_prompt
  | aware =>
      system_prompt ++ Arbitrator.newline
      ++ join Arbitrator.newline
           (map (fun kv => "[Aware of " ++ fst kv ++ ": " ++ snd kv ++ "]")
                aware)
  end.

(** Lines 240-250: the guard, the memory write and the return. *)
Definition finish (gate : Guard.prompt) (final : string)
  : M (brain_state W) string :=
  let final :=
    match Guard.judge lower strip split final (Guard.p_rules gate) with
    | Guard.FAIL => Guard.enforce strip final (Guard.p_rules gate)
    | Guard.PASS => final
    end in
  (if negb (String.eqb final "") && (len final <? 500)%nat
   then remember "assistant" final None
   else ret tt) ;;;
  ret final.

(** Lines 195-217: the execute branch. *)
Definition execute_branch (cfg : brain_config W) (user_text : string)
  (intent_result : IntentJudge.IntentResult) (intent_name : string)
  (entities : list (string * string)) : M (brain_state W) string :=
  let skill_name :=
    IntentMap._map_intent_to_skill lower (intent_skill_map cfg) intent_name in
  _trace "INFO" "ROUTER" (intent_name ++ " → " ++ SkillManager.fmt skill_name) ;;;
  if truthy skill_name then
    _trace "SEND" "SKILL" (SkillManager.fmt skill_name) ;;;
    output <- lift (SkillManager.run_skill lower word_search (skills cfg)
                      user_text (Some intent_result) (Some entities)) ;;
    _trace "RECV" "SKILL" (SkillManager.fmt output) ;;;
    ret (match output with
         | Some s => if String.eqb s "" then "Command executed." else s
         | None => "Command executed."
         end)
  else ret "Intent recognized but no skill is mapped.".

(** Lines 219-234: the fallback to the language model. *)
Definition llm_branch (cfg : brain_config W) (user_text system_prompt : string)
  : M (brain_state W) string :=
  context <- (fun s => (s, [], Ok (Memory.context (memory s) 6))) ;;
  _trace "SEND" "LLM" user_text ;;;
  final <- lift (LLM.generate_response strip get_dynamic_context chat
                   system_prompt context (temp_conversation cfg)) ;;
  _trace "RECV" "LLM" final ;;;
  ret final.

(** Lines 164-250: the decision of the judge and what is done with
    it. *)
Definition intent_stage (cfg : brain_config W) (user_text : string)
  (entities : list (string * string)) (gate : Guard.prompt)
  (system_prompt : string) : M (brain_state W) string :=
  _trace "SEND" "INTENT_JUDGE" user_text ;;;
  intent_result <-
    lift_result
      (IntentJudge.detect_intent lower strip split extract_keywords
         encode cos_sim_max user_text) ;;
  _trace "RECV" "INTENT_JUDGE" (str_result intent_result) ;;;
  let action := IntentJudge.action intent_result in
  let intent_name := IntentJudge.intent intent_result in
  if String.eqb action "clarify" then
    let candidates :=
      match IntentJudge.candidates intent_result with
      | Some l => l
      | None => []
      end in
    let reply :=
      "I detected multiple possible commands: "
      ++ join ", " candidates ++ ". Which one should I run?" in
    remember "assistant" reply None ;;;
    ret reply
  else if String.eqb action "confirm" then
    match intent_name with
    | Some i =>
        let reply :=
          "Did you want me to run the '" ++ replace i "_" " "
          ++ "' command?" in
        remember "assistant" reply None ;;;
        ret reply
    | None =>
        raise (AttributeError
                 "'NoneType' object has no attribute 'replace'")
    end
  else
    final <-
      match (if String.eqb action "execute" then intent_name
             else None) with
      | Some (String _ _ as i) =>
          execute_branch cfg user_text intent_result i entities
      | _ => llm_branch cfg user_text system_prompt
      end ;;
    finish gate final.

(** Lines 129-250 *)
Definition process (cfg : brain_config W) (user_text : string)
  : M (brain_state W) string :=
  _trace "RECV" "GUI" user_text ;;;
  let entities := _extract_entities user_text in
  remember "user" user_text (Some entities) ;;;
  recall <- (fun s =>
               (s, [], Ok (Memory.query_entities lower (memory s) user_text))) ;;
  if negb (String.eqb recall "") then
    _trace "RECV" "MEMORY" recall ;;;
    remember "assistant" recall None ;;;
    ret recall
  else
    let gate :=
      Guard.build_prompt lower strip re_greeting re_respond_with user_text in
    let system_prompt := with_awareness cfg (Guard.system_prompt gate) in
    custom <- lift (_check_custom_commands cfg user_text) ;;
    match custom with
    | Some (String _ _ as reply) =>
        _trace "RECV" "CUSTOM_CMD" reply ;;;
        remember "assistant" reply None ;;;
        ret reply
    | _ => intent_stage cfg user_text entities gate system_prompt
    end.

End Process.

(** The test of [query_entities] (memory.py, line 73) on the text of a
    request. *)
Definition asks_recall (lower : string -> string) (text : string) : bool :=
  is_substring "who did i ask" (lower text)
  || is_substring "what did i ask" (lower text).

(** Every call a computation records, from whatever state, satisfies
    [P]. *)
Definition only {S A} (P : event -> Prop) (m : M S A) : Prop :=
  forall s, Forall P (snd (fst (m s))).

(** When [m] starts from a state that satisfies [I] and returns, the
    value and the state it ends in satisfy [Q]. *)
Definition returns {S A} (I : S -> Prop) (m : M S A) (Q : A -> S -> Prop)
  : Prop :=
  forall s s' t a, I s -> m s = (s', t, Ok a) -> Q a s'.

(** The entries of a turn as [process] stores them. *)
Definition user_entry (text : string) (entities : list (string * string))
  (ts : float) : Memory.message :=
  Memory.mkMessage "user" text (Some ts) (Some entities).

Definition assistant_entry (text : string) (ts : float) : Memory.message :=
  Memory.mkMessage "assistant" text (Some ts) (Some []).

End Pipeline.

(** ** Reading the moves of the monitor *)

Module MonitorSpec.

Import Brain.



Section Cycles.

Variable W : Type.
Variable cpu_percent : W -> W * result float.


End Cycles.

End MonitorSpec.

(** ** Reading the traces of the arbitrator *)

Module ArbiterSpec.

(** What [select_skill] may leave behind: calls that run no skill (prints,
    the model, the operator) and at most one run, of a candidate, with
    the arbitrator's dict.  [caught] tells whether the run is inside the
    [try] of lines 90-94. *)
Inductive arbiter_shape {W} (cands : list (skill_info W))
  (user_input : string) (caught : bool)
  : list event -> result (option string) -> Prop :=
| ar_no_run t r :
    existsb is_run t = false -> arbiter_shape cands user_input caught t r
| ar_run pre sk inst out post :
    existsb is_run pre = false -> existsb is_run post = false ->
    In sk cands -> instance sk = Some inst ->
    arbiter_shape cands user_input caught
      (pre ++ EvRun (inst_id inst) (ArbiterParams user_input) out :: post)
      (match out with
       | Ok v => Ok v
       | Raise e => if caught then Ok None else Raise e
       end).

End ArbiterSpec.

(** ** More concrete inputs *)

Module MoreExamples.

Import Examples.
Local Open Scope string_scope.

Definition clarify_music : IntentJudge.IntentResult :=
  IntentJudge.mkIntentResult "clarify" (Some "music_skill")
    (Some 0.72%float) (Some ["music_skill"; "app_pilot"]).

(** A call of [run_skill] without a decision, from the world 0. *)
Definition legacy (skills : list (skill_info nat)) (user_input : string)
  : nat * list event * result (option string) :=
  SkillManager.run_skill lower word_search skills user_input None None 0.

(** A dynamic context, and a model that answers with the name of a skill
    whatever it is sent. *)
Definition context_at_noon (w : nat) : nat * result string :=
  (w, Ok "[Context: Current Time is 12:00 PM. Battery: 80%]").

Definition ollama_names_music (messages : list Memory.message)
  (temperature : float) (w : nat) : nat * result string :=
  (S w, Ok " MusicSkill ").

(** An embedding model whose similarity fails at the third intent of
    [INTENTS]. *)
Definition cos_sim_broken (emb intent : string) : result float :=
  if String.eqb intent "camera_skill"
  then Raise (OtherError "tensor size mismatch")
  else Ok 0.375%float.

Definition detect_broken (text : string) : result IntentJudge.IntentResult :=
  IntentJudge.detect_intent lower strip split extract_keywords
    encode cos_sim_broken text.

(** Collaborators of [process]: a clock, a disk that takes every write,
    no custom commands file, and a model that makes conversation. *)
Definition epoch (w : nat) : nat * float := (w, 1762171200%float).

Definition strftime (w : nat) : nat * string := (w, "12:00:00").

Definition disk (file : string) (history : list Memory.message) (w : nat)
  : nat * result unit := (w, Ok tt).

Definition no_commands (w : nat)
  : nat * option (result (list (string * string))) := (w, None).

Definition ollama_chats (messages : list Memory.message)
  (temperature : float) (w : nat) : nat * result string :=
  (S w, Ok " At your service. ").

(** The two regular expressions of the guard on ASCII text: a greeting
    word at the start, followed by a word boundary, and the first
    "respond with N word". *)
Definition is_word_char (c : ascii) : bool :=
  let n := nat_of_ascii c in
  (((48 <=? n) && (n <=? 57)) || ((65 <=? n) && (n <=? 90))
   || ((97 <=? n) && (n <=? 122)) || (n =? 95))%nat.

Fixpoint leading_word (s : string) : string :=
  match s with
  | EmptyString => EmptyString
  | String c s' =>
      if is_word_char c then String c (leading_word s') else EmptyString
  end.

Definition re_greeting (s : string) : bool :=
  str_in (leading_word s) ["hi"; "hello"; "hey"; "yo"].

Fixpoint leading_digits (s : string) : string :=
  match s with
  | EmptyString => EmptyString
  | String c s' =>
      let n := nat_of_ascii c in
      if ((48 <=? n) && (n <=? 57))%nat
      then String c (leading_digits s') else EmptyString
  end.

Definition respond_with_here (s : string) : option Z :=
  if is_prefix "respond with " s then
    let rest := String.substring 13 (String.length s - 13) s in
    let d := leading_digits rest in
    match d with
    | EmptyString => None
    | _ =>
        if is_prefix " word"
             (String.substring (String.length d)
                (String.length rest - String.length d) rest)
        then digits 0 d else None
    end
  else None.

Fixpoint re_respond_with (s : string) : option Z :=
  match respond_with_here s with
  | Some n => Some n
  | None =>
      match s with
      | EmptyString => None
      | String _ s' => re_respond_with s'
      end
  end.

(** [_extract_entities] on a text without URLs and media names: the
    words of more than two characters that start with a capital. *)
Definition capitalised (text : string) : list (string * string) :=
  map (fun w => ("thing", w))
    (filter (fun w =>
               match w with
               | String c _ =>
                   let n := nat_of_ascii c in
                   ((65 <=? n) && (n <=? 90) && (2 <? String.length w))%nat
               | EmptyString => false
               end)
            (split text)).

(** A stand-in for [str] of the judge's dict, which shows the action and
    the intent. *)
Definition show_result (r : IntentJudge.IntentResult) : string :=
  "{'action': '" ++ IntentJudge.action r ++ "', 'intent': "
  ++ match IntentJudge.intent r with
     | Some i => "'" ++ i ++ "'"
     | None => "None"
     end ++ "}".

(** A brain with a radio that is not ready and a jukebox, both for music,
    and an empty memory. *)
Definition brain : Pipeline.brain_config nat :=
  Pipeline.mkConfig [radio_offline; jukebox]
    (IntentMap._build_intent_skill_map lower (fun _ => ["music_skill"])
       [radio_offline; jukebox])
    [] 0.2%float.

Definition fresh : Pipeline.brain_state nat :=
  Pipeline.mkState (Memory.mkMemory "crystal_memory.json" [] 20) 0.

(** [process] with a working judge, and with one whose model is down. *)
Definition ask (text : string) : Eff.M (Pipeline.brain_state nat) string :=
  Pipeline.process lower strip split extract_keywords encode cos_sim_music
    word_search epoch disk re_greeting re_respond_with context_at_noon
    ollama_chats no_commands strftime capitalised show_result brain text.

Definition ask_down (text : string)
  : Eff.M (Pipeline.brain_state nat) string :=
  Pipeline.process lower strip split extract_keywords encode_down
    cos_sim_music word_search epoch disk re_greeting re_respond_with
    context_at_noon ollama_chats no_commands strftime capitalised show_result
    brain text.

End MoreExamples.

(** * Properties *)

Unset Implicit Arguments.

(** ** The arbitration policy *)

Module IntentJudgeFacts.

Import IntentJudge.
Local Open Scope float_scope.

(** The close matches are the intents of the other entries whose score is
    within the margin of the top score. *)
Lemma close_matches_spec top_score rest i :
  In i (close_matches top_score rest) <->
  exists s, In (i, s) rest /\ (abs (top_score - s) <=? AMBIGUITY_MARGIN) = true.
Proof.
  unfold close_matches. rewrite in_map_iff. split.
  - intros [[i' s] [Hi Hin]]. simpl in Hi. subst i'.
    apply filter_In in Hin. destruct Hin as [Hin Hs]. exists s. now split.
  - intros [s [Hin Hs]]. exists (i, s). split; [reflexivity|].
    apply filter_In. now split.
Qed.

Lemma close_matches_nil top_score rest :
  (forall p, In p rest ->
             (abs (top_score - snd p) <=? AMBIGUITY_MARGIN) = false) ->
  close_matches top_score rest = [].
Proof.
  intros H. unfold close_matches.
  induction rest as [|p rest IH]; simpl; [reflexivity|].
  rewrite (H p (or_introl eq_refl)). apply IH.
  intros q Hq. apply H. now right.
Qed.

Lemma close_matches_nonempty top_score rest p :
  In p rest -> (abs (top_score - snd p) <=? AMBIGUITY_MARGIN) = true ->
  close_matches top_score rest <> [].
Proof.
  intros Hin Hp Hnil.
  assert (Hi : In (fst p) (close_matches top_score rest)).
  { apply close_matches_spec. exists (snd p). now destruct p. }
  rewrite Hnil in Hi. exact Hi.
Qed.

(** Two floats that a boolean test tells apart are different. *)
Lemma float_neq (x y : float) : (x =? y) = false -> (y =? y) = true -> x <> y.
Proof. intros Hxy Hyy E. rewrite E in Hxy. congruence. Qed.

(** C1: a ranking whose top score reaches MEDIUM_CONFIDENCE and has another
    entry within AMBIGUITY_MARGIN of it is answered with clarify, the top
    intent, and the candidates [top] followed by the close matches (the
    intents of the other entries within the margin, in ranking order),
    whether or not the top score reaches HIGH_CONFIDENCE. *)
Theorem C1_ambiguity_clarifies
  (top_intent : string) (top_score : float) (rest : list (string * float)) :
  (MEDIUM_CONFIDENCE <=? top_score) = true ->
  (exists p, In p rest /\
             (abs (top_score - snd p) <=? AMBIGUITY_MARGIN) = true) ->
  exists r,
    decide ((top_intent, top_score) :: rest) = Ok r /\
    action r = "clarify"%string /\
    intent r = Some top_intent /\
    candidates r = Some (top_intent :: close_matches top_score rest) /\
    close_matches top_score rest =
      map fst (filter (fun p => abs (top_score - snd p) <=? AMBIGUITY_MARGIN)
                      rest) /\
    close_matches top_score rest <> [].
Proof.
  intros Hmed [p [Hin Hp]].
  pose proof (close_matches_nonempty top_score rest p Hin Hp) as Hne.
  unfold decide. rewrite Hmed.
  destruct (close_matches top_score rest) as [|c cs] eqn:E; [congruence|].
  simpl. eexists. split; [reflexivity|]. simpl.
  split; [reflexivity|]. split; [reflexivity|]. split; [reflexivity|].
  split; [now rewrite <- E | discriminate].
Qed.

(** C1, on the spec's scenario {A: 0.72, B: 0.68}: the top score is above
    the execute threshold and the answer is still clarify with [A, B]. *)
Lemma C1_witness :
  (HIGH_CONFIDENCE <=? 0.72) = true /\
  exists r,
    decide [("A", 0.72); ("B", 0.68)]%string = Ok r /\
    action r = "clarify"%string /\
    intent r = Some "A"%string /\
    candidates r
      = Some ("A"%string :: close_matches 0.72 [("B"%string, 0.68)]) /\
    close_matches 0.72 [("B"%string, 0.68)] =
      map fst (filter (fun p => abs (0.72 - snd p) <=? AMBIGUITY_MARGIN)
                      [("B"%string, 0.68)]) /\
    close_matches 0.72 [("B"%string, 0.68)] <> [].
Proof.
  split; [reflexivity|].
  apply (C1_ambiguity_clarifies "A" 0.72 [("B"%string, 0.68)]).
  - reflexivity.
  - exists ("B"%string, 0.68). split; [left; reflexivity | reflexivity].
Defined.

(** C2 as the spec words it (the confidence is the top score itself) fails:
    in the ranking {A: 0.84375, B: 0.375} nothing is close to the top
    score, which is above the execute threshold, and the confidence
    reported is 0.844. *)
Lemma C2_counterexample :
  close_matches 0.84375 [("B"%string, 0.375)] = [] /\
  (HIGH_CONFIDENCE <=? 0.84375) = true /\
  decide [("A", 0.84375); ("B", 0.375)]%string
    = Ok (mkIntentResult "execute" (Some "A"%string) (Some 0.844) None) /\
  ~ (decide [("A", 0.84375); ("B", 0.375)]%string
     = Ok (mkIntentResult "execute" (Some "A"%string) (Some 0.84375) None)).
Proof.
  split; [reflexivity|]. split; [reflexivity|].
  split; [vm_compute; reflexivity|].
  intros H.
  apply (f_equal (fun r => match r with
                           | Ok x => match confidence x with
                                     | Some c => c
                                     | None => 0
                                     end
                           | Raise _ => 0
                           end)) in H.
  vm_compute in H. revert H. apply float_neq; reflexivity.
Qed.

(** C2, amended: when no other entry is within the margin of the top
    score, the decision is execute if the top score reaches
    HIGH_CONFIDENCE, else confirm if it reaches MEDIUM_CONFIDENCE, else
    none; execute and confirm carry the top intent and, as confidence, the
    top score rounded to three decimals. *)
Theorem C2_confidence_tiers
  (top_intent : string) (top_score : float) (rest : list (string * float)) :
  (forall p, In p rest ->
             (abs (top_score - snd p) <=? AMBIGUITY_MARGIN) = false) ->
  decide ((top_intent, top_score) :: rest) =
    if HIGH_CONFIDENCE <=? top_score
    then Ok (mkIntentResult "execute" (Some top_intent)
               (Some (round3 top_score)) None)
    else if MEDIUM_CONFIDENCE <=? top_score
    then Ok (mkIntentResult "confirm" (Some top_intent)
               (Some (round3 top_score)) None)
    else Ok (mkIntentResult "none" None None None).
Proof.
  intros H. unfold decide.
  rewrite (close_matches_nil top_score rest H). reflexivity.
Qed.

(** C2, on the spec's scenario {A: 0.85, B: 0.40}: execute A. *)
Lemma C2_witness :
  decide [("A", 0.85); ("B", 0.40)]%string =
    Ok (mkIntentResult "execute" (Some "A"%string) (Some 0.85) None).
Proof.
  refine (eq_trans (C2_confidence_tiers "A" 0.85 [("B"%string, 0.40)] _) _).
  - intros p [<- | []]. reflexivity.
  - reflexivity.
Defined.

(** Every decision on a ranking keeps the shape of the result: candidates
    come with clarify only and are never empty, execute and confirm carry
    a confidence. *)
Lemma decide_shape scores r :
  decide scores = Ok r ->
  (forall l, candidates r = Some l -> action r = "clarify"%string /\ l <> []) /\
  (action r = "execute"%string \/ action r = "confirm"%string ->
   exists c, confidence r = Some c).
Proof.
  unfold decide. destruct scores as [|[top_intent top_score] rest];
    [discriminate|].
  destruct (negb _ && _).
  { intros [= <-]. simpl. split.
    - intros l [= <-]. split; [reflexivity | discriminate].
    - intros _. eexists. reflexivity. }
  destruct (HIGH_CONFIDENCE <=? top_score).
  { intros [= <-]. simpl. split; [discriminate|].
    intros _. eexists. reflexivity. }
  destruct (MEDIUM_CONFIDENCE <=? top_score).
  { intros [= <-]. simpl. split; [discriminate|].
    intros _. eexists. reflexivity. }
  intros [= <-]. simpl. split; [discriminate|].
  intros [H | H]; discriminate.
Qed.

Section DetectIntentFacts.

Variable lower : string -> string.
Variable strip : string -> string.
Variable split : string -> list string.
Variable extract_keywords : string -> list string.
Variable Embedding : Type.
Variable encode : string -> result Embedding.
Variable cos_sim_max : Embedding -> string -> result float.

(** C8: whatever the text and the collaborators, a result of
    detect_intent has candidates only when its action is clarify, and
    then the list is not empty; when its action is execute or confirm it
    has a confidence. *)
Theorem C8_result_invariant (text : string) (r : IntentResult) :
  detect_intent lower strip split extract_keywords encode cos_sim_max text
    = Ok r ->
  (forall l, candidates r = Some l ->
             action r = "clarify"%string /\ l <> []) /\
  (action r = "execute"%string \/ action r = "confirm"%string ->
   exists c, confidence r = Some c).
Proof.
  assert (Hnone :
    (forall l, candidates action_none = Some l ->
               action action_none = "clarify"%string /\ l <> []) /\
    (action action_none = "execute"%string \/
     action action_none = "confirm"%string ->
     exists c, confidence action_none = Some c)).
  { split; [discriminate|]. intros [H | H]; discriminate. }
  unfold detect_intent.
  destruct (String.eqb _ _); [intros [= <-]; exact Hnone|].
  destruct (split _) as [|first_word ws]; [discriminate|].
  destruct (_ && _); [intros [= <-]; exact Hnone|].
  destruct (encode _) as [emb|e]; [|discriminate]. cbn [rbind].
  destruct (score_intents cos_sim_max emb INTENTS) as [scores|e];
    [|discriminate]. cbn [rbind].
  apply decide_shape.
Qed.

(** The scoring loop stops at the first intent whose similarity
    raises, with that exception. *)
Lemma score_intents_raises (emb : Embedding) (e : exn) :
  forall (before : list string) (i : string) (after : list string),
    (forall j, In j before -> exists c, cos_sim_max emb j = Ok c) ->
    cos_sim_max emb i = Raise e ->
    score_intents cos_sim_max emb (before ++ i :: after) = Raise e.
Proof.
  induction before as [|j before IH]; intros i after Hb Hi; cbn.
  - rewrite Hi. reflexivity.
  - destruct (Hb j (or_introl eq_refl)) as [c Hc]. rewrite Hc. cbn [rbind].
    rewrite (IH i after); [reflexivity | | exact Hi].
    intros k Hk. apply Hb. right. exact Hk.
Qed.

(** C6, amended: an empty text and a text that the keyword/verb gate
    rejects are answered with {action: none} whatever the state of the
    embedding model, which is not consulted.  For a text that passes the
    gate, an exception raised while the text is embedded, or by the
    similarity of any intent of INTENTS once the intents before it have
    been scored, is not turned into an empty ranking: detect_intent ends
    with that exception, so no decision at all (and no execute decision)
    comes out of unscored text. *)
Theorem C6_scoring_failure_propagates (text : string) :
  (String.eqb (strip (lower text)) "" = true ->
   detect_intent lower strip split extract_keywords encode cos_sim_max text
     = Ok action_none) /\
  (forall first_word ws,
     String.eqb (strip (lower text)) "" = false ->
     split (strip (lower text)) = first_word :: ws ->
     extract_keywords (strip (lower text)) = [] ->
     str_in first_word IMPERATIVE_VERBS = false ->
     detect_intent lower strip split extract_keywords encode cos_sim_max text
       = Ok action_none) /\
  (forall first_word ws e,
     String.eqb (strip (lower text)) "" = false ->
     split (strip (lower text)) = first_word :: ws ->
     extract_keywords (strip (lower text)) <> [] \/
       str_in first_word IMPERATIVE_VERBS = true ->
     encode (strip (lower text)) = Raise e ->
     detect_intent lower strip split extract_keywords encode cos_sim_max text
       = Raise e) /\
  (forall first_word ws emb before i after e,
     String.eqb (strip (lower text)) "" = false ->
     split (strip (lower text)) = first_word :: ws ->
     extract_keywords (strip (lower text)) <> [] \/
       str_in first_word IMPERATIVE_VERBS = true ->
     encode (strip (lower text)) = Ok emb ->
     INTENTS = (before ++ i :: after)%list ->
     (forall j, In j before -> exists c, cos_sim_max emb j = Ok c) ->
     cos_sim_max emb i = Raise e ->
     detect_intent lower strip split extract_keywords encode cos_sim_max text
       = Raise e).
Proof.
  assert (G : forall first_word,
    extract_keywords (strip (lower text)) <> [] \/
      str_in first_word IMPERATIVE_VERBS = true ->
    (match extract_keywords (strip (lower text)) with
     | [] => true
     | _ => false
     end && negb (str_in first_word IMPERATIVE_VERBS)) = false).
  { intros first_word [Hk | Hv].
    - destruct (extract_keywords _); [congruence | reflexivity].
    - rewrite Hv. apply andb_false_r. }
  split; [|split; [|split]].
  - intros He. unfold detect_intent. rewrite He. reflexivity.
  - intros first_word ws Hne Hsplit Hk Hv.
    unfold detect_intent. rewrite Hne, Hsplit, Hk, Hv. reflexivity.
  - intros first_word ws e Hne Hsplit Hgate Hfail.
    unfold detect_intent. rewrite Hne, Hsplit, (G first_word Hgate), Hfail.
    reflexivity.
  - intros first_word ws emb before i after e Hne Hsplit Hgate Hemb Hsplit_i
      Hbefore Hi.
    unfold detect_intent. rewrite Hne, Hsplit, (G first_word Hgate), Hemb.
    cbn [rbind]. rewrite Hsplit_i.
    rewrite (score_intents_raises emb e before i after Hbefore Hi).
    reflexivity.
Qed.

(** Past the gate, detect_intent is the decision on the sorted scores. *)
Lemma detect_intent_scored (text first_word : string) (ws : list string)
  (emb : Embedding) (scores : list (string * float)) :
  String.eqb (strip (lower text)) "" = false ->
  split (strip (lower text)) = first_word :: ws ->
  extract_keywords (strip (lower text)) <> [] \/
    str_in first_word IMPERATIVE_VERBS = true ->
  encode (strip (lower text)) = Ok emb ->
  score_intents cos_sim_max emb INTENTS = Ok scores ->
  detect_intent lower strip split extract_keywords encode cos_sim_max text
    = decide (sort_desc scores).
Proof.
  intros Hne Hsplit Hgate Henc Hsc.
  unfold detect_intent. rewrite Hne, Hsplit.
  assert (G : (match extract_keywords (strip (lower text)) with
               | [] => true
               | _ => false
               end && negb (str_in first_word IMPERATIVE_VERBS)) = false).
  { destruct Hgate as [Hk | Hv].
    - destruct (extract_keywords _); [congruence | reflexivity].
    - rewrite Hv. apply andb_false_r. }
  rewrite G, Henc. cbn [rbind]. rewrite Hsc. reflexivity.
Qed.

(** Every intent of INTENTS gets a score, in the order of the dict. *)
Lemma score_intents_names (emb : Embedding) :
  forall intents scores,
    score_intents cos_sim_max emb intents = Ok scores ->
    map fst scores = intents.
Proof.
  induction intents as [|i rest IH]; intros scores H; cbn in H.
  - injection H as <-. reflexivity.
  - destruct (cos_sim_max emb i) as [x|e]; [|discriminate]. cbn in H.
    destruct (score_intents cos_sim_max emb rest) as [l|e]; [|discriminate].
    cbn in H. injection H as <-. cbn. f_equal. apply IH. reflexivity.
Qed.

End DetectIntentFacts.

(** C8, on the text "Play  music ": execute, with a confidence and without
    candidates. *)
Lemma C8_witness :
  Examples.detect "Play  music " = Ok Examples.execute_music /\
  (forall l, candidates Examples.execute_music = Some l ->
             action Examples.execute_music = "clarify"%string /\ l <> []) /\
  (action Examples.execute_music = "execute"%string \/
   action Examples.execute_music = "confirm"%string ->
   exists c, confidence Examples.execute_music = Some c).
Proof.
  split; [vm_compute; reflexivity|].
  apply (C8_result_invariant Examples.lower Examples.strip Examples.split
           Examples.extract_keywords string Examples.encode
           Examples.cos_sim_music "Play  music ").
  vm_compute. reflexivity.
Defined.

(** C6 as the spec words it fails: with the embedding model down, the text
    "play music" passes the gate and detect_intent raises instead of
    answering {action: none}; so it does when the similarity of the third
    intent fails. *)
Lemma C6_counterexample :
  Examples.detect_down "play music" = Raise (OtherError "model unavailable") /\
  Examples.detect_down "play music" <> Ok action_none /\
  MoreExamples.detect_broken "play music"
    = Raise (OtherError "tensor size mismatch") /\
  MoreExamples.detect_broken "play music" <> Ok action_none.
Proof.
  assert (E : Examples.detect_down "play music"
              = Raise (OtherError "model unavailable"))
    by (vm_compute; reflexivity).
  assert (E' : MoreExamples.detect_broken "play music"
               = Raise (OtherError "tensor size mismatch"))
    by (vm_compute; reflexivity).
  split; [exact E|]. split; [rewrite E; discriminate|].
  split; [exact E'|]. rewrite E'. discriminate.
Qed.

(** C6, on the text "play music": with the embedding model down, and
    with a similarity that fails at camera_skill after app_pilot and
    music_skill have been scored, the exception is the outcome of
    detect_intent. *)
Lemma C6_witness :
  Examples.detect_down "play music" = Raise (OtherError "model unavailable") /\
  MoreExamples.detect_broken "play music"
    = Raise (OtherError "tensor size mismatch").
Proof.
  split.
  - apply (proj1 (proj2 (proj2 (C6_scoring_failure_propagates Examples.lower
             Examples.strip Examples.split Examples.extract_keywords string
             Examples.encode_down Examples.cos_sim_music "play music")))
             "play"%string ["music"%string]
             (OtherError "model unavailable")).
    + reflexivity.
    + reflexivity.
    + right. reflexivity.
    + reflexivity.
  - apply (proj2 (proj2 (proj2 (C6_scoring_failure_propagates Examples.lower
             Examples.strip Examples.split Examples.extract_keywords string
             Examples.encode MoreExamples.cos_sim_broken "play music")))
             "play"%string ["music"%string] "play music"%string
             ["app_pilot"; "music_skill"]%string "camera_skill"%string
             [ "weather_sentinel"; "clock"; "file_commander"; "email_skill";
               "web_researcher"; "reminder_skill"; "smart_home";
               "system_sentinel"; "wifi_scanner"; "osint_investigator";
               "location_sentinel"; "greet" ]%string
             (OtherError "tensor size mismatch")).
    + reflexivity.
    + reflexivity.
    + right. reflexivity.
    + reflexivity.
    + reflexivity.
    + intros j [<- | [<- | []]]; eexists; vm_compute; reflexivity.
    + reflexivity.
Defined.

(** The remaining scenarios of the policy: a lone 0.55 is confirmed, a
    lone 0.30 is dropped, and an empty ranking cannot be indexed. *)
Example decide_confirm :
  decide [("A"%string, 0.55)]
  = Ok (mkIntentResult "confirm" (Some "A"%string) (Some 0.55) None).
Proof. vm_compute. reflexivity. Qed.

Example decide_none : decide [("A"%string, 0.30)] = Ok action_none.
Proof. vm_compute. reflexivity. Qed.

Example decide_empty :
  decide [] = Raise (IndexError "list index out of range").
Proof. reflexivity. Qed.

(** With a model that scores music_skill 0.72 and app_pilot 0.68, the text
    "play something" is answered with clarify, the two intents ranked by
    score. *)
Example detect_tied :
  detect_intent Examples.lower Examples.strip Examples.split
    Examples.extract_keywords Examples.encode Examples.cos_sim_tied
    "play something"
  = Ok (mkIntentResult "clarify" (Some "music_skill"%string) (Some 0.72)
          (Some ["music_skill"; "app_pilot"]%string)).
Proof. vm_compute. reflexivity. Qed.

(** Text without keyword or leading verb never reaches the model. *)
Example detect_chat :
  Examples.detect_down "how are you" = Ok action_none.
Proof. vm_compute. reflexivity. Qed.

End IntentJudgeFacts.

(** ** The intent dispatcher *)

Module SkillManagerFacts.

Import IntentJudge SkillManager.
Local Open Scope string_scope.

Section RunSkillFacts.

Variable W : Type.
Variable lower : string -> string.
Variable word_search : string -> string -> bool.

(** The loop over the candidates leaves a trace of the shape
    [dispatch_trace] describes. *)
Lemma for_return_dispatch (p : params) :
  forall (cands : list (option (Instance W))) w w' t o,
    for_return cands (try_instance p) w = (w', t, o) ->
    dispatch_trace p cands t o.
Proof.
  induction cands as [|c rest IH]; intros w w' t o H.
  - cbn in H. injection H as <- <- <-. constructor.
  - cbn [for_return] in H.
    assert (Hrest : forall w1 w3 t3 r3,
               for_return rest (try_instance p) w1 = (w3, t3, r3) ->
               dispatch_trace p rest t3 r3) by (intros; eapply IH; eauto).
    clear IH. revert H Hrest.
    generalize (for_return rest (try_instance p)). intros loop H Hrest.
    unfold bind at 1 in H.
    destruct c as [inst|].
    + unfold try_instance, bind, call_check, call_run, call in H.
      destruct (check_requirements inst w) as [w1 [[can_run msg]|e]] eqn:Ec;
        cbn in H.
      * destruct can_run; cbn in H.
        -- destruct (run inst p w1) as [w2 [[s|]|e]] eqn:Er; cbn in H.
           ++ injection H as <- <- <-. apply dt_answer.
           ++ destruct (loop w2) as [[w3 t3] r3] eqn:Ef.
              injection H as <- <- <-. apply dt_no_answer. eapply Hrest, Ef.
           ++ injection H as <- <- <-. apply dt_run_raises.
        -- destruct (loop w1) as [[w3 t3] r3] eqn:Ef.
           injection H as <- <- <-. apply dt_not_ready. eapply Hrest, Ef.
      * injection H as <- <- <-. apply dt_check_raises.
    + cbn in H. injection H as <- <- <-. apply dt_no_instance.
Qed.

(** In such a trace a skill is run only right after it said it is
    ready, and a run that did not return [None] is the last call: its
    outcome is the outcome of the dispatch. *)
Lemma dispatch_trace_run (p : params)
  (cands : list (option (Instance W))) t o :
  dispatch_trace p cands t o ->
  forall pre id p' out post,
    t = (pre ++ EvRun id p' out :: post)%list ->
    (exists pre' msg, pre = (pre' ++ [EvCheck id (Ok (true, msg))])%list) /\
    (out = Ok None \/
     (post = [] /\
      o = match out with
          | Ok v => Ok (Some v)
          | Raise e => Raise e
          end)).
Proof.
  induction 1 as [ | inst rest msg t r Hd IH | inst rest msg s
                   | inst rest msg t r Hd IH | inst rest e
                   | inst rest msg e | rest ];
    intros pre id p' out post E.
  - destruct pre; discriminate.
  - destruct pre as [|ev pre]; [discriminate|].
    injection E as <- E.
    destruct (IH _ _ _ _ _ E) as [[pre' [m ->]] Hout].
    split; [|exact Hout].
    exists (EvCheck (inst_id inst) (Ok (false, msg)) :: pre'), m.
    reflexivity.
  - destruct pre as [|ev [|ev' pre]].
    + discriminate.
    + inversion E; subst; clear E. split.
      * exists [], msg. reflexivity.
      * right. split; reflexivity.
    + injection E as _ _ E. destruct pre; discriminate.
  - destruct pre as [|ev [|ev' pre]].
    + discriminate.
    + inversion E; subst; clear E. split.
      * exists [], msg. reflexivity.
      * left. reflexivity.
    + injection E as <- <- E.
      destruct (IH _ _ _ _ _ E) as [[pre' [m ->]] Hout].
      split; [|exact Hout].
      exists (EvCheck (inst_id inst) (Ok (true, msg))
              :: EvRun (inst_id inst) p (Ok None) :: pre'), m.
      reflexivity.
  - destruct pre as [|ev [|ev' pre]]; discriminate.
  - destruct pre as [|ev [|ev' pre]].
    + discriminate.
    + inversion E; subst; clear E. split.
      * exists [], msg. reflexivity.
      * right. split; reflexivity.
    + injection E as _ _ E. destruct pre; discriminate.
  - destruct pre; discriminate.
Qed.

(** On an execute decision [run_skill] is the intent path. *)
Lemma run_skill_execute (skills : list (skill_info W)) user_input ir
  entities :
  action ir = "execute" ->
  run_skill lower word_search skills user_input (Some ir) entities =
  run_intent skills user_input (intent ir)
    (match confidence ir with Some c => c | None => 0.0%float end)
    entities.
Proof.
  intros Ha. unfold run_skill. rewrite Ha. reflexivity.
Qed.

(** The intent path: nothing is called when no skill lists the intent;
    otherwise the trace is a dispatch over the matching instances. *)
Lemma run_intent_dispatch (skills : list (skill_info W)) user_input intent
  conf entities w w' t r :
  run_intent skills user_input intent conf entities w = (w', t, r) ->
  (matches_for skills intent = [] /\ t = [] /\
   r = Ok (Some ("⚠️ Intent '" ++ fmt intent ++ "' has no mapped skills.")))
  \/
  (matches_for skills intent <> [] /\
   exists o,
     dispatch_trace (IntentParams user_input intent conf entities)
       (matches_for skills intent) t o /\
     r = intent_answer intent o).
Proof.
  unfold run_intent.
  destruct (matches_for skills intent) as [|c cs] eqn:Em.
  - intros H. cbn in H. injection H as <- <- <-. left. auto.
  - intros H. right. split; [discriminate|].
    unfold bind in H.
    destruct (for_return (c :: cs) _ w) as [[w1 t1] o] eqn:Ef.
    apply for_return_dispatch in Ef.
    assert (E : t = t1 /\ r = intent_answer intent o).
    { destruct o as [[v|]|e]; cbn in H; injection H as <- <- <-;
        rewrite ?app_nil_r; split; reflexivity. }
    destruct E as [-> ->]. exists o. split; [exact Ef | reflexivity].
Qed.

(** C5, amended: on an execute decision the instances of the skills
    that list the intent are taken in registration order, as
    [dispatch_trace] spells out; a skill is run only right after its
    readiness check said yes; and the first run that returns a string,
    the empty string included, ends the dispatch with that string: no
    later call is made.  Only [None] makes the dispatcher go on. *)
Theorem C5_dispatch_in_order (skills : list (skill_info W))
  (user_input : string) (ir : IntentResult)
  (entities : option (list (string * string)))
  (w w' : W) (t : list event) (r : result (option string)) :
  action ir = "execute" ->
  run_skill lower word_search skills user_input (Some ir) entities w
    = (w', t, r) ->
  (exists o,
     dispatch_trace
       (IntentParams user_input (intent ir)
          (match confidence ir with Some c => c | None => 0.0%float end)
          entities)
       (matches_for skills (intent ir)) t o /\
     r = match matches_for skills (intent ir) with
         | [] => Ok (Some ("⚠️ Intent '" ++ fmt (intent ir)
                            ++ "' has no mapped skills."))
         | _ => intent_answer (intent ir) o
         end) /\
  (forall pre id p out post,
     t = (pre ++ EvRun id p out :: post)%list ->
     exists pre' msg, pre = (pre' ++ [EvCheck id (Ok (true, msg))])%list) /\
  (forall pre id p s post,
     t = (pre ++ EvRun id p (Ok (Some s)) :: post)%list ->
     post = [] /\ r = Ok (Some s)).
Proof.
  intros Ha H. rewrite (run_skill_execute _ _ _ _ Ha) in H.
  apply run_intent_dispatch in H.
  destruct H as [[Em [-> ->]] | [Hne [o [Hd ->]]]].
  - rewrite Em. split; [|split].
    + exists (Ok None). split; [constructor | reflexivity].
    + intros pre id p out post E. destruct pre; discriminate.
    + intros pre id p s post E. destruct pre; discriminate.
  - split; [|split].
    + exists o. split; [exact Hd|].
      destruct (matches_for skills (intent ir)); [congruence | reflexivity].
    + intros pre id p out post E.
      exact (proj1 (dispatch_trace_run _ _ _ _ Hd _ _ _ _ _ E)).
    + intros pre id p s post E.
      destruct (proj2 (dispatch_trace_run _ _ _ _ Hd _ _ _ _ _ E))
        as [Hn | [-> ->]]; [discriminate|].
      split; reflexivity.
Qed.

(** C3, amended: on an execute decision an exception raised by the
    [run] of a skill is not caught by the dispatcher: that call is the
    last one of the dispatch (no further candidate is asked or run) and
    [run_skill] ends with the same exception. *)
Theorem C3_run_exception_propagates (skills : list (skill_info W))
  (user_input : string) (ir : IntentResult)
  (entities : option (list (string * string)))
  (w w' : W) (t : list event) (r : result (option string))
  (pre post : list event) (id : string) (p : params) (e : exn) :
  action ir = "execute" ->
  run_skill lower word_search skills user_input (Some ir) entities w
    = (w', t, r) ->
  t = (pre ++ EvRun id p (Raise e) :: post)%list ->
  post = [] /\ r = Raise e.
Proof.
  intros Ha H E. rewrite (run_skill_execute _ _ _ _ Ha) in H.
  apply run_intent_dispatch in H.
  destruct H as [[Em [-> ->]] | [Hne [o [Hd ->]]]].
  - destruct pre; discriminate.
  - destruct (proj2 (dispatch_trace_run _ _ _ _ Hd _ _ _ _ _ E))
      as [Hn | [-> ->]]; [discriminate|].
    split; reflexivity.
Qed.

End RunSkillFacts.

(** C5 as the spec words it fails on the empty string: the first ready
    skill returns the empty string, the dispatcher returns it and never
    runs the jukebox that comes next. *)
Lemma C5_counterexample :
  Examples.dispatch [Examples.radio_silent; Examples.jukebox]
    = (1, [EvCheck "RadioSilent" (Ok (true, ""));
           EvRun "RadioSilent" Examples.music_params (Ok (Some ""))],
       Ok (Some "")) /\
  existsb (is_run_of "Jukebox")
    (snd (fst (Examples.dispatch [Examples.radio_silent; Examples.jukebox])))
    = false.
Proof. split; vm_compute; reflexivity. Qed.

(** C5, on five skills: the clock does not list the intent, the offline
    radio is asked and skipped, the mute radio returns [None], the jukebox
    answers, and the silent radio after it is never called. *)
Lemma C5_witness :
  Examples.dispatch [Examples.clock; Examples.radio_offline;
                     Examples.radio_mute; Examples.jukebox;
                     Examples.radio_silent]
    = (2, [EvCheck "RadioOffline" (Ok (false, "missing credentials"));
           EvCheck "RadioMute" (Ok (true, ""));
           EvRun "RadioMute" Examples.music_params (Ok None);
           EvCheck "Jukebox" (Ok (true, ""));
           EvRun "Jukebox" Examples.music_params (Ok (Some "Playing jazz"))],
       Ok (Some "Playing jazz")) /\
  (forall pre id p s post,
     [EvCheck "RadioOffline" (Ok (false, "missing credentials"));
      EvCheck "RadioMute" (Ok (true, ""));
      EvRun "RadioMute" Examples.music_params (Ok None);
      EvCheck "Jukebox" (Ok (true, ""));
      EvRun "Jukebox" Examples.music_params (Ok (Some "Playing jazz"))]
     = (pre ++ EvRun id p (Ok (Some s)) :: post)%list ->
     post = [] /\ Ok (Some "Playing jazz") = Ok (Some s)).
Proof.
  assert (E : Examples.dispatch [Examples.clock; Examples.radio_offline;
                                 Examples.radio_mute; Examples.jukebox;
                                 Examples.radio_silent]
    = (2, [EvCheck "RadioOffline" (Ok (false, "missing credentials"));
           EvCheck "RadioMute" (Ok (true, ""));
           EvRun "RadioMute" Examples.music_params (Ok None);
           EvCheck "Jukebox" (Ok (true, ""));
           EvRun "Jukebox" Examples.music_params (Ok (Some "Playing jazz"))],
       Ok (Some "Playing jazz"))) by (vm_compute; reflexivity).
  split; [exact E|].
  exact (proj2 (proj2 (C5_dispatch_in_order nat Examples.lower
           Examples.word_search _ "play jazz" Examples.execute_music None
           0 _ _ _ eq_refl E))).
Defined.

(** C3 as the spec words it fails: the first ready skill raises, the
    jukebox after it is never asked, and the caller gets the exception
    instead of the jukebox's answer. *)
Lemma C3_counterexample :
  Examples.dispatch [Examples.radio_broken; Examples.jukebox]
    = (1, [EvCheck "RadioBroken" (Ok (true, ""));
           EvRun "RadioBroken" Examples.music_params
                 (Raise (OtherError "stream down"))],
       Raise (OtherError "stream down")) /\
  snd (Examples.dispatch [Examples.radio_broken; Examples.jukebox])
    <> Ok (Some "Playing jazz").
Proof.
  assert (E : Examples.dispatch [Examples.radio_broken; Examples.jukebox]
    = (1, [EvCheck "RadioBroken" (Ok (true, ""));
           EvRun "RadioBroken" Examples.music_params
                 (Raise (OtherError "stream down"))],
       Raise (OtherError "stream down"))) by (vm_compute; reflexivity).
  split; [exact E|]. rewrite E. discriminate.
Qed.

(** C3, on the same two skills. *)
Lemma C3_witness :
  Examples.dispatch [Examples.radio_broken; Examples.jukebox]
    = (1, [EvCheck "RadioBroken" (Ok (true, ""));
           EvRun "RadioBroken" Examples.music_params
                 (Raise (OtherError "stream down"))],
       Raise (OtherError "stream down")) /\
  (@nil event = [] /\
   @Raise (option string) (OtherError "stream down")
     = Raise (OtherError "stream down")).
Proof.
  assert (E : Examples.dispatch [Examples.radio_broken; Examples.jukebox]
    = (1, [EvCheck "RadioBroken" (Ok (true, ""));
           EvRun "RadioBroken" Examples.music_params
                 (Raise (OtherError "stream down"))],
       Raise (OtherError "stream down"))) by (vm_compute; reflexivity).
  split; [exact E|].
  exact (C3_run_exception_propagates nat Examples.lower Examples.word_search
           _ "play jazz" Examples.execute_music None 0 _ _ _
           [EvCheck "RadioBroken" (Ok (true, ""))] []
           "RadioBroken" Examples.music_params (OtherError "stream down")
           eq_refl E eq_refl).
Defined.

End SkillManagerFacts.

(** ** Traces of computations *)

Module EffFacts.

Section Emits.

Variable W : Type.
Variable P : event -> bool.

Lemma emits_ret {A} (a : A) : emits P (@ret W A a).
Proof. intros w. reflexivity. Qed.

Lemma emits_raise {A} (e : exn) : emits P (@raise W A e).
Proof. intros w. reflexivity. Qed.

Lemma emits_emit (ev : event) : P ev = true -> emits P (@emit W ev).
Proof. intros H w. cbn. now rewrite H. Qed.

Lemma emits_call {A} (f : W -> W * result A) (ev : result A -> event) :
  (forall r, P (ev r) = true) -> emits P (call f ev).
Proof.
  intros H w. unfold call. destruct (f w) as [w1 r]. cbn. now rewrite H.
Qed.

Lemma emits_bind {A B} (m : M W A) (k : A -> M W B) :
  emits P m -> (forall a, emits P (k a)) -> emits P (bind m k).
Proof.
  intros Hm Hk w. unfold bind. specialize (Hm w).
  destruct (m w) as [[w1 t1] [a|e]]; cbn in *; [|exact Hm].
  specialize (Hk a w1). destruct (k a w1) as [[w2 t2] r2]. cbn in *.
  rewrite forallb_app, Hm, Hk. reflexivity.
Qed.

Lemma emits_catch {A} (m : M W A) (h : exn -> M W A) :
  emits P m -> (forall e, emits P (h e)) -> emits P (catch m h).
Proof.
  intros Hm Hh w. unfold catch. specialize (Hm w).
  destruct (m w) as [[w1 t1] [a|e]]; cbn in *; [exact Hm|].
  specialize (Hh e w1). destruct (h e w1) as [[w2 t2] r2]. cbn in *.
  rewrite forallb_app, Hm, Hh. reflexivity.
Qed.

Lemma emits_for_each {A} (l : list A) (body : A -> M W unit) :
  (forall x, emits P (body x)) -> emits P (for_each l body).
Proof.
  intros H. induction l as [|x l IH]; cbn [for_each].
  - apply emits_ret.
  - apply emits_bind; [apply H | intros _; exact IH].
Qed.

End Emits.

(** A call of the kind [Q] is not in a trace whose calls all satisfy [P]
    when [P] excludes [Q]. *)
Lemma forallb_excludes (P Q : event -> bool) (t : list event) :
  (forall ev, P ev = true -> Q ev = false) ->
  forallb P t = true -> existsb Q t = false.
Proof.
  intros H. induction t as [|ev t IH]; cbn; [reflexivity|].
  intros Ht. apply andb_true_iff in Ht. destruct Ht as [Hev Ht].
  rewrite (H ev Hev), (IH Ht). reflexivity.
Qed.

Lemma existsb_false_not_in (Q : event -> bool) (t : list event) (ev : event) :
  existsb Q t = false -> Q ev = true -> ~ In ev t.
Proof.
  intros Ht Hev Hin.
  assert (E : existsb Q t = true) by (apply existsb_exists; eauto).
  congruence.
Qed.

End EffFacts.

(** ** The fallback arbitrator *)

Module ArbitratorFacts.

Import Arbitrator EffFacts.

Section SelectSkillFacts.

Variable W : Type.
Variable lower : string -> string.
Variable strip : string -> string.
Variable strip_chars : string -> string -> string.
Variable py_int : string -> option Z.
Variable run_llm : list (string * string) -> W -> W * result string.
Variable input : string -> W -> W * result string.

Section Emitted.

Variable P : event -> bool.

Lemma get_description_emits (s : skill_info W) :
  emits P (get_description s).
Proof.
  unfold get_description. destruct (description s);
    [apply emits_ret | apply emits_raise].
Qed.

Lemma describe_emits (cands : list (skill_info W)) :
  emits P (describe cands).
Proof.
  induction cands as [|s rest IH]; cbn [describe].
  - apply emits_ret.
  - apply emits_bind; [apply get_description_emits|]. intros d.
    apply emits_bind; [exact IH|]. intros ds. apply emits_ret.
Qed.

Hypothesis P_print : forall line, P (EvPrint line) = true.

Lemma print_emits (line : string) : emits P (@print W line).
Proof. apply emits_emit, P_print. Qed.

Lemma print_choices_emits (cands : list (skill_info W)) :
  forall i, emits P (print_choices i cands).
Proof.
  induction cands as [|s rest IH]; intros i; cbn [print_choices].
  - apply emits_ret.
  - apply emits_bind; [apply get_description_emits|]. intros d.
    apply emits_bind; [apply print_emits|]. intros _. apply IH.
Qed.

Hypothesis P_llm : forall prompt out, P (EvLLM prompt out) = true.

Lemma classify_emits (prompt : list (string * string)) :
  emits P
    (catch (bind (call (run_llm prompt) (EvLLM prompt))
                 (fun d => ret (strip d)))
           (fun e =>
              bind (print ("❌ [ARBITRATOR]: LLM classification failed: "
                            ++ exn_str e))
                   (fun _ => ret EmptyString))).
Proof.
  apply emits_catch.
  - apply emits_bind; [apply emits_call, P_llm|]. intros d.
    apply emits_ret.
  - intros e. apply emits_bind; [apply print_emits|]. intros _.
    apply emits_ret.
Qed.

Hypothesis P_run : forall id p out, P (EvRun id p out) = true.

Lemma call_run_emits (i : option (Instance W)) (p : params) :
  emits P (call_run i p).
Proof.
  destruct i as [inst|]; cbn [call_run];
    [apply emits_call; intros r; apply P_run | apply emits_raise].
Qed.

Lemma execute_selected_emits (user_input : string)
  (sel : option (skill_info W)) :
  emits P (execute_selected user_input sel).
Proof.
  destruct sel as [s|]; cbn [execute_selected]; [|apply emits_ret].
  apply emits_catch; [apply call_run_emits|]. intros e.
  apply emits_bind; [apply print_emits|]. intros _. apply emits_ret.
Qed.

Hypothesis P_input : forall prompt out, P (EvInput prompt out) = true.

Lemma ask_operator_emits (user_input : string)
  (cands : list (skill_info W)) :
  emits P (ask_operator strip py_int input user_input cands).
Proof.
  unfold ask_operator.
  apply emits_bind; [apply print_emits|]. intros _.
  apply emits_bind; [apply print_choices_emits|]. intros _.
  apply emits_bind; [apply emits_call; intros r; apply P_input|].
  intros raw. destruct (read_choice py_int cands (strip raw)) as [sel|].
  - apply execute_selected_emits.
  - apply emits_bind; [apply print_emits|]. intros _. apply emits_ret.
Qed.

Lemma select_skill_emits (skills : list (skill_info W))
  (user_input : string) :
  emits P (select_skill lower strip strip_chars py_int run_llm input
             skills user_input).
Proof.
  unfold select_skill.
  destruct (keyword_candidates lower strip_chars skills user_input)
    as [|c1 [|c2 cs]].
  - apply emits_ret.
  - apply call_run_emits.
  - apply emits_bind; [apply describe_emits|]. intros lines.
    apply emits_bind; [apply classify_emits|]. intros decision.
    destruct (find _ _).
    + apply execute_selected_emits.
    + apply ask_operator_emits.
Qed.

End Emitted.

Lemma quiet_no_run (t : list event) :
  forallb is_quiet t = true -> existsb is_run t = false.
Proof. apply forallb_excludes. intros [] H; (discriminate || reflexivity). Qed.

Lemma quiet_no_input (t : list event) :
  forallb is_quiet t = true -> filter is_input t = [].
Proof.
  induction t as [|ev t IH]; cbn; [reflexivity|].
  intros H. apply andb_true_iff in H. destruct H as [Hev Ht].
  destruct ev; try discriminate; cbn; exact (IH Ht).
Qed.

Lemma no_input_not_in (t : list event) prompt out :
  filter is_input t = [] -> ~ In (EvInput prompt out) t.
Proof.
  intros Hf Hin.
  assert (H : In (EvInput prompt out) (filter is_input t))
    by (apply filter_In; split; [exact Hin | reflexivity]).
  rewrite Hf in H. exact H.
Qed.

(** What [execute_selected] leaves holds no read from the operator. *)
Lemma execute_selected_no_input user_input (sel : option (skill_info W)) w :
  filter is_input (snd (fst (execute_selected user_input sel w))) = [].
Proof.
  pose proof (execute_selected_emits (fun ev => negb (is_input ev))
                (fun _ => eq_refl) (fun _ _ _ => eq_refl)
                user_input sel w) as H.
  induction (snd (fst (execute_selected user_input sel w))) as [|ev t IH];
    cbn in *; [reflexivity|].
  apply andb_true_iff in H. destruct H as [Hev Ht].
  apply negb_true_iff in Hev. rewrite Hev. exact (IH Ht).
Qed.

(** Once the operator is asked: a selection that is not a number, or a
    number that names no candidate, ends the call with [None]; no skill
    is run and the operator is asked once. *)
Lemma ask_operator_invalid user_input (cands : list (skill_info W))
  w w' t r prompt raw :
  ask_operator strip py_int input user_input cands w = (w', t, r) ->
  In (EvInput prompt (Ok raw)) t ->
  py_int (strip raw) = None \/
  (exists n, py_int (strip raw) = Some n /\
             (n < 1 \/ Z.of_nat (List.length cands) < n)%Z) ->
  r = Ok None /\ existsb is_run t = false /\
  List.length (filter is_input t) = 1.
Proof.
  intros H Hin Hbad. unfold ask_operator in H.
  set (ask := "Enter the number of the desired skill: "%string) in H.
  pose proof (print_choices_emits is_quiet (fun _ => eq_refl) cands 0 w)
    as Hq.
  unfold bind at 1 in H. unfold print at 1, emit in H.
  unfold bind at 1 in H.
  destruct (print_choices 0 cands w) as [[w1 t1] [[]|e1]]; cbn in Hq.
  2:{ injection H as <- <- <-. exfalso. destruct Hin as [Hin | Hin];
        [discriminate|].
      exact (no_input_not_in _ _ _ (quiet_no_input _ Hq) Hin). }
  unfold bind at 1, call in H.
  destruct (input ask w1) as [w2 [raw'|e2]].
  2:{ injection H as <- <- <-. exfalso. destruct Hin as [Hin | Hin];
        [discriminate|].
      apply in_app_or in Hin.
      destruct Hin as [Hin | [Hin | []]]; [|discriminate].
      exact (no_input_not_in _ _ _ (quiet_no_input _ Hq) Hin). }
  destruct (read_choice py_int cands (strip raw')) as [[s|]|] eqn:Erc.
  - (* a valid choice: then the operator typed something else *)
    exfalso.
    pose proof (execute_selected_no_input user_input (Some s) w2) as Hx.
    destruct (execute_selected user_input (Some s) w2) as [[w3 t3] r3].
    cbn in Hx. injection H as <- <- <-.
    destruct Hin as [Hin | Hin]; [discriminate|].
    apply in_app_or in Hin. destruct Hin as [Hin | [Hin | Hin]].
    + exact (no_input_not_in _ _ _ (quiet_no_input _ Hq) Hin).
    + injection Hin as _ ->. unfold read_choice in Erc.
      destruct Hbad as [Hn | [n [Hn Hr]]]; rewrite Hn in Erc;
        [discriminate|].
      destruct ((0 <=? n - 1)%Z && (n - 1 <? Z.of_nat (List.length cands))%Z)
        eqn:Eb; [|discriminate].
      apply andb_true_iff in Eb. destruct Eb as [E1 E2].
      apply Z.leb_le in E1. apply Z.ltb_lt in E2. lia.
    + exact (no_input_not_in _ _ _ Hx Hin).
  - (* a number out of range *)
    cbn in H. injection H as <- <- <-. split; [reflexivity|].
    cbn [app existsb filter is_run is_input orb].
    rewrite ?app_nil_r, existsb_app, filter_app, length_app.
    rewrite (quiet_no_run _ Hq), (quiet_no_input _ Hq).
    split; reflexivity.
  - (* not a number *)
    cbn in H. injection H as <- <- <-. split; [reflexivity|].
    cbn [app existsb filter is_run is_input orb].
    rewrite ?app_nil_r, existsb_app, filter_app, length_app.
    rewrite (quiet_no_run _ Hq), (quiet_no_input _ Hq).
    split; reflexivity.
Qed.

(** C7: in a call of select_skill that reaches the interactive prompt
    (the trace holds the operator's answer [raw]), an answer that is not
    a number, or a number outside 1..len(candidates), makes the call
    return [None]; no skill is run in the whole call and the operator is
    asked exactly once. *)
Theorem C7_invalid_choice_aborts (skills : list (skill_info W))
  (user_input : string) (w w' : W) (t : list event)
  (r : result (option string)) (prompt raw : string) :
  select_skill lower strip strip_chars py_int run_llm input
    skills user_input w = (w', t, r) ->
  In (EvInput prompt (Ok raw)) t ->
  py_int (strip raw) = None \/
  (exists n, py_int (strip raw) = Some n /\
     (n < 1 \/
      Z.of_nat (List.length
                  (keyword_candidates lower strip_chars skills user_input))
        < n)%Z) ->
  r = Ok None /\ existsb is_run t = false /\
  List.length (filter is_input t) = 1.
Proof.
  intros H Hin Hbad. unfold select_skill in H.
  destruct (keyword_candidates lower strip_chars skills user_input)
    as [|c1 [|c2 cs]] eqn:Ec.
  - injection H as <- <- <-. destruct Hin.
  - exfalso.
    pose proof (call_run_emits (fun ev => negb (is_input ev))
                  (fun _ _ _ => eq_refl) (instance c1)
                  (ArbiterParams user_input) w) as Hx.
    rewrite H in Hx. cbn in Hx.
    assert (Hf : existsb is_input t = false).
    { revert Hx. apply forallb_excludes. intros ev Hev.
      now apply negb_true_iff. }
    exact (existsb_false_not_in is_input t (EvInput prompt (Ok raw)) Hf
             eq_refl Hin).
  - set (cands := c1 :: c2 :: cs) in *.
    pose proof (describe_emits is_quiet cands w) as Hd.
    unfold bind at 1 in H.
    destruct (describe cands w) as [[w0 t0] [lines|e0]]; cbn in Hd.
    2:{ injection H as <- <- <-. exfalso.
        exact (no_input_not_in _ _ _ (quiet_no_input _ Hd) Hin). }
    set (prompt0 := routing_prompt user_input (join newline lines)) in H.
    pose proof (classify_emits is_quiet (fun _ => eq_refl)
                  (fun _ _ => eq_refl) prompt0 w0) as Hc.
    unfold bind at 1 in H.
    destruct (catch _ _ w0) as [[w1 t1] [decision|e1]]; cbn in Hc.
    2:{ injection H as <- <- <-. exfalso.
        assert (Hq : forallb is_quiet (t0 ++ t1) = true)
          by (rewrite forallb_app, Hd, Hc; reflexivity).
        exact (no_input_not_in _ _ _ (quiet_no_input _ Hq) Hin). }
    assert (Hq : forallb is_quiet (t0 ++ t1) = true)
      by (rewrite forallb_app, Hd, Hc; reflexivity).
    destruct (find _ cands) as [s|].
    + exfalso.
      pose proof (execute_selected_no_input user_input (Some s) w1) as Hx.
      destruct (execute_selected user_input (Some s) w1) as [[w2 t2] r2].
      cbn in Hx. injection H as <- <- <-.
      rewrite app_assoc in Hin. apply in_app_or in Hin.
      destruct Hin as [Hin | Hin].
      * exact (no_input_not_in _ _ _ (quiet_no_input _ Hq) Hin).
      * exact (no_input_not_in _ _ _ Hx Hin).
    + destruct (ask_operator strip py_int input user_input cands w1)
        as [[w2 t2] r2] eqn:Ea.
      injection H as <- <- <-.
      rewrite app_assoc in Hin. apply in_app_or in Hin.
      destruct Hin as [Hin | Hin];
        [exfalso; exact (no_input_not_in _ _ _ (quiet_no_input _ Hq) Hin)|].
      destruct (ask_operator_invalid _ _ _ _ _ _ _ _ Ea Hin Hbad)
        as [-> [Hrun Hcount]].
      split; [reflexivity|].
      rewrite app_assoc, existsb_app, filter_app, length_app.
      rewrite (quiet_no_run _ Hq), (quiet_no_input _ Hq), Hrun, Hcount.
      split; reflexivity.
Qed.

(** C10: select_skill never calls check_requirements, whatever the
    path.  With a single keyword candidate the call is exactly one call
    of that skill's run.  With several candidates, the skill whose name
    the classifier's answer holds is run right after the answer of the
    classifier; and when the answer holds no name, the skill whose number
    the operator types is run right after the operator's answer.  On the
    three paths what the run returns is the result of select_skill. *)
Theorem C10_readiness_never_consulted (skills : list (skill_info W))
  (user_input : string) (w : W) :
  existsb is_check
    (snd (fst (select_skill lower strip strip_chars py_int run_llm input
                 skills user_input w))) = false /\
  (forall (c : skill_info W) (inst : Instance W),
     keyword_candidates lower strip_chars skills user_input = [c] ->
     instance c = Some inst ->
     select_skill lower strip strip_chars py_int run_llm input
       skills user_input w
     = (fst (run inst (ArbiterParams user_input) w),
        [EvRun (inst_id inst) (ArbiterParams user_input)
               (snd (run inst (ArbiterParams user_input) w))],
        snd (run inst (ArbiterParams user_input) w))) /\
  (forall (c1 c2 : skill_info W) (cs : list (skill_info W))
          (lines : list string) (w0 w1 : W) (t0 : list event)
          (outl : result string) (s : skill_info W) (inst : Instance W),
     keyword_candidates lower strip_chars skills user_input
       = c1 :: c2 :: cs ->
     describe (c1 :: c2 :: cs) w = (w0, t0, Ok lines) ->
     run_llm (routing_prompt user_input (join newline lines)) w0
       = (w1, outl) ->
     find (fun s0 =>
             is_substring (lower (name s0))
               (lower (match outl with
                       | Ok d => strip d
                       | Raise _ => EmptyString
                       end)))
          (c1 :: c2 :: cs) = Some s ->
     instance s = Some inst ->
     select_skill lower strip strip_chars py_int run_llm input
       skills user_input w
     = (fst (run inst (ArbiterParams user_input) w1),
        (t0
         ++ EvLLM (routing_prompt user_input (join newline lines)) outl
            :: match outl with
               | Ok _ => []
               | Raise e =>
                   [EvPrint ("❌ [ARBITRATOR]: LLM classification failed: "
                             ++ exn_str e)]
               end
         ++ EvRun (inst_id inst) (ArbiterParams user_input)
                  (snd (run inst (ArbiterParams user_input) w1))
            :: match snd (run inst (ArbiterParams user_input) w1) with
               | Ok _ => []
               | Raise e =>
                   [EvPrint ("❌ [ARBITRATOR]: Skill execution failed: "
                             ++ exn_str e)]
               end)%list,
        match snd (run inst (ArbiterParams user_input) w1) with
        | Ok v => Ok v
        | Raise _ => Ok None
        end)) /\
  (forall (c1 c2 : skill_info W) (cs : list (skill_info W))
          (lines : list string) (w0 w1 w2 w3 : W) (t0 t2 : list event)
          (outl : result string) (raw : string) (s : skill_info W)
          (inst : Instance W),
     keyword_candidates lower strip_chars skills user_input
       = c1 :: c2 :: cs ->
     describe (c1 :: c2 :: cs) w = (w0, t0, Ok lines) ->
     run_llm (routing_prompt user_input (join newline lines)) w0
       = (w1, outl) ->
     find (fun s0 =>
             is_substring (lower (name s0))
               (lower (match outl with
                       | Ok d => strip d
                       | Raise _ => EmptyString
                       end)))
          (c1 :: c2 :: cs) = None ->
     print_choices 0 (c1 :: c2 :: cs) w1 = (w2, t2, Ok tt) ->
     input "Enter the number of the desired skill: " w2 = (w3, Ok raw) ->
     read_choice py_int (c1 :: c2 :: cs) (strip raw) = Some (Some s) ->
     instance s = Some inst ->
     select_skill lower strip strip_chars py_int run_llm input
       skills user_input w
     = (fst (run inst (ArbiterParams user_input) w3),
        (t0
         ++ EvLLM (routing_prompt user_input (join newline lines)) outl
            :: match outl with
               | Ok _ => []
               | Raise e =>
                   [EvPrint ("❌ [ARBITRATOR]: LLM classification failed: "
                             ++ exn_str e)]
               end
         ++ EvPrint
              "⚖️ [ARBITRATOR]: Multiple skills matched. Please classify:"
            :: t2
         ++ [EvInput "Enter the number of the desired skill: " (Ok raw);
             EvRun (inst_id inst) (ArbiterParams user_input)
                   (snd (run inst (ArbiterParams user_input) w3))]
         ++ match snd (run inst (ArbiterParams user_input) w3) with
            | Ok _ => []
            | Raise e =>
                [EvPrint ("❌ [ARBITRATOR]: Skill execution failed: "
                          ++ exn_str e)]
            end)%list,
        match snd (run inst (ArbiterParams user_input) w3) with
        | Ok v => Ok v
        | Raise _ => Ok None
        end)).
Proof.
  split; [|split; [|split]].
  - pose proof (select_skill_emits (fun ev => negb (is_check ev))
                  (fun _ => eq_refl) (fun _ _ => eq_refl)
                  (fun _ _ _ => eq_refl) (fun _ _ => eq_refl)
                  skills user_input w) as H.
    revert H. apply forallb_excludes. intros ev Hev.
    now apply negb_true_iff.
  - intros c inst Hc Hi. unfold select_skill. rewrite Hc, Hi.
    cbn [call_run]. unfold call.
    destruct (run inst (ArbiterParams user_input) w) as [w1 out].
    reflexivity.
  - intros c1 c2 cs lines w0 w1 t0 outl s inst Hc Hd Hl Hf Hi.
    unfold select_skill. rewrite Hc.
    unfold bind at 1. rewrite Hd.
    unfold bind at 1. unfold catch, bind, call. rewrite Hl.
    destruct outl as [d|e]; cbn [print emit ret app];
      rewrite Hf; cbn [execute_selected]; rewrite Hi; cbn [call_run];
      unfold catch, call, bind, print, emit, ret;
      destruct (run inst (ArbiterParams user_input) w1) as [w2 [v|e']];
      cbn [fst snd app]; rewrite ?app_nil_r; reflexivity.
  - intros c1 c2 cs lines w0 w1 w2 w3 t0 t2 outl raw s inst
      Hc Hd Hl Hf Hp Hin Hr Hi.
    unfold select_skill. rewrite Hc.
    unfold bind at 1. rewrite Hd.
    unfold bind at 1. unfold catch, bind, call. rewrite Hl.
    destruct outl as [d|e]; cbn [print emit ret app];
      rewrite Hf; unfold ask_operator, bind, print, emit, call;
      rewrite Hp, Hin, Hr; cbn [execute_selected]; rewrite Hi;
      cbn [call_run]; unfold catch, call, bind, print, emit, ret;
      destruct (run inst (ArbiterParams user_input) w3) as [w4 [v|e']];
      cbn [fst snd app]; rewrite ?app_nil_r, <- ?app_assoc;
      cbn [app]; reflexivity.
Qed.

End SelectSkillFacts.

(** C7, on two keyword candidates, a language model that names neither,
    and an operator who types 7: nothing is run and the answer is
    [None]. *)
Lemma C7_witness :
  In (EvInput "Enter the number of the desired skill: " (Ok "7"%string))
     (snd (fst (Examples.arbitrate Examples.llm_unsure "7"
                  [Examples.radio_silent; Examples.jukebox; Examples.clock]
                  "Play radio?"))) /\
  (snd (Examples.arbitrate Examples.llm_unsure "7"
          [Examples.radio_silent; Examples.jukebox; Examples.clock]
          "Play radio?") = Ok None /\
   existsb is_run
     (snd (fst (Examples.arbitrate Examples.llm_unsure "7"
                  [Examples.radio_silent; Examples.jukebox; Examples.clock]
                  "Play radio?"))) = false /\
   List.length
     (filter is_input
        (snd (fst (Examples.arbitrate Examples.llm_unsure "7"
                     [Examples.radio_silent; Examples.jukebox;
                      Examples.clock]
                     "Play radio?")))) = 1).
Proof.
  assert (Hin :
    In (EvInput "Enter the number of the desired skill: " (Ok "7"%string))
       (snd (fst (Examples.arbitrate Examples.llm_unsure "7"
                    [Examples.radio_silent; Examples.jukebox; Examples.clock]
                    "Play radio?")))).
  { vm_compute. do 4 right. left. reflexivity. }
  split; [exact Hin|].
  apply (C7_invalid_choice_aborts nat Examples.lower Examples.strip
           Examples.strip_chars Examples.py_int Examples.llm_unsure
           (Examples.operator_types "7")
           [Examples.radio_silent; Examples.jukebox; Examples.clock]
           "Play radio?" 0 0 _ _
           "Enter the number of the desired skill: " "7").
  - vm_compute. reflexivity.
  - exact Hin.
  - right. exists 7%Z. split; [reflexivity|]. right. vm_compute. reflexivity.
Defined.

(** C10, on a radio whose check_requirements says it is not ready: it is
    run all the same, as the single keyword candidate, as the candidate
    the classifier names, and as the candidate the operator picks. *)
Lemma C10_witness :
  snd (check_requirements (Examples.stub "RadioOffline" false
                             (Ok (Some "never"%string)) []) 0)
    = Ok (false, "missing credentials"%string)
  /\
  Examples.arbitrate Examples.llm_unsure "7"
    [Examples.radio_offline; Examples.clock] "Radio!"
  = (1, [EvRun "RadioOffline" (ArbiterParams "Radio!")
               (Ok (Some "never"%string))],
     Ok (Some "never"%string))
  /\
  Examples.arbitrate (Examples.llm_says "RadioOffline") "1"
    [Examples.radio_offline; Examples.clock] "radio time"
  = (1,
     [EvLLM (routing_prompt "radio time"
               (join newline ["- RadioOffline: the RadioOffline skill";
                              "- Clock: the Clock skill"]%string))
            (Ok "RadioOffline"%string);
      EvRun "RadioOffline" (ArbiterParams "radio time")
            (Ok (Some "never"%string))],
     Ok (Some "never"%string))
  /\
  Examples.arbitrate Examples.llm_unsure "1"
    [Examples.radio_offline; Examples.clock] "radio time"
  = (1,
     [EvLLM (routing_prompt "radio time"
               (join newline ["- RadioOffline: the RadioOffline skill";
                              "- Clock: the Clock skill"]%string))
            (Ok "I am not sure"%string);
      EvPrint "⚖️ [ARBITRATOR]: Multiple skills matched. Please classify:";
      EvPrint "1: RadioOffline - the RadioOffline skill";
      EvPrint "2: Clock - the Clock skill";
      EvInput "Enter the number of the desired skill: " (Ok "1"%string);
      EvRun "RadioOffline" (ArbiterParams "radio time")
            (Ok (Some "never"%string))],
     Ok (Some "never"%string)).
Proof.
  split; [reflexivity|]. split; [|split].
  - exact (proj1 (proj2 (C10_readiness_never_consulted nat Examples.lower
             Examples.strip Examples.strip_chars Examples.py_int
             Examples.llm_unsure (Examples.operator_types "7")
             [Examples.radio_offline; Examples.clock] "Radio!" 0))
           Examples.radio_offline
           (Examples.stub "RadioOffline" false (Ok (Some "never"%string)) [])
           eq_refl eq_refl).
  - exact (proj1 (proj2 (proj2 (C10_readiness_never_consulted nat
             Examples.lower Examples.strip Examples.strip_chars
             Examples.py_int (Examples.llm_says "RadioOffline")
             (Examples.operator_types "1")
             [Examples.radio_offline; Examples.clock] "radio time" 0)))
           Examples.radio_offline Examples.clock []
           ["- RadioOffline: the RadioOffline skill";
            "- Clock: the Clock skill"]%string
           0 0 [] (Ok "RadioOffline"%string) Examples.radio_offline
           (Examples.stub "RadioOffline" false (Ok (Some "never"%string)) [])
           eq_refl eq_refl eq_refl eq_refl eq_refl).
  - exact (proj2 (proj2 (proj2 (C10_readiness_never_consulted nat
             Examples.lower Examples.strip Examples.strip_chars
             Examples.py_int Examples.llm_unsure
             (Examples.operator_types "1")
             [Examples.radio_offline; Examples.clock] "radio time" 0)))
           Examples.radio_offline Examples.clock []
           ["- RadioOffline: the RadioOffline skill";
            "- Clock: the Clock skill"]%string
           0 0 0 0 [] 
           [EvPrint "1: RadioOffline - the RadioOffline skill";
            EvPrint "2: Clock - the Clock skill"]
           (Ok "I am not sure"%string) "1"%string Examples.radio_offline
           (Examples.stub "RadioOffline" false (Ok (Some "never"%string)) [])
           eq_refl eq_refl eq_refl eq_refl eq_refl eq_refl eq_refl eq_refl).
Defined.

(** Three keyword candidates and a language model that answers with the
    name of one of them: that skill is run and the operator is not
    asked. *)
Example arbitrate_by_name :
  snd (Examples.arbitrate (Examples.llm_says "Jukebox") "1"
         [Examples.radio_silent; Examples.jukebox; Examples.radio_mute]
         "Play radio?") = Ok (Some "Playing jazz"%string) /\
  existsb is_input
    (snd (fst (Examples.arbitrate (Examples.llm_says "Jukebox") "1"
                 [Examples.radio_silent; Examples.jukebox;
                  Examples.radio_mute]
                 "Play radio?"))) = false.
Proof. split; vm_compute; reflexivity. Qed.

(** The dicts that load_skills builds have no description: with two
    keyword candidates of that shape, select_skill ends with KeyError
    before the language model is asked. *)
Example arbitrate_without_description :
  Examples.arbitrate Examples.llm_unsure "1"
    [mkSkill (instance Examples.radio_silent) "RadioSilent"
             ["radio"%string] ["music_skill"%string] None;
     Examples.jukebox]
    "Play radio?"
  = (0, [], Raise (KeyError "description")).
Proof. vm_compute. reflexivity. Qed.

End ArbitratorFacts.

(** ** The background monitor *)

Module BrainFacts.

Import Brain.
Local Open Scope float_scope.

(** A trace with a single call of the kind [Q] splits around it in one
    way only. *)
Lemma unique_split (Q : event -> bool) :
  forall (A B pre post : list event) (x y : event),
    existsb Q A = false -> existsb Q B = false -> Q y = true ->
    (A ++ x :: B = pre ++ y :: post)%list ->
    pre = A /\ y = x /\ post = B.
Proof.
  induction A as [|a A IH]; intros B pre post x y HA HB Hy E.
  - destruct pre as [|p pre].
    + injection E as <- <-. auto.
    + exfalso. injection E as _ E.
      assert (Hin : existsb Q B = true).
      { rewrite E, existsb_app. cbn. rewrite Hy. apply orb_true_iff.
        right. reflexivity. }
      congruence.
  - cbn in HA. apply orb_false_iff in HA. destruct HA as [Ha HA].
    destruct pre as [|p pre].
    + exfalso. injection E as <- _. congruence.
    + injection E as <- E.
      destruct (IH B pre post x y HA HB Hy E) as [-> [-> ->]]. auto.
Qed.

Lemma no_split (Q : event -> bool) (t pre post : list event) (y : event) :
  existsb Q t = false -> Q y = true -> t <> (pre ++ y :: post)%list.
Proof.
  intros Ht Hy ->. rewrite existsb_app in Ht. cbn in Ht. rewrite Hy in Ht.
  apply orb_false_iff in Ht. destruct Ht as [_ Ht]. discriminate.
Qed.

Lemma hook_ok_not_failed (t : list event) :
  forallb is_hook_ok t = true -> existsb is_hook_failed t = false.
Proof.
  apply EffFacts.forallb_excludes.
  intros [] H; try discriminate. destruct out; [reflexivity | discriminate].
Qed.

Section MonitorFacts.

Variable W : Type.
Variable cpu_percent : W -> W * result float.

Lemma tick_hook_until_failure (inst : Instance W) (hook : string) (w : W) :
  until_failure (tick_hook inst hook w).
Proof.
  unfold tick_hook. destruct (hooks inst hook) as [fn|].
  - unfold call. destruct (fn w) as [w1 [[]|e]]; cbn.
    + left. auto.
    + right. exists [], (inst_id inst), hook, e. auto.
  - cbn. left. auto.
Qed.

Lemma for_each_until_failure {A} (body : A -> M W unit) :
  (forall x w, until_failure (body x w)) ->
  forall l w, until_failure (for_each l body w).
Proof.
  intros Hbody. induction l as [|x l IH]; intros w; cbn [for_each].
  - cbn. left. auto.
  - unfold bind. specialize (Hbody x w).
    destruct (body x w) as [[w1 t1] [[]|e1]].
    + specialize (IH w1).
      destruct (for_each l body w1) as [[w2 t2] r2]. cbn in *.
      destruct Hbody as [[_ H1] | (t0 & id & hk & e & _ & _ & Hr)];
        [|discriminate].
      destruct IH as [[-> H2] | (t0 & id & hk & e & -> & H2 & ->)].
      * left. split; [reflexivity|]. rewrite forallb_app, H1, H2.
        reflexivity.
      * right. exists (t1 ++ t0)%list, id, hk, e.
        rewrite forallb_app, H1, H2, app_assoc. auto.
    + cbn in *.
      destruct Hbody as [[Hr _] | (t0 & id & hk & e & -> & H1 & Hr)];
        [discriminate|].
      right. exists t0, id, hk, e. auto.
Qed.

Lemma tick_skills_until_failure (skills : list (skill_info W)) (w : W) :
  until_failure (tick_skills skills w).
Proof.
  unfold tick_skills. apply for_each_until_failure.
  intros s w0. destruct (instance s) as [inst|].
  - apply for_each_until_failure. intros h w1.
    apply tick_hook_until_failure.
  - cbn. left. auto.
Qed.

Lemma hook_calls_app (t1 t2 : list event) :
  hook_calls (t1 ++ t2) = (hook_calls t1 ++ hook_calls t2)%list.
Proof. apply flat_map_app. Qed.

(** The hooks of one instance are called in the order of the list, up to
    the first that raises. *)
Lemma tick_hooks_prefix (inst : Instance W) :
  forall (names : list string) (w w' : W) t r,
    for_each names (tick_hook inst) w = (w', t, r) ->
    exists rest,
      hooks_of inst names = (hook_calls t ++ rest)%list /\
      (r = Ok tt -> rest = []).
Proof.
  induction names as [|h names IH]; intros w w' t r H.
  - cbn in H. injection H as <- <- <-. exists []. auto.
  - cbn [for_each] in H. unfold bind, tick_hook at 1 in H.
    unfold hooks_of. cbn [filter].
    destruct (hooks inst h) as [fn|].
    + unfold call in H. destruct (fn w) as [w1 [[]|e]].
      * destruct (for_each names (tick_hook inst) w1) as [[w2 t2] r2] eqn:Ef.
        injection H as <- <- <-.
        destruct (IH _ _ _ _ Ef) as [rest [Hp Hr]].
        exists rest. split; [|exact Hr].
        cbn. f_equal. exact Hp.
      * injection H as <- <- <-. eexists. split; [reflexivity|].
        discriminate.
    + cbn in H.
      destruct (for_each names (tick_hook inst) w) as [[w2 t2] r2] eqn:Ef.
      injection H as <- <- <-.
      destruct (IH _ _ _ _ Ef) as [rest [Hp Hr]].
      exists rest. split; [exact Hp | exact Hr].
Qed.

(** The hook calls of a cycle are the scheduled ones, in order, up to the
    first that raises. *)
Lemma tick_skills_prefix :
  forall (skills : list (skill_info W)) (w w' : W) t r,
    tick_skills skills w = (w', t, r) ->
    exists rest,
      scheduled skills = (hook_calls t ++ rest)%list /\
      (r = Ok tt -> rest = []).
Proof.
  unfold tick_skills.
  induction skills as [|s skills IH]; intros w w' t r H.
  - cbn in H. injection H as <- <- <-. exists []. auto.
  - cbn [for_each] in H. unfold bind in H. cbn [scheduled flat_map].
    destruct (instance s) as [inst|].
    + destruct (for_each HOOKS (tick_hook inst) w) as [[w1 t1] r1] eqn:E1.
      destruct (tick_hooks_prefix inst _ _ _ _ _ E1) as [rest1 [Hp1 Hr1]].
      destruct r1 as [[]|e1].
      * rewrite (Hr1 eq_refl), app_nil_r in Hp1.
        match type of H with
        | context [for_each skills ?body w1] =>
            destruct (for_each skills body w1) as [[w2 t2] r2] eqn:E2
        end.
        injection H as <- <- <-.
        destruct (IH _ _ _ _ E2) as [rest [Hp Hr]].
        exists rest. split; [|exact Hr].
        rewrite hook_calls_app, Hp1, <- app_assoc. f_equal. exact Hp.
      * injection H as <- <- <-. eexists. split; [|discriminate].
        rewrite Hp1, <- app_assoc. reflexivity.
    + cbn in H.
      match type of H with
      | context [for_each skills ?body w] =>
          destruct (for_each skills body w) as [[w2 t2] r2] eqn:E2
      end.
      injection H as <- <- <-.
      destruct (IH _ _ _ _ E2) as [rest [Hp Hr]].
      exists rest. split; [exact Hp | exact Hr].
Qed.


(** C4, amended: the handler is around the whole cycle.  When a hook
    raises, the exception is caught and logged, and what follows the
    failing call in that cycle is the log line and the ten-second back-off
    only: the scheduled hooks that come after it, [rest], are not invoked
    in that cycle.  The scheduled hooks before it are exactly the hook
    calls made before it, none of which raised, and the cycle itself ends
    normally. *)
Theorem C4_hook_failure_ends_cycle (skills : list (skill_info W))
  (w w' : W) (t : list event) (r : result unit)
  (pre post : list event) (id hook : string) (e : exn) :
  monitor_cycle cpu_percent skills w = (w', t, r) ->
  t = (pre ++ EvHook id hook (Raise e) :: post)%list ->
  post = [EvPrint ("⚠️ [MONITOR ERROR]: " ++ exn_str e); EvSleep 10] /\
  r = Ok tt /\
  existsb is_hook_failed pre = false /\
  exists rest,
    scheduled skills = (hook_calls pre ++ (id, hook) :: rest)%list.
Proof.
  intros H E.
  unfold monitor_cycle, catch, monitor_body, bind, call in H.
  destruct (cpu_percent w) as [w1 [c|e0]].
  - destruct (90 <? c).
    + cbn in H. injection H as <- <- <-. exfalso.
      revert E. apply (no_split is_hook_failed); reflexivity.
    + pose proof (tick_skills_until_failure skills w1) as Hs.
      destruct (tick_skills skills w1) as [[w2 t2] r2] eqn:Et. cbn in Hs.
      destruct Hs as [[-> Hok] | (t0 & id' & hk' & e' & -> & Hok & ->)].
      * cbn in H. injection H as <- <- <-. exfalso. revert E.
        apply (no_split is_hook_failed); [|reflexivity].
        cbn. rewrite existsb_app, (hook_ok_not_failed _ Hok).
        reflexivity.
      * cbn in H. injection H as <- <- <-.
        rewrite <- app_assoc in E. cbn [app] in E.
        apply (unique_split is_hook_failed (EvCpu (Ok c) :: t0)) in E;
          [ | cbn; apply (hook_ok_not_failed _ Hok)
            | reflexivity | reflexivity ].
        destruct E as [-> [Ey ->]]. injection Ey as -> -> ->.
        split; [reflexivity|]. split; [reflexivity|].
        split; [cbn; apply (hook_ok_not_failed _ Hok)|].
        destruct (tick_skills_prefix _ _ _ _ _ Et) as [rest [Hp _]].
        exists rest. rewrite Hp, hook_calls_app, <- app_assoc.
        reflexivity.
  - cbn in H. injection H as <- <- <-. exfalso.
    revert E. apply (no_split is_hook_failed); reflexivity.
Qed.





End MonitorFacts.


(** C4 as the spec words it fails: the scout's second hook raises, its
    third hook and the reminder skill's hook are not called in that
    cycle. *)
Lemma C4_counterexample :
  scheduled [Examples.scout; Examples.reminder]
    = [("Scout", "check_queue_loop"); ("Scout", "price_monitor");
       ("Scout", "weather_monitor"); ("Reminder", "reminder_monitor")]%string
  /\
  Examples.cycle Examples.cpu_idle [Examples.scout; Examples.reminder]
    = (0%nat, [EvCpu (Ok 12.5);
           EvHook "Scout" "check_queue_loop" (Ok tt);
           EvHook "Scout" "price_monitor" (Raise (OtherError "site down"));
           EvPrint "⚠️ [MONITOR ERROR]: site down";
           EvSleep 10],
       Ok tt) /\
  existsb (is_hook_of "weather_monitor")
    (snd (fst (Examples.cycle Examples.cpu_idle
                 [Examples.scout; Examples.reminder]))) = false /\
  existsb (is_hook_of "reminder_monitor")
    (snd (fst (Examples.cycle Examples.cpu_idle
                 [Examples.scout; Examples.reminder]))) = false.
Proof. split; [|split; [|split]]; vm_compute; reflexivity. Qed.

(** C4, on the same cycle. *)
Lemma C4_witness :
  Examples.cycle Examples.cpu_idle [Examples.scout; Examples.reminder]
    = (0%nat, ([EvCpu (Ok 12.5); EvHook "Scout" "check_queue_loop" (Ok tt)]
           ++ EvHook "Scout" "price_monitor" (Raise (OtherError "site down"))
           :: [EvPrint "⚠️ [MONITOR ERROR]: site down"; EvSleep 10])%list,
       Ok tt) /\
  ([EvPrint "⚠️ [MONITOR ERROR]: site down"; EvSleep 10]
   = [EvPrint ("⚠️ [MONITOR ERROR]: " ++ exn_str (OtherError "site down"));
      EvSleep 10] /\
   @Ok unit tt = Ok tt /\
   existsb is_hook_failed
     [EvCpu (Ok 12.5); EvHook "Scout" "check_queue_loop" (Ok tt)] = false /\
   exists rest,
     scheduled [Examples.scout; Examples.reminder]
     = (hook_calls [EvCpu (Ok 12.5);
                    EvHook "Scout" "check_queue_loop" (Ok tt)]
        ++ ("Scout", "price_monitor")%string :: rest)%list).
Proof.
  assert (E :
    Examples.cycle Examples.cpu_idle [Examples.scout; Examples.reminder]
    = (0%nat, ([EvCpu (Ok 12.5); EvHook "Scout" "check_queue_loop" (Ok tt)]
           ++ EvHook "Scout" "price_monitor" (Raise (OtherError "site down"))
           :: [EvPrint "⚠️ [MONITOR ERROR]: site down"; EvSleep 10])%list,
       Ok tt)) by (vm_compute; reflexivity).
  split; [exact E|].
  exact (C4_hook_failure_ends_cycle nat Examples.cpu_idle
           [Examples.scout; Examples.reminder] 0%nat 0%nat _ _
           [EvCpu (Ok 12.5); EvHook "Scout" "check_queue_loop" (Ok tt)]
           [EvPrint "⚠️ [MONITOR ERROR]: site down"; EvSleep 10]
           "Scout" "price_monitor" (OtherError "site down") E eq_refl).
Defined.

(** Under load the cycle calls no hook and sleeps ten seconds; a cycle in
    which every hook returns sleeps five. *)
Example cycle_under_load :
  Examples.cycle Examples.cpu_busy [Examples.scout; Examples.reminder]
  = (0%nat, [EvCpu (Ok 97.0); EvSleep 10], Ok tt).
Proof. vm_compute. reflexivity. Qed.

Example cycle_all_well :
  Examples.cycle Examples.cpu_idle [Examples.reminder; Examples.jukebox]
  = (0%nat, [EvCpu (Ok 12.5);
             EvHook "Reminder" "reminder_monitor" (Ok tt);
             EvSleep 5], Ok tt).
Proof. vm_compute. reflexivity. Qed.

End BrainFacts.

(** * Further properties *)

(** ** The dispatcher outside the execute loop *)

Module SkillManagerMore.

Import IntentJudge SkillManager DispatchSpec.
Local Open Scope string_scope.

Section RunSkillMore.

Variable W : Type.
Variable lower : string -> string.
Variable word_search : string -> string -> bool.

(** X1: for a decision whose action is not execute, run_skill calls
    nothing and leaves the world as it was: none and unknown actions give
    [None], clarify gives the prompt that lists the candidates joined by
    commas, confirm gives the yes/no prompt that names the intent. *)
Theorem X1_only_execute_dispatches (skills : list (skill_info W))
  (user_input : string) (ir : IntentResult)
  (entities : option (list (string * string))) (w : W) :
  String.eqb (action ir) "execute" = false ->
  run_skill lower word_search skills user_input (Some ir) entities w
  = (w, [],
     Ok (if String.eqb (action ir) "clarify"
         then Some ("🤔 I found multiple possible actions: "
                     ++ join ", " (match candidates ir with
                                   | Some l => l
                                   | None => []
                                   end)
                     ++ ". Which one should I run?")
         else if String.eqb (action ir) "confirm"
         then Some ("❓ Do you want me to run '" ++ fmt (intent ir)
                     ++ "'? (yes / no)")
         else None)).
Proof.
  intros Hx. unfold run_skill.
  destruct (String.eqb (action ir) "none") eqn:Hn.
  - apply String.eqb_eq in Hn. rewrite Hn. reflexivity.
  - destruct (String.eqb (action ir) "clarify"); [reflexivity|].
    destruct (String.eqb (action ir) "confirm"); [reflexivity|].
    rewrite Hx. reflexivity.
Qed.

(** After an execute decision the answer of the loop decides. *)
Lemma run_skill_execute_answer (skills : list (skill_info W)) user_input ir
  entities w w' t r :
  action ir = "execute" ->
  run_skill lower word_search skills user_input (Some ir) entities w
    = (w', t, r) ->
  (matches_for skills (intent ir) = [] /\ t = [] /\
   r = Ok (Some ("⚠️ Intent '" ++ fmt (intent ir)
                  ++ "' has no mapped skills.")))
  \/
  (matches_for skills (intent ir) <> [] /\
   exists o,
     dispatch_trace
       (IntentParams user_input (intent ir)
          (match confidence ir with Some c => c | None => 0.0%float end)
          entities)
       (matches_for skills (intent ir)) t o /\
     r = intent_answer (intent ir) o).
Proof.
  intros Ha H.
  rewrite (SkillManagerFacts.run_skill_execute W lower word_search
             skills user_input ir entities Ha) in H.
  exact (SkillManagerFacts.run_intent_dispatch W _ _ _ _ _ _ _ _ _ H).
Qed.

(** X2: after an execute decision run_skill never returns [None]: it
    returns a string (a skill's answer or one of its two warnings) or ends
    with an exception. *)
Theorem X2_execute_never_none (skills : list (skill_info W))
  (user_input : string) (ir : IntentResult)
  (entities : option (list (string * string)))
  (w w' : W) (t : list event) (r : result (option string)) :
  action ir = "execute" ->
  run_skill lower word_search skills user_input (Some ir) entities w
    = (w', t, r) ->
  (exists s, r = Ok (Some s)) \/ (exists e, r = Raise e).
Proof.
  intros Ha H.
  destruct (run_skill_execute_answer _ _ _ _ _ _ _ _ Ha H)
    as [(_ & _ & ->) | (_ & o & Hd & ->)].
  - left. eauto.
  - assert (G : forall p (cands : list (option (Instance W))) t o,
               dispatch_trace p cands t o -> o <> Ok (Some None)).
    { clear. intros p cands t o Hd.
      induction Hd; try discriminate; assumption. }
    specialize (G _ _ _ _ Hd).
    destruct o as [[[s|]|]|e]; cbn; eauto. congruence.
Qed.

(** A dispatch in which nothing raised and no run returned a string asked
    every candidate. *)
Lemma dispatch_trace_exhausted (p : params)
  (cands : list (option (Instance W))) t o :
  dispatch_trace p cands t o ->
  existsb is_answer t = false ->
  (exists v, o = Ok v) ->
  o = Ok None /\
  map (option_map (@inst_id W)) cands = map Some (checked t).
Proof.
  induction 1 as [ | inst rest msg t r Hd IH | inst rest msg s
                   | inst rest msg t r Hd IH | inst rest e
                   | inst rest msg e | rest ];
    intros Hans Hok.
  - auto.
  - destruct (IH Hans Hok) as [-> E]. split; [reflexivity|].
    cbn. f_equal. exact E.
  - discriminate.
  - destruct (IH Hans Hok) as [-> E]. split; [reflexivity|].
    cbn. f_equal. exact E.
  - destruct Hok as [v Hv]. discriminate.
  - destruct Hok as [v Hv]. discriminate.
  - destruct Hok as [v Hv]. discriminate.
Qed.

(** X3: after an execute decision for an intent that some skill lists,
    when run_skill returns and no run in the call returned a string, every
    skill that lists the intent has been asked for its readiness, once and
    in registration order, and the result is the warning that no skill
    could execute the intent. *)
Theorem X3_exhausted_dispatch (skills : list (skill_info W))
  (user_input : string) (ir : IntentResult)
  (entities : option (list (string * string)))
  (w w' : W) (t : list event) (v : option string) :
  action ir = "execute" ->
  matches_for skills (intent ir) <> [] ->
  run_skill lower word_search skills user_input (Some ir) entities w
    = (w', t, Ok v) ->
  existsb is_answer t = false ->
  v = Some ("⚠️ No skill could execute intent '" ++ fmt (intent ir) ++ "'.")
  /\
  map (option_map (@inst_id W)) (matches_for skills (intent ir))
    = map Some (checked t).
Proof.
  intros Ha Hne H Hans.
  destruct (run_skill_execute_answer _ _ _ _ _ _ _ _ Ha H)
    as [(Hm & _) | (_ & o & Hd & Hr)]; [congruence|].
  assert (Hok : exists v', o = Ok v').
  { destruct o as [o'|e]; [eauto | discriminate]. }
  destruct (dispatch_trace_exhausted _ _ _ _ Hd Hans Hok) as [-> E].
  cbn in Hr. injection Hr as ->. split; [reflexivity | exact E].
Qed.

Lemma bind_unfold {A B} (m : M W A) (k : A -> M W B) (w : W) :
  bind m k w
  = match m w with
    | (w1, t1, Ok a) =>
        let '(w2, t2, r2) := k a w1 in (w2, (t1 ++ t2)%list, r2)
    | (w1, t1, Raise e) => (w1, t1, Raise e)
    end.
Proof. unfold bind. destruct (m w) as [[w1 t1] [a|e]]; reflexivity. Qed.

Lemma legacy_shape_prepend (p : params) (cs t : list event) r :
  forallb is_check cs = true ->
  legacy_shape p t r -> legacy_shape p (cs ++ t) r.
Proof.
  intros Hcs H. destruct H as [cs' H | cs' e H | cs' id msg out H].
  - apply ls_through. rewrite forallb_app, Hcs, H. reflexivity.
  - apply ls_raised. rewrite forallb_app, Hcs, H. reflexivity.
  - rewrite app_assoc. apply ls_run.
    rewrite forallb_app, Hcs, H. reflexivity.
Qed.

Lemma run_if_ready_shape user_input entities (s : skill_info W) w :
  legacy_shape (ManualParams user_input entities)
    (snd (fst (run_if_ready user_input entities s w)))
    (snd (run_if_ready user_input entities s w)).
Proof.
  unfold run_if_ready, bind, call_check, call_run.
  destruct (instance s) as [inst|].
  - unfold call.
    destruct (check_requirements inst w) as [w1 [[can_run msg]|e]]; cbn.
    + destruct can_run; cbn.
      * destruct (run inst (ManualParams user_input entities) w1)
          as [w2 out]. cbn.
        pose proof (ls_run (ManualParams user_input entities) []
                      (inst_id inst) msg out eq_refl) as H.
        destruct out as [v|e]; exact H.
      * apply ls_through. reflexivity.
    + apply ls_raised. reflexivity.
  - cbn. apply ls_raised. reflexivity.
Qed.

Lemma for_return_shape {A} (p : params)
  (body : A -> M W (option (option string))) :
  (forall x w, legacy_shape p (snd (fst (body x w))) (snd (body x w))) ->
  forall l w,
    legacy_shape p (snd (fst (for_return l body w)))
                   (snd (for_return l body w)).
Proof.
  intros Hbody. induction l as [|x l IH]; intros w; cbn [for_return].
  - cbn. apply ls_through. reflexivity.
  - unfold bind. specialize (Hbody x w).
    destruct (body x w) as [[w1 t1] [[v|]|e]]; cbn in *.
    + rewrite app_nil_r. exact Hbody.
    + specialize (IH w1).
      destruct (for_return l body w1) as [[w2 t2] r2]. cbn in *.
      apply legacy_shape_prepend; [|exact IH].
      inversion Hbody as [cs H | cs e' H | cs id msg out H E1 E2].
      * exact H.
      * destruct out; discriminate.
    + exact Hbody.
Qed.

(** Without a decision, the trace of run_skill has the shape of the name
    and keyword paths, and the result is the one that goes with it. *)
Lemma run_skill_legacy_shape (skills : list (skill_info W)) user_input
  entities w :
  exists o,
    legacy_shape (ManualParams user_input entities)
      (snd (fst (run_skill lower word_search skills user_input None
                   entities w))) o /\
    snd (run_skill lower word_search skills user_input None entities w)
    = match o with
      | Ok (Some v) => Ok v
      | Ok None => Ok None
      | Raise e => Raise e
      end.
Proof.
  unfold run_skill.
  set (by_name := for_return skills _).
  set (by_keyword := for_return skills _).
  assert (H1 : forall w0,
    legacy_shape (ManualParams user_input entities)
      (snd (fst (by_name w0))) (snd (by_name w0))).
  { apply for_return_shape. intros s w0.
    destruct (String.eqb _ _).
    - apply run_if_ready_shape.
    - cbn. apply ls_through. reflexivity. }
  assert (H2 : forall w0,
    legacy_shape (ManualParams user_input entities)
      (snd (fst (by_keyword w0))) (snd (by_keyword w0))).
  { apply for_return_shape. intros s w0.
    apply for_return_shape. intros kw w1.
    destruct (word_search _ _).
    - apply run_if_ready_shape.
    - cbn. apply ls_through. reflexivity. }
  rewrite bind_unfold. specialize (H1 w).
  destruct (by_name w) as [[w1 t1] [[v|]|e]]; cbn in H1.
  - cbn. rewrite app_nil_r. eexists. split; [exact H1 | reflexivity].
  - rewrite bind_unfold. specialize (H2 w1).
    destruct (by_keyword w1) as [[w2 t2] r2]. cbn in H2.
    assert (Hcs : forallb is_check t1 = true).
    { inversion H1 as [cs H | cs e' H | cs id msg out H E1 E2];
        [exact H | destruct out; discriminate]. }
    exists r2. split.
    + destruct r2 as [[v|]|e]; cbn; rewrite ?app_nil_r;
        apply legacy_shape_prepend; assumption.
    + destruct r2 as [[v|]|e]; reflexivity.
  - cbn. eexists. split; [exact H1 | reflexivity].
Qed.

(** X4: without a decision (the name path and the keyword path), run_skill
    runs at most one skill: a run comes right after a readiness check of
    the same skill that said yes, gets the dict with the user input, a
    [None] intent and the entities, is the last call, and its outcome,
    [None] and an exception included, is the outcome of run_skill; no
    other skill is tried after it.  When nothing is run the result is
    [None] unless a call raised. *)
Theorem X4_legacy_runs_one_ready_skill (skills : list (skill_info W))
  (user_input : string) (entities : option (list (string * string)))
  (w w' : W) (t : list event) (r : result (option string)) :
  run_skill lower word_search skills user_input None entities w
    = (w', t, r) ->
  (forall pre id p out post,
     t = (pre ++ EvRun id p out :: post)%list ->
     post = [] /\ r = out /\ p = ManualParams user_input entities /\
     exists pre' msg,
       pre = (pre' ++ [EvCheck id (Ok (true, msg))])%list /\
       existsb is_run pre' = false) /\
  (existsb is_run t = false -> r = Ok None \/ exists e, r = Raise e).
Proof.
  intros H.
  destruct (run_skill_legacy_shape skills user_input entities w)
    as [o [Hs Hr]].
  rewrite H in Hs, Hr. cbn in Hs, Hr.
  assert (Hchk : forall cs, forallb is_check cs = true ->
                            existsb is_run cs = false).
  { intros cs. apply EffFacts.forallb_excludes.
    intros [] Hev; (discriminate || reflexivity). }
  inversion Hs as [cs Hcs E1 E2 | cs e Hcs E1 E2 | cs id0 msg out0 Hcs E1 E2];
    subst.
  - split.
    + intros pre id p out post E. exfalso. revert E.
      apply (BrainFacts.no_split is_run); [apply Hchk, Hcs | reflexivity].
    + intros _. left. reflexivity.
  - split.
    + intros pre id p out post E. exfalso. revert E.
      apply (BrainFacts.no_split is_run); [apply Hchk, Hcs | reflexivity].
    + intros _. right. eauto.
  - split.
    + intros pre id p out post E.
      change (cs ++ [EvCheck id0 (Ok (true, msg));
                     EvRun id0 (ManualParams user_input entities) out0])%list
        with (cs ++ [EvCheck id0 (Ok (true, msg))]
                 ++ EvRun id0 (ManualParams user_input entities) out0
                 :: [])%list in E.
      rewrite app_assoc in E.
      apply (BrainFacts.unique_split is_run
               (cs ++ [EvCheck id0 (Ok (true, msg))])) in E;
        [ | rewrite existsb_app, (Hchk _ Hcs); reflexivity
          | reflexivity | reflexivity ].
      destruct E as [-> [Ey ->]]. injection Ey as -> -> ->.
      split; [reflexivity|]. split; [destruct out0; reflexivity|].
      split; [reflexivity|]. exists cs, msg. split; [reflexivity|].
      apply Hchk, Hcs.
    + intros Hno. exfalso.
      rewrite existsb_app, (Hchk _ Hcs) in Hno. discriminate.
Qed.

(** A skill whose name is not the input is passed over by the name path
    without a call. *)
Lemma name_path_skips (user_input : string)
  (entities : option (list (string * string))) :
  forall (pre rest : list (skill_info W)) w,
    Forall (fun s => String.eqb (lower user_input) (lower (name s)) = false)
           pre ->
    for_return (pre ++ rest)
      (fun s => if String.eqb (lower user_input) (lower (name s))
                then run_if_ready user_input entities s
                else ret None) w
    = for_return rest
        (fun s => if String.eqb (lower user_input) (lower (name s))
                  then run_if_ready user_input entities s
                  else ret None) w.
Proof.
  induction pre as [|s pre IH]; intros rest w Hpre; [reflexivity|].
  inversion Hpre as [|s' pre' Hs Hpre']; subst.
  cbn [app for_return]. rewrite Hs. unfold bind at 1. cbn.
  rewrite (IH rest w Hpre').
  destruct (for_return rest _ w) as [[w1 t1] r1]. reflexivity.
Qed.

(** X5: without a decision, the first skill whose name equals the input
    (compared in lower case) is the one run_skill turns to: if it is
    ready it is run and whatever its run returns or raises is the outcome;
    the skills before it are not called and no keyword is looked at. *)
Theorem X5_exact_name_runs_that_skill (pre post : list (skill_info W))
  (s : skill_info W) (inst : Instance W) (user_input : string)
  (entities : option (list (string * string))) (w w1 : W) (msg : string) :
  Forall (fun s' => String.eqb (lower user_input) (lower (name s')) = false)
         pre ->
  String.eqb (lower user_input) (lower (name s)) = true ->
  instance s = Some inst ->
  check_requirements inst w = (w1, Ok (true, msg)) ->
  run_skill lower word_search (pre ++ s :: post) user_input None entities w
  = (fst (run inst (ManualParams user_input entities) w1),
     [EvCheck (inst_id inst) (Ok (true, msg));
      EvRun (inst_id inst) (ManualParams user_input entities)
            (snd (run inst (ManualParams user_input entities) w1))],
     snd (run inst (ManualParams user_input entities) w1)).
Proof.
  intros Hpre Hname Hinst Hcheck. unfold run_skill.
  unfold bind at 1. rewrite (name_path_skips user_input entities pre _ w Hpre).
  cbn [for_return]. rewrite Hname. unfold bind at 1.
  unfold run_if_ready, bind, call_check, call_run, call.
  rewrite Hinst, Hcheck. cbn.
  destruct (run inst (ManualParams user_input entities) w1) as [w2 [v|e]];
    reflexivity.
Qed.

End RunSkillMore.

(** X1, on a clarify decision: the prompt, and no call. *)
Lemma X1_witness :
  SkillManager.run_skill Examples.lower Examples.word_search
    [Examples.jukebox] "play" (Some MoreExamples.clarify_music) None 0
  = (0, [],
     Ok (Some ("🤔 I found multiple possible actions: "
               ++ "music_skill, app_pilot" ++ ". Which one should I run?"))).
Proof.
  exact (X1_only_execute_dispatches nat Examples.lower Examples.word_search
           [Examples.jukebox] "play" MoreExamples.clarify_music None 0
           eq_refl).
Defined.

(** X2, on a skill that is ready and returns [None]. *)
Lemma X2_witness :
  Examples.dispatch [Examples.radio_mute]
    = (1, [EvCheck "RadioMute" (Ok (true, ""));
           EvRun "RadioMute" Examples.music_params (Ok None)],
       Ok (Some "⚠️ No skill could execute intent 'music_skill'.")) /\
  ((exists s, Ok (Some "⚠️ No skill could execute intent 'music_skill'.")
              = Ok (Some s)) \/
   (exists e, Ok (Some "⚠️ No skill could execute intent 'music_skill'.")
              = @Raise (option string) e)).
Proof.
  assert (E : Examples.dispatch [Examples.radio_mute]
    = (1, [EvCheck "RadioMute" (Ok (true, ""));
           EvRun "RadioMute" Examples.music_params (Ok None)],
       Ok (Some "⚠️ No skill could execute intent 'music_skill'.")))
    by (vm_compute; reflexivity).
  split; [exact E|].
  exact (X2_execute_never_none nat Examples.lower Examples.word_search
           [Examples.radio_mute] "play jazz" Examples.execute_music None
           0 _ _ _ eq_refl E).
Defined.

(** X3, on a skill for another intent, one that is not ready and one that
    returns [None]. *)
Lemma X3_witness :
  Examples.dispatch [Examples.clock; Examples.radio_offline;
                     Examples.radio_mute]
    = (1, [EvCheck "RadioOffline" (Ok (false, "missing credentials"));
           EvCheck "RadioMute" (Ok (true, ""));
           EvRun "RadioMute" Examples.music_params (Ok None)],
       Ok (Some "⚠️ No skill could execute intent 'music_skill'.")) /\
  (Some "⚠️ No skill could execute intent 'music_skill'."
   = Some ("⚠️ No skill could execute intent '"
           ++ SkillManager.fmt (Some "music_skill") ++ "'.") /\
   map (option_map (@inst_id nat))
       (SkillManager.matches_for
          [Examples.clock; Examples.radio_offline; Examples.radio_mute]
          (Some "music_skill"))
   = map Some
       (DispatchSpec.checked
          [EvCheck "RadioOffline" (Ok (false, "missing credentials"));
           EvCheck "RadioMute" (Ok (true, ""));
           EvRun "RadioMute" Examples.music_params (Ok None)])).
Proof.
  assert (E : Examples.dispatch [Examples.clock; Examples.radio_offline;
                                 Examples.radio_mute]
    = (1, [EvCheck "RadioOffline" (Ok (false, "missing credentials"));
           EvCheck "RadioMute" (Ok (true, ""));
           EvRun "RadioMute" Examples.music_params (Ok None)],
       Ok (Some "⚠️ No skill could execute intent 'music_skill'.")))
    by (vm_compute; reflexivity).
  split; [exact E|].
  apply (X3_exhausted_dispatch nat Examples.lower Examples.word_search
           [Examples.clock; Examples.radio_offline; Examples.radio_mute]
           "play jazz" Examples.execute_music None 0 1 _ _ eq_refl).
  - discriminate.
  - exact E.
  - reflexivity.
Defined.

(** X4, on an input that is no skill's name and holds a keyword of the
    jukebox. *)
Lemma X4_witness :
  MoreExamples.legacy [Examples.radio_offline; Examples.jukebox]
                      "please play jazz"
    = (1, ([EvCheck "Jukebox" (Ok (true, ""))]
           ++ EvRun "Jukebox" (ManualParams "please play jazz" None)
                    (Ok (Some "Playing jazz")) :: [])%list,
       Ok (Some "Playing jazz")) /\
  (@nil event = [] /\
   Ok (Some "Playing jazz") = Ok (Some "Playing jazz") /\
   ManualParams "please play jazz" None
     = ManualParams "please play jazz" None /\
   exists pre' msg,
     [EvCheck "Jukebox" (Ok (true, ""))]
       = (pre' ++ [EvCheck "Jukebox" (Ok (true, msg))])%list /\
     existsb is_run pre' = false).
Proof.
  assert (E :
    MoreExamples.legacy [Examples.radio_offline; Examples.jukebox]
                        "please play jazz"
    = (1, ([EvCheck "Jukebox" (Ok (true, ""))]
           ++ EvRun "Jukebox" (ManualParams "please play jazz" None)
                    (Ok (Some "Playing jazz")) :: [])%list,
       Ok (Some "Playing jazz"))) by (vm_compute; reflexivity).
  split; [exact E|].
  exact (proj1 (X4_legacy_runs_one_ready_skill nat Examples.lower
                  Examples.word_search
                  [Examples.radio_offline; Examples.jukebox]
                  "please play jazz" None 0 _ _ _ E)
           _ _ _ _ _ eq_refl).
Defined.

(** X5, on the input "JUKEBOX" with the offline radio registered first. *)
Lemma X5_witness :
  MoreExamples.legacy [Examples.radio_offline; Examples.jukebox] "JUKEBOX"
  = (1, [EvCheck "Jukebox" (Ok (true, ""));
         EvRun "Jukebox" (ManualParams "JUKEBOX" None)
               (Ok (Some "Playing jazz"))],
     Ok (Some "Playing jazz")).
Proof.
  apply (X5_exact_name_runs_that_skill nat Examples.lower
           Examples.word_search [Examples.radio_offline] []
           Examples.jukebox
           (Examples.stub "Jukebox" true (Ok (Some "Playing jazz")) [])
           "JUKEBOX" None 0 0 "").
  - repeat constructor.
  - reflexivity.
  - reflexivity.
  - reflexivity.
Defined.

End SkillManagerMore.

(** ** The ranking and the shape of a decision *)

Module IntentJudgeMore.

Import IntentJudge.
Local Open Scope float_scope.

Lemma insert_desc_perm (x : string * float) (l : list (string * float)) :
  Permutation (insert_desc x l) (x :: l).
Proof.
  induction l as [|y l IH]; cbn; [reflexivity|].
  destruct (snd x <? snd y).
  - rewrite IH. apply perm_swap.
  - reflexivity.
Qed.

(** The sort loses and invents nothing. *)
Lemma sort_desc_perm (l : list (string * float)) :
  Permutation (sort_desc l) l.
Proof.
  induction l as [|x l IH]; cbn; [reflexivity|].
  unfold sort_desc in IH. rewrite insert_desc_perm. now constructor.
Qed.

Lemma INTENTS_NoDup : NoDup INTENTS.
Proof.
  unfold INTENTS.
  repeat (constructor; [cbn; intuition discriminate|]). constructor.
Qed.

Lemma close_matches_sub (top_score : float) (rest : list (string * float)) :
  NoDup (map fst rest) ->
  NoDup (close_matches top_score rest) /\
  incl (close_matches top_score rest) (map fst rest).
Proof.
  unfold close_matches. induction rest as [|p rest IH]; cbn; intros Hnd.
  - split; [constructor | intros x []].
  - inversion Hnd as [|a l Hnotin Hnd']; subst.
    destruct (IH Hnd') as [IH1 IH2].
    destruct (abs (top_score - snd p) <=? AMBIGUITY_MARGIN); cbn.
    + split.
      * constructor; [|exact IH1]. intros Hin. apply Hnotin, IH2, Hin.
      * intros x [<- | Hx]; [left; reflexivity | right; apply IH2, Hx].
    + split; [exact IH1|]. intros x Hx. right. apply IH2, Hx.
Qed.

(** The shape of a decision on a ranking whose intents are pairwise
    different. *)
Lemma decide_full_shape (scores : list (string * float)) (r : IntentResult) :
  NoDup (map fst scores) ->
  decide scores = Ok r ->
  In (action r) ["none"; "clarify"; "execute"; "confirm"]%string /\
  (action r = "none"%string ->
   intent r = None /\ confidence r = None /\ candidates r = None) /\
  (action r <> "none"%string ->
   exists i, intent r = Some i /\ In i (map fst scores) /\
             confidence r <> None) /\
  (forall l, candidates r = Some l ->
     exists i rest,
       l = i :: rest /\ intent r = Some i /\ rest <> [] /\
       NoDup l /\ incl l (map fst scores)).
Proof.
  intros Hnd. unfold decide.
  destruct scores as [|[top_intent top_score] rest]; [discriminate|].
  cbn [map fst] in Hnd. inversion Hnd as [|a l0 Hnotin Hnd']; subst.
  destruct (close_matches_sub top_score rest Hnd') as [Hc1 Hc2].
  destruct (close_matches top_score rest) as [|c cs] eqn:Ec; cbn [negb andb].
  - destruct (HIGH_CONFIDENCE <=? top_score);
      [|destruct (MEDIUM_CONFIDENCE <=? top_score)];
      intros [= <-]; cbn;
      (split; [tauto|]); (split; [try discriminate; auto|]);
      (split; [|discriminate]);
      try (intros _; exists top_intent;
           split; [reflexivity|]; split; [left; reflexivity|discriminate]).
    congruence.
  - destruct (MEDIUM_CONFIDENCE <=? top_score).
    + intros [= <-]. cbn. split; [tauto|]. split; [discriminate|]. split.
      * intros _. exists top_intent.
        split; [reflexivity|]. split; [left; reflexivity|discriminate].
      * intros l [= <-]. exists top_intent, (c :: cs).
        split; [reflexivity|]. split; [reflexivity|].
        split; [discriminate|]. split.
        -- constructor; [|exact Hc1]. intros Hin. apply Hnotin, Hc2, Hin.
        -- intros x [<- | Hx]; [left; reflexivity | right; apply Hc2, Hx].
    + destruct (HIGH_CONFIDENCE <=? top_score);
        intros [= <-]; cbn;
        (split; [tauto|]); (split; [try discriminate; auto|]);
        (split; [|discriminate]);
        try (intros _; exists top_intent;
             split; [reflexivity|]; split; [left; reflexivity|discriminate]).
      congruence.
Qed.

Section DetectIntentMore.

Variable lower : string -> string.
Variable strip : string -> string.
Variable split : string -> list string.
Variable extract_keywords : string -> list string.
Variable Embedding : Type.
Variable encode : string -> result Embedding.
Variable cos_sim_max : Embedding -> string -> result float.

(** X6: whatever the text and the collaborators, a result of detect_intent
    has one of the four actions; with none it has no other key; with any
    other action it names an intent of INTENTS and has a confidence; and
    its candidates, when it has any, are the intent followed by at least
    one other, pairwise different, intents of INTENTS. *)
Theorem X6_decision_shape (text : string) (r : IntentResult) :
  detect_intent lower strip split extract_keywords encode cos_sim_max text
    = Ok r ->
  In (action r) ["none"; "clarify"; "execute"; "confirm"]%string /\
  (action r = "none"%string ->
   intent r = None /\ confidence r = None /\ candidates r = None) /\
  (action r <> "none"%string ->
   exists i, intent r = Some i /\ In i INTENTS /\ confidence r <> None) /\
  (forall l, candidates r = Some l ->
     exists i rest,
       l = i :: rest /\ intent r = Some i /\ rest <> [] /\
       NoDup l /\ incl l INTENTS).
Proof.
  assert (Hnone :
    In (action action_none) ["none"; "clarify"; "execute"; "confirm"]%string /\
    (action action_none = "none"%string ->
     intent action_none = None /\ confidence action_none = None /\
     candidates action_none = None) /\
    (action action_none <> "none"%string ->
     exists i, intent action_none = Some i /\ In i INTENTS /\
               confidence action_none <> None) /\
    (forall l, candidates action_none = Some l ->
       exists i rest,
         l = i :: rest /\ intent action_none = Some i /\ rest <> [] /\
         NoDup l /\ incl l INTENTS)).
  { cbn. split; [tauto|]. split; [auto|]. split; [congruence|discriminate]. }
  unfold detect_intent.
  destruct (String.eqb _ _); [intros [= <-]; exact Hnone|].
  destruct (split _) as [|first_word ws]; [discriminate|].
  destruct (_ && _); [intros [= <-]; exact Hnone|].
  destruct (encode _) as [emb|e]; [|discriminate]. cbn [rbind].
  destruct (score_intents cos_sim_max emb INTENTS) as [scores|e] eqn:Es;
    [|discriminate]. cbn [rbind].
  intros Hd.
  pose proof (IntentJudgeFacts.score_intents_names Embedding cos_sim_max
                emb INTENTS scores Es) as Hnames.
  assert (Hperm : Permutation (map fst (sort_desc scores)) INTENTS).
  { rewrite <- Hnames. apply Permutation_map, sort_desc_perm. }
  assert (Hnd : NoDup (map fst (sort_desc scores))).
  { eapply Permutation_NoDup; [symmetry; exact Hperm | exact INTENTS_NoDup]. }
  destruct (decide_full_shape _ _ Hnd Hd) as (H1 & H2 & H3 & H4).
  split; [exact H1|]. split; [exact H2|]. split.
  - intros Hne. destruct (H3 Hne) as (i & Hi & Hin & Hc).
    exists i. split; [exact Hi|]. split; [|exact Hc].
    eapply Permutation_in; eauto.
  - intros l Hl. destruct (H4 l Hl) as (i & rest & E & Hi & Hr & Hn & Hincl).
    exists i, rest. repeat (split; [assumption|]).
    intros x Hx. eapply Permutation_in; [exact Hperm|]. apply Hincl, Hx.
Qed.

End DetectIntentMore.

(** X6, on the text "play something" and a model that cannot tell music
    from the app pilot. *)
Lemma X6_witness :
  exists r,
    detect_intent Examples.lower Examples.strip Examples.split
      Examples.extract_keywords Examples.encode Examples.cos_sim_tied
      "play something" = Ok r /\
    candidates r = Some ["music_skill"; "app_pilot"]%string /\
    In (action r) ["none"; "clarify"; "execute"; "confirm"]%string /\
    (action r = "none"%string ->
     intent r = None /\ confidence r = None /\ candidates r = None) /\
    (action r <> "none"%string ->
     exists i, intent r = Some i /\ In i INTENTS /\ confidence r <> None) /\
    (forall l, candidates r = Some l ->
       exists i rest,
         l = i :: rest /\ intent r = Some i /\ rest <> [] /\
         NoDup l /\ incl l INTENTS).
Proof.
  exists (mkIntentResult "clarify" (Some "music_skill"%string) (Some 0.72)
            (Some ["music_skill"; "app_pilot"]%string)).
  split; [vm_compute; reflexivity|]. split; [reflexivity|].
  apply (X6_decision_shape Examples.lower Examples.strip Examples.split
           Examples.extract_keywords string Examples.encode
           Examples.cos_sim_tied "play something").
  vm_compute. reflexivity.
Defined.

End IntentJudgeMore.

(** ** The conversation memory *)

Module MemoryFacts.

Import PySeq Memory.

Lemma slice_from_suffix {A} (l : list A) (k : Z) :
  exists pre, l = (pre ++ slice_from l k)%list.
Proof.
  unfold slice_from. destruct (0 <=? k)%Z.
  - exists (firstn (Z.to_nat k) l). symmetry. apply firstn_skipn.
  - exists (firstn (List.length l - Z.to_nat (- k)) l).
    symmetry. apply firstn_skipn.
Qed.

Lemma slice_last_length {A} (l : list A) (n : Z) :
  (1 <= n)%Z ->
  List.length (slice_from l (- n)) = Nat.min (Z.to_nat n) (List.length l).
Proof.
  intros Hn. unfold slice_from.
  destruct (0 <=? - n)%Z eqn:E; [apply Z.leb_le in E; lia|].
  rewrite length_skipn, Z.opp_involutive. lia.
Qed.

Lemma slice_last_keeps_end {A} (l : list A) (x : A) (n : Z) :
  (1 <= n)%Z ->
  exists pre, slice_from (l ++ [x]) (- n) = (pre ++ [x])%list.
Proof.
  intros Hn. unfold slice_from.
  destruct (0 <=? - n)%Z eqn:E; [apply Z.leb_le in E; lia|].
  rewrite Z.opp_involutive, length_app. cbn [List.length].
  rewrite skipn_app.
  replace (List.length l + 1 - Z.to_nat n - List.length l)%nat with 0%nat
    by lia.
  cbn [skipn]. eexists. reflexivity.
Qed.

Section MethodFacts.

Variable W : Type.
Variable time_time : W -> W * float.
Variable write_json : string -> list message -> W -> W * result unit.

(** X7: add never raises, not even when the file cannot be written: then
    the error is printed, and otherwise nothing is.  It keeps the file and
    the bound, and what it hands to the writer is the new history.  With
    a bound of at least 1 the new history is the old one followed by the
    new entry, cut to its last entries: as many as the bound says, or all
    of them when there are fewer; so the new entry is always its last
    element.  With a bound of 0 nothing is ever dropped, since
    [history[-0:]] is the whole list. *)
Theorem X7_add_bounds_history (m : memory) (role text : string)
  (meta : option (list (string * string))) (w : W) :
  exists m' now w2 out,
    add time_time write_json m role text meta w
    = (w2,
       match out with
       | Ok _ => []
       | Raise e => [EvPrint ("❌ Memory Save Error: " ++ exn_str e)]
       end,
       Ok m') /\
    snd (time_time w) = now /\
    write_json (file m) (history m') (fst (time_time w)) = (w2, out) /\
    file m' = file m /\ max_turns m' = max_turns m /\
    (exists dropped,
       (history m ++ [mkMessage role text (Some now)
                        (Some (match meta with
                               | Some es => es
                               | None => []
                               end))])%list
       = (dropped ++ history m')%list) /\
    ((1 <= max_turns m)%Z ->
     List.length (history m')
     = Nat.min (Z.to_nat (max_turns m)) (List.length (history m) + 1) /\
     (Z.of_nat (List.length (history m')) <= max_turns m)%Z /\
     exists pre,
       history m'
       = (pre ++ [mkMessage role text (Some now)
                    (Some (match meta with
                           | Some es => es
                           | None => []
                           end))])%list) /\
    (max_turns m = 0%Z ->
     history m'
     = (history m ++ [mkMessage role text (Some now)
                        (Some (match meta with
                               | Some es => es
                               | None => []
                               end))])%list).
Proof.
  unfold add, save, bind, catch, perform.
  destruct (time_time w) as [w1 now].
  set (entry := mkMessage role text (Some now) _).
  set (h' := slice_from (history m ++ [entry]) (- max_turns m)).
  destruct (write_json (file m) h' w1) as [w2 out] eqn:Ew.
  exists (mkMemory (file m) h' (max_turns m)), now, w2, out.
  cbn [file history max_turns fst snd].
  split.
  { rewrite Ew. destruct out as [[]|e]; reflexivity. }
  split; [reflexivity|]. split; [exact Ew|].
  split; [reflexivity|]. split; [reflexivity|]. split; [|split].
  - apply slice_from_suffix.
  - intros Hn.
    assert (Hlen : List.length h'
                   = Nat.min (Z.to_nat (max_turns m))
                       (List.length (history m) + 1)).
    { unfold h'. rewrite slice_last_length by exact Hn.
      rewrite length_app. reflexivity. }
    split; [exact Hlen|]. split.
    + rewrite Hlen. lia.
    + apply slice_last_keeps_end, Hn.
  - intros H0. unfold h'. rewrite H0. reflexivity.
Qed.

End MethodFacts.

(** X8: context always starts with the system prompt, followed by a tail
    of the history: the last [n] entries for [n] different from 0,
    positive or negative alike (all of them when there are fewer), and the
    whole history for [n] equal to 0. *)
Theorem X8_context_window (m : memory) (last_n : Z) :
  exists msgs,
    context m last_n = system_prompt :: msgs /\
    (exists pre, history m = (pre ++ msgs)%list) /\
    (last_n = 0%Z -> msgs = history m) /\
    (last_n <> 0%Z ->
     List.length msgs
     = Nat.min (Z.to_nat (Z.abs last_n)) (List.length (history m))).
Proof.
  unfold context. eexists. split; [reflexivity|]. split; [|split].
  - destruct (0 <=? last_n)%Z; apply slice_from_suffix.
  - intros ->. reflexivity.
  - intros Hne. destruct (0 <=? last_n)%Z eqn:E.
    + apply Z.leb_le in E. rewrite slice_last_length by lia.
      rewrite Z.abs_eq by lia. reflexivity.
    + apply Z.leb_gt in E.
      replace last_n with (- (- last_n))%Z at 1 by lia.
      rewrite slice_last_length by lia.
      rewrite Z.abs_neq by lia. reflexivity.
Qed.

(** What [collect] and [scan] keep: no value twice, and only values of
    entities of the wanted type found in the entries. *)
Lemma collect_keeps (entity_type : option string) (P : string -> Prop)
  (es : list (string * string)) :
  forall found,
    NoDup found -> (forall v, In v found -> P v) ->
    (forall e, In e es ->
               match entity_type with
               | None => true
               | Some ty => String.eqb (fst e) ty
               end = true -> P (snd e)) ->
    NoDup (collect entity_type es found) /\
    (forall v, In v (collect entity_type es found) -> P v).
Proof.
  unfold collect. induction es as [|e es IH]; intros found Hnd HP Hes.
  - cbn. auto.
  - cbn [fold_left].
    apply IH; [| |intros e' He'; apply Hes; right; exact He'];
      destruct (match entity_type with
                | None => true
                | Some ty => String.eqb (fst e) ty
                end) eqn:Ety; try assumption;
      destruct (str_in (snd e) found) eqn:Ein; try assumption.
    + apply NoDup_app_remove_l with (l := []).
      cbn. apply NoDup_rev in Hnd.
      replace (found ++ [snd e])%list with (rev (snd e :: rev found))
        by (cbn; rewrite rev_involutive; reflexivity).
      apply NoDup_rev. constructor; [|exact Hnd].
      rewrite <- in_rev. intros Hin.
      assert (Ht : str_in (snd e) found = true).
      { unfold str_in. apply existsb_exists. exists (snd e).
        split; [exact Hin | apply String.eqb_refl]. }
      congruence.
    + intros v Hv. apply in_app_or in Hv. destruct Hv as [Hv | [<- | []]].
      * apply HP, Hv.
      * apply Hes; [left; reflexivity | exact Ety].
Qed.

Lemma scan_keeps (entity_type : option string) (limit : Z)
  (P : string -> Prop) (entries : list message) :
  forall found,
    NoDup found -> (forall v, In v found -> P v) ->
    (forall entry es e,
       In entry entries -> entities entry = Some es -> In e es ->
       match entity_type with
       | None => true
       | Some ty => String.eqb (fst e) ty
       end = true -> P (snd e)) ->
    NoDup (scan entity_type limit entries found) /\
    (forall v, In v (scan entity_type limit entries found) -> P v).
Proof.
  induction entries as [|entry rest IH]; intros found Hnd HP Hes.
  - cbn. auto.
  - cbn [scan].
    destruct (collect_keeps entity_type P
                (match entities entry with Some es => es | None => [] end)
                found Hnd HP) as [Hnd' HP'].
    { intros e He Hty. destruct (entities entry) as [es|] eqn:Ee; [|destruct He].
      apply (Hes entry es e); auto. left. reflexivity. }
    destruct (limit <=? _)%Z; [auto|].
    apply IH; auto.
    intros entry' es e Hin. apply Hes. right. exact Hin.
Qed.

Lemma slice_to_prefix {A} (l : list A) (k : Z) :
  exists rest, l = (slice_to l k ++ rest)%list.
Proof.
  unfold slice_to. destruct (0 <=? k)%Z.
  - exists (skipn (Z.to_nat k) l). symmetry. apply firstn_skipn.
  - exists (skipn (List.length l - Z.to_nat (- k)) l).
    symmetry. apply firstn_skipn.
Qed.

(** Every value that get_recent_entities returns is stored in the
    history. *)
Lemma recent_entities_stored (m : memory) (entity_type : option string)
  (limit : Z) (v : string) :
  In v (get_recent_entities m entity_type limit) ->
  exists entry es ty,
    In entry (history m) /\ entities entry = Some es /\ In (ty, v) es.
Proof.
  unfold get_recent_entities.
  set (P := fun v : string =>
    exists entry es ty,
      In entry (history m) /\ entities entry = Some es /\ In (ty, v) es).
  destruct (scan_keeps entity_type limit P (rev (history m)) [])
    as [_ HP].
  { constructor. }
  { intros v0 []. }
  { intros entry es [ty v0] Hin Hes He _. exists entry, es, ty.
    split; [apply in_rev, Hin|]. split; [exact Hes | exact He]. }
  destruct (slice_to_prefix (scan entity_type limit (rev (history m)) [])
              limit) as [rest E].
  intros Hv. apply HP. rewrite E. apply in_or_app. left. exact Hv.
Qed.

(** X9: get_recent_entities returns no value twice; with a limit that is
    not negative it returns at most that many values; and every value it
    returns is the value of an entity stored in some entry of the history,
    of the wanted type when a type is given. *)
Theorem X9_recent_entities (m : memory) (entity_type : option string)
  (limit : Z) :
  NoDup (get_recent_entities m entity_type limit) /\
  ((0 <= limit)%Z ->
   (Z.of_nat (List.length (get_recent_entities m entity_type limit))
    <= limit)%Z) /\
  (forall v, In v (get_recent_entities m entity_type limit) ->
     exists entry es ty,
       In entry (history m) /\ entities entry = Some es /\
       In (ty, v) es /\
       (forall wanted, entity_type = Some wanted -> ty = wanted)).
Proof.
  unfold get_recent_entities.
  set (P := fun v : string =>
    exists entry es ty,
      In entry (history m) /\ entities entry = Some es /\ In (ty, v) es /\
      (forall wanted, entity_type = Some wanted -> ty = wanted)).
  destruct (scan_keeps entity_type limit P (rev (history m)) [])
    as [Hnd HP].
  { constructor. }
  { intros v []. }
  { intros entry es [ty v] Hin Hes He Hty. exists entry, es, ty.
    split; [apply in_rev, Hin|]. split; [exact Hes|]. split; [exact He|].
    intros wanted ->. cbn in Hty. apply String.eqb_eq, Hty. }
  destruct (slice_to_prefix (scan entity_type limit (rev (history m)) [])
              limit) as [rest E].
  split; [|split].
  - rewrite E in Hnd. eapply NoDup_app_remove_r, Hnd.
  - intros Hl. unfold slice_to.
    destruct (0 <=? limit)%Z eqn:El; [|apply Z.leb_gt in El; lia].
    pose proof (firstn_le_length (Z.to_nat limit)
                  (scan entity_type limit (rev (history m)) [])). lia.
  - intros v Hv. apply HP. rewrite E. apply in_or_app. left. exact Hv.
Qed.

End MemoryFacts.

(** ** The guard *)

Module GuardFacts.

Import PyStr Guard.
Local Open Scope string_scope.

Lemma subseq_refl (s : string) : subseq s s.
Proof. induction s; constructor; assumption. Qed.

Lemma subseq_trans (a b c : string) :
  subseq a b -> subseq b c -> subseq a c.
Proof.
  intros Hab Hbc. revert a Hab.
  induction Hbc as [|x t s Hts IH|x t s Hts IH]; intros a Hab.
  - exact Hab.
  - inversion Hab as [|y a' t' Ha|y a' t' Ha]; subst.
    + apply subseq_keep, IH, Ha.
    + apply subseq_drop, IH, Ha.
  - apply subseq_drop, IH, Hab.
Qed.

Lemma subseq_has_char (c : ascii) (t s : string) :
  subseq t s -> has_char c s = false -> has_char c t = false.
Proof.
  induction 1 as [|x t s Hts IH|x t s Hts IH]; cbn; intros H.
  - reflexivity.
  - apply orb_false_iff in H. destruct H as [Hx Hs].
    rewrite Hx, (IH Hs). reflexivity.
  - apply orb_false_iff in H. destruct H as [_ Hs]. exact (IH Hs).
Qed.

(** Replacing by the empty string only removes characters. *)
Lemma replace_from_subseq (old : string) (s : string) :
  forall skip, subseq (replace_from old "" skip s) s.
Proof.
  induction s as [|c s IH]; intros skip; cbn.
  - constructor.
  - destruct skip as [|k].
    + destruct (is_prefix old (String c s)).
      * cbn. apply subseq_drop, IH.
      * apply subseq_keep, IH.
    + apply subseq_drop, IH.
Qed.

Lemma replace_subseq (s old : string) :
  old <> "" -> subseq (replace s old "") s.
Proof.
  intros Hne. unfold replace. destruct old as [|c old]; [congruence|].
  apply replace_from_subseq.
Qed.

(** Replacing a character by the empty string leaves none of it. *)
Lemma replace_char_gone (c : ascii) (s : string) :
  has_char c (replace s (String c "") "") = false.
Proof.
  unfold replace. induction s as [|x s IH]; cbn; [reflexivity|].
  destruct (c =? x)%char eqn:E; cbn.
  - exact IH.
  - rewrite Ascii.eqb_sym, E. exact IH.
Qed.

Section EnforceFacts.

Variable strip : string -> string.

(** X10: provided that [strip] only removes characters, the enforce that
    callers get only removes characters from the text (it never adds,
    changes or reorders any, whatever the rules say) and its result holds
    no asterisk. *)
Theorem X10_enforce_only_removes (text : string) (r : rules) :
  (forall s, subseq (strip s) s) ->
  subseq (enforce strip text r) text /\
  has_char "*" (enforce strip text r) = false.
Proof.
  intros Hstrip. unfold enforce. cbn [fold_left].
  set (t1 := replace text "*" "").
  set (t2 := replace t1 "..." "").
  set (t3 := replace t2 "pauses" "").
  set (t4 := replace t3 "watching" "").
  set (t5 := replace t4 "smiles" "").
  assert (H1 : subseq t1 text) by (apply replace_subseq; discriminate).
  assert (H2 : subseq t2 t1) by (apply replace_subseq; discriminate).
  assert (H3 : subseq t3 t2) by (apply replace_subseq; discriminate).
  assert (H4 : subseq t4 t3) by (apply replace_subseq; discriminate).
  assert (H5 : subseq t5 t4) by (apply replace_subseq; discriminate).
  assert (H51 : subseq (strip t5) t1).
  { eapply subseq_trans; [apply Hstrip|].
    eapply subseq_trans; [exact H5|].
    eapply subseq_trans; [exact H4|].
    eapply subseq_trans; [exact H3 | exact H2]. }
  split.
  - eapply subseq_trans; [exact H51 | exact H1].
  - eapply subseq_has_char; [exact H51|]. apply replace_char_gone.
Qed.

End EnforceFacts.

Lemma lstrip_by_subseq (drop : ascii -> bool) (s : string) :
  subseq (Examples.lstrip_by drop s) s.
Proof.
  induction s as [|c s IH]; cbn; [constructor|].
  destruct (drop c); [apply subseq_drop, IH | apply subseq_refl].
Qed.

Lemma rstrip_by_subseq (drop : ascii -> bool) (s : string) :
  subseq (Examples.rstrip_by drop s) s.
Proof.
  induction s as [|c s IH]; cbn; [constructor|].
  destruct (Examples.rstrip_by drop s) as [|x r] eqn:E.
  - destruct (drop c); [apply subseq_drop, IH | apply subseq_keep, IH].
  - apply subseq_keep, IH.
Qed.

Lemma strip_subseq (s : string) : subseq (Examples.strip s) s.
Proof.
  unfold Examples.strip.
  eapply subseq_trans; [apply rstrip_by_subseq | apply lstrip_by_subseq].
Qed.

(** X10, on a reply with stage directions. *)
Lemma X10_witness :
  enforce Examples.strip " *smiles* Sure... watching the logs " SYSTEM_RULES
    = "Sure  the logs" /\
  subseq (enforce Examples.strip " *smiles* Sure... watching the logs "
            SYSTEM_RULES)
         " *smiles* Sure... watching the logs " /\
  has_char "*" (enforce Examples.strip " *smiles* Sure... watching the logs "
                  SYSTEM_RULES) = false.
Proof.
  split; [vm_compute; reflexivity|].
  exact (X10_enforce_only_removes Examples.strip
           " *smiles* Sure... watching the logs " SYSTEM_RULES strip_subseq).
Defined.

Section BuildPromptFacts.

Variable lower : string -> string.
Variable strip : string -> string.
Variable re_greeting : string -> bool.
Variable re_respond_with : string -> option Z.

(** X11: the system prompt that build_prompt returns does not depend on
    the user's text: it is always the stripped template with the tone
    "controlled".  Of the rules only max_words can differ from
    SYSTEM_RULES, and it is set only when the text is classified as an
    instruction and holds "respond with N word(s)", to that N. *)
Theorem X11_system_prompt_is_fixed (user_input : string) :
  system_prompt (build_prompt lower strip re_greeting re_respond_with
                   user_input)
    = strip (prompt_template "controlled") /\
  persona (p_rules (build_prompt lower strip re_greeting re_respond_with
                      user_input)) = "Crystal" /\
  priority (p_rules (build_prompt lower strip re_greeting re_respond_with
                       user_input)) = "instructions_over_content" /\
  tone (p_rules (build_prompt lower strip re_greeting re_respond_with
                   user_input)) = "controlled" /\
  (forall n,
     max_words (p_rules (build_prompt lower strip re_greeting
                           re_respond_with user_input)) = Some n ->
     classify_intent lower strip re_greeting user_input = INSTRUCTION /\
     re_respond_with (lower user_input) = Some n).
Proof.
  unfold build_prompt, extract_instruction.
  destruct (classify_intent lower strip re_greeting user_input) eqn:Ec;
    cbn; try (repeat split; try reflexivity; discriminate).
  destruct (re_respond_with (lower user_input)) as [k|] eqn:Er; cbn.
  - repeat split; try reflexivity.
    + injection H as <-. reflexivity.
  - repeat split; try reflexivity; discriminate.
Qed.

End BuildPromptFacts.

End GuardFacts.

(** ** The language model *)

Module LLMFacts.

Import Memory LLM.
Local Open Scope string_scope.

Section GenerateFacts.

Variable W : Type.
Variable strip : string -> string.
Variable get_dynamic_context : W -> W * result string.
Variable chat : list message -> float -> W -> W * result string.

(** X12: generate_response raises only when the dynamic context cannot be
    built, and then the model is not called.  Otherwise it calls the model
    once and returns a string: the stripped content of the answer, or,
    when the request fails in any way, the text "LLM core error: "
    followed by the error. *)
Theorem X12_generate_response_contains_errors (system_prompt : string)
  (messages : list message) (temperature : float) (w : W) :
  (forall w1 e,
     get_dynamic_context w = (w1, Raise e) ->
     generate_response strip get_dynamic_context chat system_prompt
       messages temperature w = (w1, [], Raise e)) /\
  (forall w1 ctx,
     get_dynamic_context w = (w1, Ok ctx) ->
     exists w2 payload out,
       generate_response strip get_dynamic_context chat system_prompt
         messages temperature w
       = (w2, [EvLLM payload out],
          Ok (match out with
              | Ok text => strip text
              | Raise e => "LLM core error: " ++ exn_str e
              end)) /\
       chat ([SYSTEM_CLEAN; sys system_prompt; sys ctx]
             ++ filter is_turn messages)%list temperature w1 = (w2, out) /\
       payload = map as_pair ([SYSTEM_CLEAN; sys system_prompt; sys ctx]
                              ++ filter is_turn messages)%list).
Proof.
  split.
  - intros w1 e Hctx. unfold generate_response, bind, perform.
    rewrite Hctx. reflexivity.
  - intros w1 ctx Hctx. unfold generate_response, bind, perform, catch, call.
    rewrite Hctx.
    destruct (chat _ temperature w1) as [w2 out] eqn:Ec.
    exists w2, (map as_pair ([SYSTEM_CLEAN; sys system_prompt; sys ctx]
                             ++ filter is_turn messages)%list), out.
    split; [|split; reflexivity].
    destruct out as [text|e]; cbn; reflexivity.
Qed.

(** X13: when the arbitrator's routing prompt goes through run_llm, the
    instruction it opens with ("You are a tool arbitrator...") has the
    role system and is filtered out: what the model receives is
    SYSTEM_CLEAN, an empty system prompt, the dynamic context, and the
    user message with the input and the list of skills. *)
Theorem X13_routing_instruction_is_dropped (user_input descriptions : string)
  (w w1 : W) (ctx : string) :
  get_dynamic_context w = (w1, Ok ctx) ->
  exists w2 out,
    run_llm strip get_dynamic_context chat
      (Messages (map of_pair
                   (Arbitrator.routing_prompt user_input descriptions))) w
    = (w2,
       [EvLLM [as_pair SYSTEM_CLEAN; ("system", ""); ("system", ctx);
               ("user",
                "User input: " ++ user_input ++ Arbitrator.newline
                ++ "Available skills:" ++ Arbitrator.newline
                ++ descriptions)]
              out],
       Ok (match out with
           | Ok text => strip text
           | Raise e => "LLM core error: " ++ exn_str e
           end)).
Proof.
  intros Hctx.
  unfold run_llm, generate_response, bind, perform, catch, call.
  rewrite Hctx. cbn [map filter of_pair is_turn role fst snd app
                     Arbitrator.routing_prompt].
  cbn [String.eqb Ascii.eqb orb Bool.eqb andb].
  match goal with
  | |- context [chat ?l ?t w1] => destruct (chat l t w1) as [w2 out]
  end.
  exists w2, out. destruct out as [text|e]; reflexivity.
Qed.

End GenerateFacts.

Lemma X13_witness :
  exists w2 out,
    run_llm Examples.strip MoreExamples.context_at_noon
      MoreExamples.ollama_names_music
      (Messages (map of_pair (Arbitrator.routing_prompt "play jazz"
                                "- MusicSkill: plays music"))) 0
    = (w2,
       [EvLLM [as_pair SYSTEM_CLEAN; ("system", "");
               ("system", "[Context: Current Time is 12:00 PM. Battery: 80%]");
               ("user",
                "User input: " ++ "play jazz" ++ Arbitrator.newline
                ++ "Available skills:" ++ Arbitrator.newline
                ++ "- MusicSkill: plays music")]
              out],
       Ok (match out with
           | Ok text => Examples.strip text
           | Raise e => "LLM core error: " ++ exn_str e
           end)).
Proof.
  apply (X13_routing_instruction_is_dropped nat Examples.strip
           MoreExamples.context_at_noon MoreExamples.ollama_names_music
           "play jazz" "- MusicSkill: plays music" 0 0
           "[Context: Current Time is 12:00 PM. Battery: 80%]").
  reflexivity.
Defined.

End LLMFacts.

(** ** The skill bridge *)

Module SkillBridgeFacts.

Import PyDict SkillBridge.
Local Open Scope string_scope.

Section FindFacts.

Variable lower : string -> string.

Lemma keyword_score_zero (ui : string) (keywords : list string) :
  (forall k, In k keywords -> is_substring k ui = false) ->
  keyword_score ui keywords = 0.
Proof.
  unfold keyword_score. generalize 0.
  induction keywords as [|k keywords IH]; intros acc H; cbn; [reflexivity|].
  rewrite (H k (or_introl eq_refl)). apply IH.
  intros k' Hk'. apply H. right. exact Hk'.
Qed.

Lemma keyword_score_hit (ui : string) (keywords : list string) :
  0 < keyword_score ui keywords ->
  exists k, In k keywords /\ is_substring k ui = true.
Proof.
  intros Hpos.
  destruct (existsb (fun k => is_substring k ui) keywords) eqn:E.
  - apply existsb_exists in E. exact E.
  - rewrite keyword_score_zero in Hpos; [lia|].
    intros k Hk. destruct (is_substring k ui) eqn:Ek; [|reflexivity].
    assert (existsb (fun k => is_substring k ui) keywords = true)
      by (apply existsb_exists; eauto).
    congruence.
Qed.

(** The best match is nobody with the score 0, or an indexed skill with
    its own, positive, score. *)
Lemma best_match_sound (ui : string) (d : list (string * list string)) :
  (best_match ui d = (0, None)) \/
  (exists n kws,
     snd (best_match ui d) = Some n /\ In (n, kws) d /\
     keyword_score ui kws = fst (best_match ui d) /\
     0 < fst (best_match ui d)).
Proof.
  unfold best_match.
  assert (G : forall items best,
    (forall item, In item items -> In item d) ->
    (best = (0, None) \/
     exists n kws, snd best = Some n /\ In (n, kws) d /\
                   keyword_score ui kws = fst best /\ 0 < fst best) ->
    let b := fold_left
      (fun best item =>
         let score := keyword_score ui (snd item) in
         if (fst best <? score)%nat then (score, Some (fst item)) else best)
      items best in
    b = (0, None) \/
    exists n kws, snd b = Some n /\ In (n, kws) d /\
                  keyword_score ui kws = fst b /\ 0 < fst b).
  { induction items as [|item items IH]; intros best Hsub Hbest;
      cbn [fold_left].
    - exact Hbest.
    - apply IH; [intros i Hi; apply Hsub; right; exact Hi|].
      cbv zeta.
      destruct (fst best <? keyword_score ui (snd item))%nat eqn:E;
        [|exact Hbest].
      apply Nat.ltb_lt in E. right. exists (fst item), (snd item). cbn.
      split; [reflexivity|]. split.
      + destruct item. apply Hsub. left. reflexivity.
      + split; [reflexivity | lia]. }
  apply G; [auto | left; reflexivity].
Qed.

Lemma best_match_none (ui : string) (d : list (string * list string)) :
  (forall n kws k, In (n, kws) d -> In k kws -> is_substring k ui = false) ->
  best_match ui d = (0, None).
Proof.
  intros H. unfold best_match.
  induction d as [|[n kws] d IH]; cbn [fold_left snd fst]; [reflexivity|].
  rewrite keyword_score_zero.
  - cbn [Nat.ltb Nat.leb]. apply IH. intros n' kws' k Hin.
    apply (H n' kws' k). right. exact Hin.
  - intros k Hk. eapply H; [left; reflexivity | exact Hk].
Qed.

(** X14: _find_skill_by_keywords only ever names an indexed skill one of
    whose keywords occurs in the lower-cased input, and it names nobody
    when no keyword of any indexed skill occurs in it. *)
Theorem X14_bridge_names_a_matching_skill
  (skill_keywords : list (string * list string)) (user_input : string) :
  (forall n,
     _find_skill_by_keywords lower skill_keywords user_input = Some n ->
     exists kws k,
       In (n, kws) skill_keywords /\ In k kws /\
       is_substring k (lower user_input) = true) /\
  ((forall n kws k,
      In (n, kws) skill_keywords -> In k kws ->
      is_substring k (lower user_input) = false) ->
   _find_skill_by_keywords lower skill_keywords user_input = None).
Proof.
  unfold _find_skill_by_keywords. split.
  - intros n.
    destruct (best_match_sound (lower user_input) skill_keywords)
      as [E | (n0 & kws & Hn & Hin & Hs & Hpos)].
    + rewrite E. cbn. discriminate.
    + destruct (best_match (lower user_input) skill_keywords)
        as [best_score best_skill]. cbn in Hn, Hs, Hpos. subst best_skill.
      destruct (2 <=? best_score)%nat.
      * intros [= <-].
        rewrite <- Hs in Hpos.
        destruct (keyword_score_hit _ _ Hpos) as [k [Hk Hsub]].
        exists kws, k. auto.
      * destruct (best_score =? 1)%nat; [|discriminate].
        destruct (find _ skill_keywords) as [[n1 kws1]|] eqn:Ef;
          [|discriminate].
        intros [= <-]. apply find_some in Ef. destruct Ef as [Hin1 Hex].
        apply existsb_exists in Hex. destruct Hex as [k [Hk Hand]].
        apply andb_true_iff in Hand. destruct Hand as [_ Hsub].
        exists kws1, k. auto.
  - intros H. rewrite (best_match_none _ _ H). reflexivity.
Qed.

End FindFacts.

Section TryRunFacts.

Variable W : Type.
Variable lower : string -> string.
Variable word_search : string -> string -> bool.

(** X15: try_run never raises.  When the bridge names a skill, run_skill
    is called on the input without a decision; what it returns is the
    result, and an exception it ends with, of the skill manager or of a
    skill, is printed after its calls and turned into [None].  At most
    one skill is run; and when the bridge names no skill nothing is
    called at all. *)
Theorem X15_try_run_contains_errors (skills : list (skill_info W))
  (skill_keywords : list (string * list string)) (user_input : string)
  (w : W) :
  exists w' t v,
    try_run lower word_search skills skill_keywords user_input w
      = (w', t, Ok v) /\
    List.length (filter is_run t) <= 1 /\
    (_find_skill_by_keywords lower skill_keywords user_input = None \/
     _find_skill_by_keywords lower skill_keywords user_input = Some "" ->
     w' = w /\ v = None /\
     t = [EvPrint ("🔧 [SKILL BRIDGE]: Analyzing: '" ++ user_input ++ "'")]) /\
    (forall n w1 t1 r1,
       _find_skill_by_keywords lower skill_keywords user_input = Some n ->
       n <> "" ->
       SkillManager.run_skill lower word_search skills user_input None None w
         = (w1, t1, r1) ->
       w' = w1 /\
       t = (EvPrint ("🔧 [SKILL BRIDGE]: Analyzing: '" ++ user_input ++ "'")
            :: EvPrint ("⚡ [SKILL BRIDGE]: Best Match found -> '"
                        ++ n ++ "'")
            :: t1
            ++ match r1 with
               | Ok _ => []
               | Raise e =>
                   [EvPrint ("❌ [SKILL BRIDGE]: Execution error: "
                             ++ exn_str e)]
               end)%list /\
       v = match r1 with
           | Ok v1 => v1
           | Raise _ => None
           end).
Proof.
  unfold try_run. rewrite SkillManagerMore.bind_unfold.
  unfold print at 1, emit. cbn [app].
  destruct (_find_skill_by_keywords lower skill_keywords user_input)
    as [n|].
  - destruct (String.eqb n "") eqn:En.
    + cbn. do 3 eexists. split; [reflexivity|]. split; [cbn; lia|].
      split; [auto|].
      intros n0 w1 t1 r1 [= <-] Hne. apply String.eqb_eq in En.
      contradiction.
    + rewrite SkillManagerMore.bind_unfold. unfold print at 1, emit.
      cbn [app]. unfold catch.
      destruct (SkillManagerMore.run_skill_legacy_shape W lower word_search
                  skills user_input None w) as [o [Hs Hr]].
      destruct (SkillManager.run_skill lower word_search skills user_input
                  None None w) as [[w1 t1] r1].
      cbn in Hs, Hr.
      assert (Hone : List.length (filter is_run t1) <= 1).
      { assert (Hchk : forall cs, forallb is_check cs = true ->
                                  filter is_run cs = []).
        { induction cs as [|ev cs IH]; cbn; [reflexivity|].
          intros H. apply andb_true_iff in H. destruct H as [Hev Hcs].
          destruct ev; try discriminate. cbn. exact (IH Hcs). }
        inversion Hs as [cs Hcs | cs e Hcs | cs id msg out Hcs]; subst.
        - rewrite (Hchk _ Hcs). cbn. lia.
        - rewrite (Hchk _ Hcs). cbn. lia.
        - rewrite filter_app, (Hchk _ Hcs). cbn. lia. }
      destruct r1 as [v|e]; cbn.
      * do 3 eexists. split; [reflexivity|]. split; [cbn; exact Hone|].
        split.
        { intros [H | H]; [discriminate|].
          injection H as ->. discriminate. }
        intros n0 w0 t0 r0 [= <-] _ [= <- <- <-].
        rewrite app_nil_r. auto.
      * do 3 eexists. split; [reflexivity|]. split.
        { cbn. rewrite filter_app. cbn. rewrite app_nil_r. exact Hone. }
        split.
        { intros [H | H]; [discriminate|].
          injection H as ->. discriminate. }
        intros n0 w0 t0 r0 [= <-] _ [= <- <- <-]. auto.
  - cbn. do 3 eexists. split; [reflexivity|]. split; [cbn; lia|].
    split; [auto|]. intros n w1 t1 r1 [=].
Qed.

End TryRunFacts.

End SkillBridgeFacts.

(** ** The intent map *)

Module IntentMapFacts.

Import PyDict IntentMap.

Lemma dict_get_set {V} (d : list (string * V)) (k k' : string) (v : V) :
  dict_get (dict_set d k v) k'
  = if String.eqb k k' then Some v else dict_get d k'.
Proof.
  induction d as [|[k0 v0] d IH]; cbn.
  - reflexivity.
  - destruct (String.eqb k0 k) eqn:E0; cbn.
    + apply String.eqb_eq in E0. subst k0.
      destruct (String.eqb k k'); reflexivity.
    + rewrite IH. destruct (String.eqb k0 k') eqn:E1; [|reflexivity].
      apply String.eqb_eq in E1. subst k0. rewrite String.eqb_sym, E0.
      reflexivity.
Qed.

Lemma find_last {A} (P : A -> bool) (l : list A) (x : A) :
  find P (l ++ [x])
  = match find P l with
    | Some y => Some y
    | None => if P x then Some x else None
    end.
Proof.
  induction l as [|y l IH]; cbn; [reflexivity|].
  destruct (P y); [reflexivity | exact IH].
Qed.

Section MapFacts.

Variable W : Type.
Variable lower : string -> string.
Variable inst_intents : Instance W -> list string.

Lemma set_intents_get (nm : string) (intents : list string) :
  forall (d : list (string * string)) (key : string),
    dict_get (fold_left (fun mapping intent =>
                           dict_set mapping (lower intent) nm)
                        intents d) key
    = if existsb (fun i => String.eqb (lower i) key) intents
      then Some nm else dict_get d key.
Proof.
  induction intents as [|i intents IH]; intros d key; cbn; [reflexivity|].
  rewrite IH, dict_get_set.
  destruct (existsb _ intents); [rewrite orb_true_r; reflexivity|].
  rewrite orb_false_r. reflexivity.
Qed.

(** X16: _map_intent_to_skill answers with the name of the last skill, in
    registration order, that has an instance which lists the intent, names
    compared in lower case, and with [None] when there is none.  (The
    dispatcher, for its part, starts with the first skill that lists the
    intent as it is written.) *)
Theorem X16_intent_map_last_wins (skills : list (skill_info W))
  (intent_name : string) :
  _map_intent_to_skill lower
    (_build_intent_skill_map lower inst_intents skills) intent_name
  = option_map (@name W)
      (find (lists_intent lower inst_intents intent_name) (rev skills)).
Proof.
  unfold _map_intent_to_skill, _build_intent_skill_map.
  assert (G : forall (l : list (skill_info W)) d,
    dict_get
      (fold_left
         (fun mapping skill_info =>
            match instance skill_info with
            | None => mapping
            | Some inst =>
                fold_left
                  (fun mapping intent =>
                     dict_set mapping (lower intent) (name skill_info))
                  (inst_intents inst) mapping
            end) l d) (lower intent_name)
    = match find (lists_intent lower inst_intents intent_name) (rev l) with
      | Some s => Some (name s)
      | None => dict_get d (lower intent_name)
      end).
  { induction l as [|s l IH]; intros d; cbn [fold_left rev]; [reflexivity|].
    rewrite IH, find_last. clear IH.
    destruct (find _ (rev l)); [reflexivity|].
    unfold lists_intent.
    destruct (instance s) as [inst|]; [|reflexivity].
    rewrite set_intents_get.
    destruct (existsb _ (inst_intents inst)); reflexivity. }
  rewrite G. destruct (find _ (rev skills)); reflexivity.
Qed.

End MapFacts.

End IntentMapFacts.


(** ** The main pipeline *)

Module PipelineFacts.

Import PyDict PyStr IntentJudge Pipeline.
Local Open Scope string_scope.

Section Only.

Variable St : Type.
Variable P : event -> Prop.

Lemma only_ret {A} (a : A) : only P (@ret St A a).
Proof. intros s. constructor. Qed.

Lemma only_raise {A} (e : exn) : only P (@raise St A e).
Proof. intros s. constructor. Qed.

Lemma only_print (line : string) :
  P (EvPrint line) -> only P (@print St line).
Proof. intros H s. cbn. constructor; [exact H | constructor]. Qed.

Lemma only_perform {A} (f : St -> St * result A) : only P (perform f).
Proof. intros s. unfold perform. destruct (f s). constructor. Qed.

Lemma only_call {A} (f : St -> St * result A) (ev : result A -> event) :
  (forall r, P (ev r)) -> only P (call f ev).
Proof.
  intros H s. unfold call. destruct (f s) as [s1 r]. cbn.
  constructor; [apply H | constructor].
Qed.

Lemma only_bind_where {A B} (R : A -> Prop) (m : M St A)
  (k : A -> M St B) :
  only P m ->
  (forall s s1 t a, m s = (s1, t, Ok a) -> R a) ->
  (forall a, R a -> only P (k a)) ->
  only P (bind m k).
Proof.
  intros Hm HR Hk s. unfold bind. specialize (Hm s). specialize (HR s).
  destruct (m s) as [[s1 t1] [a|e]]; cbn in *; [|exact Hm].
  specialize (Hk a (HR _ _ _ eq_refl) s1).
  destruct (k a s1) as [[s2 t2] r2]. cbn in *.
  apply Forall_app. split; assumption.
Qed.

Lemma only_bind {A B} (m : M St A) (k : A -> M St B) :
  only P m -> (forall a, only P (k a)) -> only P (bind m k).
Proof.
  intros Hm Hk. apply only_bind_where with (R := fun _ => True); auto.
Qed.

Lemma only_catch {A} (m : M St A) (h : exn -> M St A) :
  only P m -> (forall e, only P (h e)) -> only P (catch m h).
Proof.
  intros Hm Hh s. unfold catch. specialize (Hm s).
  destruct (m s) as [[s1 t1] [a|e]]; cbn in *; [exact Hm|].
  specialize (Hh e s1). destruct (h e s1) as [[s2 t2] r2]. cbn in *.
  apply Forall_app. split; assumption.
Qed.

Lemma only_for_return {A B} (l : list A) (body : A -> M St (option B)) :
  (forall x, In x l -> only P (body x)) -> only P (for_return l body).
Proof.
  induction l as [|x l IH]; cbn [for_return]; intros H.
  - apply only_ret.
  - apply only_bind; [apply H; left; reflexivity|].
    intros [v|]; [apply only_ret|].
    apply IH. intros y Hy. apply H. right. exact Hy.
Qed.

End Only.

Lemma only_lift {W A} (P : event -> Prop) (m : M W A) :
  only P m -> only P (lift m).
Proof.
  intros H s. unfold lift. specialize (H (ext s)).
  destruct (m (ext s)) as [[w1 t] r]. exact H.
Qed.

Lemma query_entities_empty (lower : string -> string) (m : Memory.memory)
  (text : string) :
  Memory.query_entities lower m text = "" -> asks_recall lower text = false.
Proof.
  unfold Memory.query_entities, asks_recall.
  destruct (_ || _); [|reflexivity].
  destruct (Memory.get_recent_entities m None 10); cbn; discriminate.
Qed.

Lemma query_entities_asked (lower : string -> string) (m : Memory.memory)
  (text : string) :
  asks_recall lower text = true ->
  Memory.query_entities lower m text
    = "You haven't asked me about anyone or anything recently." \/
  exists values,
    values <> [] /\
    Memory.query_entities lower m text
      = "You recently asked about: " ++ join ", " values.
Proof.
  unfold Memory.query_entities, asks_recall. intros ->.
  destruct (Memory.get_recent_entities m None 10) as [|v vs];
    [left; reflexivity|].
  right. exists (v :: vs). split; [discriminate | reflexivity].
Qed.

Section Steps.

Variable W : Type.
Variable lower : string -> string.
Variable strip : string -> string.
Variable split : string -> list string.
Variable extract_keywords : string -> list string.
Variable Embedding : Type.
Variable encode : string -> result Embedding.
Variable cos_sim_max : Embedding -> string -> result float.
Variable word_search : string -> string -> bool.
Variable time_time : W -> W * float.
Variable write_json : string -> list Memory.message -> W -> W * result unit.
Variable re_greeting : string -> bool.
Variable re_respond_with : string -> option Z.
Variable get_dynamic_context : W -> W * result string.
Variable chat : list Memory.message -> float -> W -> W * result string.
Variable read_commands : W -> W * option (result (list (string * string))).
Variable strftime : W -> W * string.
Variable _extract_entities : string -> list (string * string).
Variable str_result : IntentResult -> string.

(** The decisions of [detect_intent], as far as [process] looks at
    them. *)
Lemma detect_intent_kinds (text : string) (r : IntentResult) :
  detect_intent lower strip split extract_keywords encode cos_sim_max text
    = Ok r ->
  r = action_none \/
  exists name c,
    intent r = Some name /\ In name INTENTS /\ confidence r = Some c /\
    In (action r) ["clarify"; "execute"; "confirm"].
Proof.
  unfold detect_intent.
  destruct (String.eqb _ _); [intros [= <-]; left; reflexivity|].
  destruct (split _) as [|first_word ws]; [discriminate|].
  destruct (_ && _); [intros [= <-]; left; reflexivity|].
  destruct (encode _) as [emb|e]; [|discriminate]. cbn [rbind].
  destruct (score_intents cos_sim_max emb INTENTS) as [scores|e] eqn:Es;
    [|discriminate]. cbn [rbind].
  intros Hd.
  pose proof (IntentJudgeFacts.score_intents_names Embedding cos_sim_max
                emb INTENTS scores Es) as Hnames.
  assert (Hperm : Permutation (map fst (sort_desc scores)) INTENTS).
  { rewrite <- Hnames. apply Permutation_map, IntentJudgeMore.sort_desc_perm. }
  assert (Hnd : NoDup (map fst (sort_desc scores))).
  { eapply Permutation_NoDup;
      [symmetry; exact Hperm | exact IntentJudgeMore.INTENTS_NoDup]. }
  destruct (IntentJudgeMore.decide_full_shape _ _ Hnd Hd)
    as (H1 & H2 & H3 & _).
  destruct (String.eqb (action r) "none") eqn:En.
  - apply String.eqb_eq in En. destruct (H2 En) as (Hi & Hc & Hk).
    left. destruct r as [a i c k]. cbn in *. subst. reflexivity.
  - apply String.eqb_neq in En. destruct (H3 En) as (name & Hi & Hin & Hc).
    right. destruct (confidence r) as [c|] eqn:Ec; [|congruence].
    exists name, c. split; [exact Hi|]. split.
    + eapply Permutation_in; eauto.
    + split; [reflexivity|].
      cbn in H1 |- *. intuition congruence.
Qed.

Section Frame.

Variable P : event -> Prop.
Hypothesis P_print : forall line, P (EvPrint line).
Hypothesis P_check : forall id out, P (EvCheck id out).

Lemma trace_only (direction branch payload : string) :
  only P (_trace strftime direction branch payload).
Proof.
  unfold _trace. apply only_bind.
  - apply only_lift, only_perform.
  - intros ts. apply only_print, P_print.
Qed.

Lemma remember_only (role text : string)
  (meta : option (list (string * string))) :
  only P (remember time_time write_json role text meta).
Proof.
  intros s. unfold remember.
  assert (H : only P (Memory.add time_time write_json (memory s) role text
                        meta)).
  { unfold Memory.add. apply only_bind; [apply only_perform|].
    intros now. apply only_bind; [|intros; apply only_ret].
    unfold Memory.save. apply only_catch; [apply only_perform|].
    intros e. apply only_print, P_print. }
  specialize (H (ext s)).
  destruct (Memory.add _ _ _ _ _ _ _) as [[w1 t] [m'|e]]; exact H.
Qed.

Lemma call_check_only (i : option (Instance W)) : only P (call_check i).
Proof.
  unfold call_check. destruct i; [|apply only_raise].
  apply only_call. intros r. apply P_check.
Qed.

Lemma finish_only (gate : Guard.prompt) (final : string) :
  only P (finish lower strip split time_time write_json gate final).
Proof.
  unfold finish. apply only_bind; [|intros; apply only_ret].
  destruct (_ && _); [apply remember_only | apply only_ret].
Qed.

(** The intent path of the dispatcher runs instances of skills that
    list the intent, with the dict of the decision. *)
Lemma run_intent_only (skills : list (skill_info W)) (user_input : string)
  (intent : option string) (conf : float)
  (entities : option (list (string * string))) :
  (forall sk inst out,
     In sk skills -> instance sk = Some inst ->
     opt_in intent (supported_intents sk) = true ->
     P (EvRun (inst_id inst)
              (IntentParams user_input intent conf entities) out)) ->
  only P (SkillManager.run_intent skills user_input intent conf entities).
Proof.
  intros Hr. unfold SkillManager.run_intent.
  assert (Hloop :
    only P (for_return (SkillManager.matches_for skills intent)
              (SkillManager.try_instance
                 (IntentParams user_input intent conf entities)))).
  { apply only_for_return. intros x Hx.
    unfold SkillManager.matches_for in Hx. apply in_map_iff in Hx.
    destruct Hx as [sk [<- Hsk]]. apply filter_In in Hsk.
    destruct Hsk as [Hin Hop].
    unfold SkillManager.try_instance.
    apply only_bind; [apply call_check_only|].
    intros cr. destruct (negb (fst cr)); [apply only_ret|].
    apply only_bind.
    - unfold call_run. destruct (instance sk) as [inst|] eqn:E;
        [|apply only_raise].
      apply only_call. intros r. apply (Hr sk inst r Hin E Hop).
    - intros [r|]; apply only_ret. }
  destruct (SkillManager.matches_for skills intent); [apply only_ret|].
  apply only_bind; [exact Hloop|]. intros [v|]; apply only_ret.
Qed.

Hypothesis P_manual :
  forall id user_input entities out,
    P (EvRun id (ManualParams user_input entities) out).

Lemma run_if_ready_only (user_input : string)
  (entities : option (list (string * string))) (s : skill_info W) :
  only P (SkillManager.run_if_ready user_input entities s).
Proof.
  unfold SkillManager.run_if_ready.
  apply only_bind; [apply call_check_only|].
  intros cr. destruct (fst cr); [|apply only_ret].
  apply only_bind; [|intros; apply only_ret].
  unfold call_run. destruct (instance s); [|apply only_raise].
  apply only_call. intros r. apply P_manual.
Qed.

(** Without a decision the dispatcher only asks skills and runs them
    with the dict of the name and keyword paths. *)
Lemma run_skill_manual_only (skills : list (skill_info W))
  (user_input : string) (entities : option (list (string * string))) :
  only P (SkillManager.run_skill lower word_search skills user_input None
            entities).
Proof.
  unfold SkillManager.run_skill. apply only_bind.
  - apply only_for_return. intros s _.
    destruct (String.eqb _ _); [apply run_if_ready_only | apply only_ret].
  - intros [v|]; [apply only_ret|]. apply only_bind.
    + apply only_for_return. intros s _. apply only_for_return.
      intros kw _.
      destruct (word_search _ _); [apply run_if_ready_only | apply only_ret].
    + intros [v|]; apply only_ret.
Qed.

Lemma check_custom_commands_only (cfg : brain_config W) (text : string) :
  only P (_check_custom_commands lower strip word_search read_commands cfg
            text).
Proof.
  intros w. unfold _check_custom_commands.
  destruct (read_commands w) as [w1 [loaded|]]; [|constructor].
  revert w1. apply only_catch.
  - apply only_bind; [intros s; constructor|].
    intros commands. destruct (dict_get _ _) as [mapped|];
      [|apply only_ret].
    destruct (is_prefix _ _); [apply run_skill_manual_only | apply only_ret].
  - intros e. apply only_bind; [apply only_print, P_print|].
    intros _. apply only_ret.
Qed.

Variable cfg : brain_config W.
Variable text : string.

Hypothesis P_llm :
  asks_recall lower text = false ->
  detect_intent lower strip split extract_keywords encode cos_sim_max text
    = Ok action_none ->
  forall payload out, P (EvLLM payload out).

Hypothesis P_run :
  forall ir name c sk inst out,
    asks_recall lower text = false ->
    detect_intent lower strip split extract_keywords encode cos_sim_max text
      = Ok ir ->
    action ir = "execute" -> intent ir = Some name ->
    confidence ir = Some c ->
    IntentMap._map_intent_to_skill lower (intent_skill_map cfg) name
      <> None ->
    In sk (skills cfg) -> instance sk = Some inst ->
    In name (supported_intents sk) ->
    P (EvRun (inst_id inst)
             (IntentParams text (Some name) c
                (Some (_extract_entities text))) out).

(** What the stage of the judge may call, branch by branch. *)
Lemma intent_stage_only (gate : Guard.prompt) (system_prompt : string) :
  asks_recall lower text = false ->
  only P (intent_stage lower strip split extract_keywords encode cos_sim_max
            word_search time_time write_json get_dynamic_context chat
            strftime str_result cfg text (_extract_entities text) gate
            system_prompt).
Proof.
  intros Hrecall. unfold intent_stage.
  apply only_bind; [apply trace_only|]. intros _.
  apply only_bind_where
    with (R := fun ir =>
                 detect_intent lower strip split extract_keywords encode
                   cos_sim_max text = Ok ir).
  { intros s. constructor. }
  { intros s s1 t a [= _ _ E]. exact E. }
  intros ir Hir.
  apply only_bind; [apply trace_only|]. intros _. cbv zeta.
  destruct (String.eqb (action ir) "clarify") eqn:Ecl.
  { apply only_bind; [apply remember_only|]. intros _. apply only_ret. }
  destruct (String.eqb (action ir) "confirm") eqn:Eco.
  { destruct (intent ir); [|apply only_raise].
    apply only_bind; [apply remember_only|]. intros _. apply only_ret. }
  apply only_bind; [|intros final; apply finish_only].
  apply String.eqb_neq in Ecl, Eco.
  destruct (detect_intent_kinds _ _ Hir)
    as [-> | (name & c & Hi & Hin & Hc & Ha)].
  - (* none: the language model *)
    cbn.
    unfold llm_branch.
    apply only_bind; [intros s; constructor|]. intros context.
    apply only_bind; [apply trace_only|]. intros _.
    apply only_bind; [|intros final; apply only_bind;
                        [apply trace_only | intros; apply only_ret]].
    apply only_lift. unfold LLM.generate_response.
    apply only_bind; [apply only_perform|]. intros ctx.
    apply only_catch; [|intros; apply only_ret].
    apply only_bind; [|intros; apply only_ret].
    apply only_call. intros r. apply P_llm; [exact Hrecall | exact Hir].
  - (* execute *)
    assert (Hex : action ir = "execute").
    { cbn in Ha. intuition congruence. }
    rewrite Hex, Hi. cbn [String.eqb Ascii.eqb Bool.eqb andb].
    destruct name as [|ch name'];
      [exfalso; cbn in Hin; intuition discriminate|].
    unfold execute_branch.
    apply only_bind; [apply trace_only|]. intros _.
    destruct (truthy _) eqn:Et; [|apply only_ret].
    apply only_bind; [apply trace_only|]. intros _.
    apply only_bind; [|intros output; apply only_bind;
                        [apply trace_only | intros; apply only_ret]].
    apply only_lift. unfold SkillManager.run_skill.
    rewrite Hex, Hi, Hc. cbn [String.eqb Ascii.eqb Bool.eqb andb negb].
    apply run_intent_only. intros sk inst out Hsk Hinst Hop.
    apply (P_run ir (String ch name') c sk inst out Hrecall Hir Hex Hi Hc);
      try assumption.
    + intros Hnone. rewrite Hnone in Et. discriminate.
    + cbn in Hop. unfold str_in in Hop. apply existsb_exists in Hop.
      destruct Hop as [x [Hx Ex]]. apply String.eqb_eq in Ex.
      subst x. exact Hx.
Qed.

(** What [process] may call. *)
Lemma process_only :
  only P (process lower strip split extract_keywords encode cos_sim_max
            word_search time_time write_json re_greeting re_respond_with
            get_dynamic_context chat read_commands strftime
            _extract_entities str_result cfg text).
Proof.
  unfold process.
  apply only_bind; [apply trace_only|]. intros _.
  apply only_bind; [apply remember_only|]. intros _.
  apply only_bind_where
    with (R := fun recall => recall = "" -> asks_recall lower text = false).
  { intros s. constructor. }
  { intros s s1 t a [= <- <- <-]. apply query_entities_empty. }
  intros recall Hrecall.
  destruct (String.eqb recall "") eqn:Er; cbn [negb].
  2:{ apply only_bind; [apply trace_only|]. intros _.
      apply only_bind; [apply remember_only|]. intros _. apply only_ret. }
  apply String.eqb_eq in Er. specialize (Hrecall Er).
  apply only_bind; [apply only_lift, check_custom_commands_only|].
  intros custom.
  destruct custom as [[|ch reply]|];
    [apply intent_stage_only, Hrecall | | apply intent_stage_only, Hrecall].
  apply only_bind; [apply trace_only|]. intros _.
  apply only_bind; [apply remember_only|]. intros _. apply only_ret.
Qed.

End Frame.

(** X19: process itself calls the language model only as a fallback:
    whenever a call of the model is among the calls of process, the text
    is no recall question and detect_intent answered it with the action
    none.  A recall question, a clarify, confirm or execute decision and
    a failure of the judge never reach the model. *)
Theorem X19_llm_is_fallback_only (cfg : brain_config W) (text : string)
  (s s' : brain_state W) (t : list event) (r : result string)
  (payload : list (string * string)) (out : result string) :
  process lower strip split extract_keywords encode cos_sim_max
    word_search time_time write_json re_greeting re_respond_with
    get_dynamic_context chat read_commands strftime _extract_entities
    str_result cfg text s = (s', t, r) ->
  In (EvLLM payload out) t ->
  asks_recall lower text = false /\
  detect_intent lower strip split extract_keywords encode cos_sim_max text
    = Ok action_none.
Proof.
  intros Hrun Hin.
  pose proof (process_only
    (fun ev =>
       match ev with
       | EvLLM _ _ =>
           asks_recall lower text = false /\
           detect_intent lower strip split extract_keywords encode
             cos_sim_max text = Ok action_none
       | _ => True
       end)) as H.
  specialize (H (fun _ => I) (fun _ _ => I) (fun _ _ _ _ => I) cfg text).
  specialize (H (fun H1 H2 _ _ => conj H1 H2)).
  specialize (H (fun _ _ _ _ _ _ _ _ _ _ _ _ _ _ _ => I) s).
  rewrite Hrun in H. cbn in H. rewrite Forall_forall in H.
  exact (H _ Hin).
Qed.

(** X20: a skill is run with an intent only on an execute decision of the
    judge: whenever process runs a skill with the dict of the intent
    path, the text is no recall question, detect_intent answered execute,
    the dict holds the text, the judge's intent and confidence and the
    entities found in the text, the intent map names a skill for the
    intent, and the skill that is run is a registered one that lists the
    intent. *)
Theorem X20_intent_runs_follow_the_judge (cfg : brain_config W)
  (text : string) (s s' : brain_state W) (t : list event)
  (r : result string) (id user_input : string) (i : option string)
  (c : float) (es : option (list (string * string)))
  (out : result (option string)) :
  process lower strip split extract_keywords encode cos_sim_max
    word_search time_time write_json re_greeting re_respond_with
    get_dynamic_context chat read_commands strftime _extract_entities
    str_result cfg text s = (s', t, r) ->
  In (EvRun id (IntentParams user_input i c es) out) t ->
  exists ir name sk inst,
    asks_recall lower text = false /\
    detect_intent lower strip split extract_keywords encode cos_sim_max text
      = Ok ir /\
    action ir = "execute" /\ intent ir = Some name /\
    confidence ir = Some c /\
    user_input = text /\ i = Some name /\
    es = Some (_extract_entities text) /\
    IntentMap._map_intent_to_skill lower (intent_skill_map cfg) name
      <> None /\
    In sk (skills cfg) /\ instance sk = Some inst /\ inst_id inst = id /\
    In name (supported_intents sk).
Proof.
  intros Hrun Hin.
  pose proof (process_only
    (fun ev =>
       match ev with
       | EvRun id (IntentParams user_input i c es) _ =>
           exists ir name sk inst,
             asks_recall lower text = false /\
             detect_intent lower strip split extract_keywords encode
               cos_sim_max text = Ok ir /\
             action ir = "execute" /\ intent ir = Some name /\
             confidence ir = Some c /\
             user_input = text /\ i = Some name /\
             es = Some (_extract_entities text) /\
             IntentMap._map_intent_to_skill lower (intent_skill_map cfg) name
               <> None /\
             In sk (skills cfg) /\ instance sk = Some inst /\
             inst_id inst = id /\ In name (supported_intents sk)
       | _ => True
       end)) as H.
  specialize (H (fun _ => I) (fun _ _ => I) (fun _ _ _ _ => I) cfg text).
  specialize (H (fun _ _ _ _ => I)).
  assert (Hr : forall ir name c0 sk inst (out0 : result (option string)),
    asks_recall lower text = false ->
    detect_intent lower strip split extract_keywords encode cos_sim_max text
      = Ok ir ->
    action ir = "execute" -> intent ir = Some name ->
    confidence ir = Some c0 ->
    IntentMap._map_intent_to_skill lower (intent_skill_map cfg) name
      <> None ->
    In sk (skills cfg) -> instance sk = Some inst ->
    In name (supported_intents sk) ->
    exists ir' name' sk' inst',
      asks_recall lower text = false /\
      detect_intent lower strip split extract_keywords encode
        cos_sim_max text = Ok ir' /\
      action ir' = "execute" /\ intent ir' = Some name' /\
      confidence ir' = Some c0 /\
      text = text /\ Some name = Some name' /\
      Some (_extract_entities text) = Some (_extract_entities text) /\
      IntentMap._map_intent_to_skill lower (intent_skill_map cfg) name'
        <> None /\
      In sk' (skills cfg) /\ instance sk' = Some inst' /\
      inst_id inst' = inst_id inst /\ In name' (supported_intents sk')).
  { intros ir name c0 sk inst out0 H1 H2 H3 H4 H5 H6 H7 H8 H9.
    exists ir, name, sk, inst. repeat (split; [first [assumption | reflexivity]|]).
    assumption. }
  specialize (H Hr s).
  rewrite Hrun in H. cbn in H. rewrite Forall_forall in H.
  exact (H _ Hin).
Qed.

(** What the name and keyword paths leave behind. *)
Lemma legacy_shape_facts (p : params) (t : list event)
  (o : result (option (option string))) :
  DispatchSpec.legacy_shape p t o ->
  List.length (filter is_run t) <= 1 /\
  (forall id p' out, In (EvRun id p' out) t -> p' = p).
Proof.
  assert (Hchk : forall cs, forallb is_check cs = true ->
                            filter is_run cs = [] /\
                            forall id p' out, ~ In (EvRun id p' out) cs).
  { induction cs as [|ev cs IH]; cbn; [intros _; split; [reflexivity|tauto]|].
    intros H. apply andb_true_iff in H. destruct H as [Hev Hcs].
    destruct (IH Hcs) as [IH1 IH2].
    destruct ev; try discriminate. cbn. split; [exact IH1|].
    intros id0 p' out0 [Hx | Hx]; [discriminate | exact (IH2 _ _ _ Hx)]. }
  intros H. inversion H as [cs Hcs | cs e Hcs | cs id msg out Hcs]; subst.
  - destruct (Hchk _ Hcs) as [H1 H2]. rewrite H1. split; [cbn; lia|].
    intros id p' out Hin. destruct (H2 _ _ _ Hin).
  - destruct (Hchk _ Hcs) as [H1 H2]. rewrite H1. split; [cbn; lia|].
    intros id p' out Hin. destruct (H2 _ _ _ Hin).
  - destruct (Hchk _ Hcs) as [H1 H2]. rewrite filter_app, H1.
    split; [cbn; lia|].
    intros id' p' out' Hin. apply in_app_or in Hin.
    destruct Hin as [Hin | [Hin | [Hin | []]]].
    + destruct (H2 _ _ _ Hin).
    + discriminate.
    + congruence.
Qed.

(** X17: _check_custom_commands never raises.  Without the file, or
    without an entry for the lower-cased, stripped text, it calls nothing
    and returns [None]; an entry that does not start with "skill:" is
    returned as it is; an entry that does sends the trigger, not the name
    written after "skill:", through the name and keyword paths of
    run_skill, which run at most one skill, and what run_skill returns is
    the result.  Whatever goes wrong is printed and turned into [None]:
    the exception of [open] or [json.load], with nothing else called, and
    the exception run_skill ends with, after the calls it made. *)
Theorem X17_custom_commands_contain_errors (cfg : brain_config W)
  (text : string) (w : W) :
  exists w' t v,
    _check_custom_commands lower strip word_search read_commands cfg text w
      = (w', t, Ok v) /\
    List.length (filter is_run t) <= 1 /\
    (forall id p out,
       In (EvRun id p out) t -> p = ManualParams (strip (lower text)) None) /\
    (snd (read_commands w) = None -> t = [] /\ v = None) /\
    (forall e,
       snd (read_commands w) = Some (Raise e) ->
       t = [EvPrint ("⚠️ [COMMAND ERROR]: " ++ exn_str e)] /\ v = None) /\
    (forall w1 commands,
       read_commands w = (w1, Some (Ok commands)) ->
       match dict_get commands (strip (lower text)) with
       | None => t = [] /\ v = None
       | Some mapped =>
           (is_prefix "skill:" mapped = false ->
            t = [] /\ v = Some mapped) /\
           (is_prefix "skill:" mapped = true ->
            forall w2 t2 r2,
              SkillManager.run_skill lower word_search (skills cfg)
                (strip (lower text)) None None w1 = (w2, t2, r2) ->
              w' = w2 /\
              t = (t2
                   ++ match r2 with
                      | Ok _ => []
                      | Raise e =>
                          [EvPrint ("⚠️ [COMMAND ERROR]: " ++ exn_str e)]
                      end)%list /\
              v = match r2 with
                  | Ok v2 => v2
                  | Raise _ => None
                  end)
       end).
Proof.
  unfold _check_custom_commands.
  destruct (read_commands w) as [w1 [[commands|e]|]] eqn:Er.
  - unfold catch, bind, lift_result. cbn [app].
    destruct (dict_get commands (strip (lower text))) as [mapped|] eqn:Eg.
    + destruct (is_prefix "skill:" mapped) eqn:Ep.
      * destruct (SkillManagerMore.run_skill_legacy_shape W lower
                    word_search (skills cfg) (strip (lower text)) None w1)
          as [o [Hs Hr]].
        destruct (SkillManager.run_skill lower word_search (skills cfg)
                    (strip (lower text)) None None w1) as [[w2 t2] r2]
          eqn:Erun.
        cbn [fst snd] in Hs, Hr.
        destruct (legacy_shape_facts _ _ _ Hs) as [Hone Hp].
        destruct r2 as [v|e].
        -- exists w2, t2, v. split; [reflexivity|]. split; [exact Hone|].
           split; [exact Hp|]. split; [discriminate|].
           split; [discriminate|].
           intros w1' commands' [= <- <-]. rewrite Eg. split.
           ++ rewrite Ep. discriminate.
           ++ intros _ w3 t3 r3 E. rewrite Erun in E.
              assert (E1 : w2 = w3) by congruence.
              assert (E2 : t2 = t3) by congruence.
              assert (E3 : Ok v = r3) by congruence. subst.
              rewrite app_nil_r. auto.
        -- exists w2,
             (t2 ++ [EvPrint ("⚠️ [COMMAND ERROR]: " ++ exn_str e)])%list,
             None.
           split; [reflexivity|]. split.
           { rewrite filter_app. cbn [filter is_run].
             rewrite app_nil_r. exact Hone. }
           split.
           { intros id p out Hin. apply in_app_or in Hin.
             destruct Hin as [Hin | [Hin | []]];
               [exact (Hp _ _ _ Hin) | discriminate]. }
           split; [discriminate|]. split; [discriminate|].
           intros w1' commands' [= <- <-]. rewrite Eg. split.
           ++ rewrite Ep. discriminate.
           ++ intros _ w3 t3 r3 E. rewrite Erun in E.
              assert (E1 : w2 = w3) by congruence.
              assert (E2 : t2 = t3) by congruence.
              assert (E3 : Raise e = r3) by congruence. subst.
              auto.
      * exists w1, [], (Some mapped). split; [reflexivity|].
        split; [cbn; lia|]. split; [intros id p out []|].
        split; [discriminate|]. split; [discriminate|].
        intros w1' commands' [= <- <-]. rewrite Eg. split; [auto|].
        rewrite Ep. discriminate.
    + exists w1, [], None. split; [reflexivity|].
      split; [cbn; lia|]. split; [intros id p out []|].
      split; [discriminate|]. split; [discriminate|].
      intros w1' commands' [= <- <-]. rewrite Eg. auto.
  - exists w1, [EvPrint ("⚠️ [COMMAND ERROR]: " ++ exn_str e)], None.
    split; [reflexivity|]. split; [cbn; lia|].
    split; [intros id p out [Hin | []]; discriminate|].
    split; [discriminate|]. split.
    + cbn. intros e0 [= <-]. auto.
    + intros w1' commands' [=].
  - exists w1, [], None. split; [reflexivity|].
    split; [cbn; lia|]. split; [intros id p out []|].
    split; [auto|]. split; [discriminate|]. intros w1' commands' [=].
Qed.

(** Running a sequence whose first part returns. *)
Lemma bind_runs {St A B} (Qm : St -> list event -> A -> Prop)
  (Q : St -> list event -> result B -> Prop)
  (m : M St A) (k : A -> M St B) (s : St) :
  (exists s1 t1 a, m s = (s1, t1, Ok a) /\ Qm s1 t1 a) ->
  (forall s1 t1 a, Qm s1 t1 a ->
     exists s' t2 r, k a s1 = (s', t2, r) /\ Q s' (t1 ++ t2)%list r) ->
  exists s' t r, bind m k s = (s', t, r) /\ Q s' t r.
Proof.
  intros (s1 & t1 & a & Hm & HQ) Hk.
  destruct (Hk _ _ _ HQ) as (s' & t2 & r & Hk' & HQ').
  exists s', (t1 ++ t2)%list, r. split; [|exact HQ'].
  unfold bind. rewrite Hm, Hk'. reflexivity.
Qed.

Lemma trace_runs (direction branch payload : string) (s : brain_state W) :
  exists s1 t1 a,
    _trace strftime direction branch payload s = (s1, t1, Ok a) /\
    (memory s1 = memory s /\
     Forall (fun ev => exists line, ev = EvPrint line) t1).
Proof.
  unfold _trace, bind, lift, perform, print, emit.
  destruct (strftime (ext s)) as [w1 ts]. cbn.
  do 3 eexists. split; [reflexivity|]. split; [reflexivity|].
  constructor; [eauto | constructor].
Qed.

(** The memory after [add]. *)
Lemma remember_runs (role text : string)
  (meta : option (list (string * string))) (s : brain_state W) :
  exists s1 t1 a,
    remember time_time write_json role text meta s = (s1, t1, Ok a) /\
    ((exists ts,
        memory s1
        = Memory.mkMemory (Memory.file (memory s))
            (PySeq.slice_from
               (Memory.history (memory s)
                ++ [Memory.mkMessage role text (Some ts)
                      (Some (match meta with
                             | Some es => es
                             | None => []
                             end))])%list
               (- Memory.max_turns (memory s)))
            (Memory.max_turns (memory s))) /\
     Forall (fun ev => exists line, ev = EvPrint line) t1).
Proof.
  unfold remember, Memory.add, Memory.save, bind, catch, perform, print,
    emit, ret.
  destruct (time_time (ext s)) as [w0 ts]. cbn.
  destruct (write_json _ _ w0) as [w1 [[]|e]]; cbn;
    do 3 eexists; (split; [reflexivity|]);
    (split; [eexists; reflexivity|]).
  - constructor.
  - constructor; [eauto | constructor].
Qed.

Lemma asks_recall_false (m : Memory.memory) (text : string) :
  asks_recall lower text = false -> Memory.query_entities lower m text = "".
Proof.
  unfold asks_recall, Memory.query_entities. intros ->. reflexivity.
Qed.

(** X18: a text in which "who did i ask" or "what did i ask" occurs,
    in any letter case, is answered from the memory: process returns,
    and every call it records is a print (no skill is asked or run and
    the model is not called).  The answer is computed on the memory as it
    is once the user's text has been stored in it: it lists, joined by
    commas, the values that get_recent_entities finds there, each of
    which is the value of an entity stored in that memory, or it is the
    sentence that says there is none; and the memory process ends with is
    that memory with the answer added as the assistant's entry. *)
Theorem X18_recall_is_answered_from_memory (cfg : brain_config W)
  (text : string) (s : brain_state W) :
  asks_recall lower text = true ->
  exists s' t ts1 ts2 reply,
    process lower strip split extract_keywords encode cos_sim_max
      word_search time_time write_json re_greeting re_respond_with
      get_dynamic_context chat read_commands strftime _extract_entities
      str_result cfg text s = (s', t, Ok reply) /\
    Forall (fun ev => exists line, ev = EvPrint line) t /\
    reply
    = match Memory.get_recent_entities
              (Memory.mkMemory (Memory.file (memory s))
                 (PySeq.slice_from
                    (Memory.history (memory s)
                     ++ [user_entry text (_extract_entities text) ts1])%list
                    (- Memory.max_turns (memory s)))
                 (Memory.max_turns (memory s)))
              None 10 with
      | [] => "You haven't asked me about anyone or anything recently."
      | recent => "You recently asked about: " ++ join ", " recent
      end /\
    (forall v,
       In v (Memory.get_recent_entities
               (Memory.mkMemory (Memory.file (memory s))
                  (PySeq.slice_from
                     (Memory.history (memory s)
                      ++ [user_entry text (_extract_entities text) ts1])%list
                     (- Memory.max_turns (memory s)))
                  (Memory.max_turns (memory s)))
               None 10) ->
       exists entry es ty,
         In entry (PySeq.slice_from
                     (Memory.history (memory s)
                      ++ [user_entry text (_extract_entities text) ts1])%list
                     (- Memory.max_turns (memory s))) /\
         Memory.entities entry = Some es /\ In (ty, v) es) /\
    memory s'
    = Memory.mkMemory (Memory.file (memory s))
        (PySeq.slice_from
           (PySeq.slice_from
              (Memory.history (memory s)
               ++ [user_entry text (_extract_entities text) ts1])%list
              (- Memory.max_turns (memory s))
            ++ [assistant_entry reply ts2])%list
           (- Memory.max_turns (memory s)))
        (Memory.max_turns (memory s)).
Proof.
  intros Hask.
  assert (H : exists s' t r,
    process lower strip split extract_keywords encode cos_sim_max
      word_search time_time write_json re_greeting re_respond_with
      get_dynamic_context chat read_commands strftime _extract_entities
      str_result cfg text s = (s', t, r) /\
    (Forall (fun ev => exists line, ev = EvPrint line) t /\
     exists ts1 ts2,
       r = Ok (Memory.query_entities lower
                 (Memory.mkMemory (Memory.file (memory s))
                    (PySeq.slice_from
                       (Memory.history (memory s)
                        ++ [user_entry text (_extract_entities text) ts1])%list
                       (- Memory.max_turns (memory s)))
                    (Memory.max_turns (memory s)))
                 text) /\
       memory s'
       = Memory.mkMemory (Memory.file (memory s))
           (PySeq.slice_from
              (PySeq.slice_from
                 (Memory.history (memory s)
                  ++ [user_entry text (_extract_entities text) ts1])%list
                 (- Memory.max_turns (memory s))
               ++ [assistant_entry
                     (Memory.query_entities lower
                        (Memory.mkMemory (Memory.file (memory s))
                           (PySeq.slice_from
                              (Memory.history (memory s)
                               ++ [user_entry text (_extract_entities text)
                                     ts1])%list
                              (- Memory.max_turns (memory s)))
                           (Memory.max_turns (memory s)))
                        text)
                     ts2])%list
              (- Memory.max_turns (memory s)))
           (Memory.max_turns (memory s)))).
  { unfold process.
    eapply bind_runs; [apply trace_runs|]. intros s1 t1 [] [Hm1 Hp1].
    eapply bind_runs; [apply remember_runs|].
    intros s2 t2 [] [[ts1 Hm2] Hp2]. rewrite Hm1 in Hm2.
    eapply bind_runs
      with (Qm := fun s3 t3 a =>
                    s3 = s2 /\ t3 = [] /\
                    a = Memory.query_entities lower (memory s2) text).
    { do 3 eexists. split; [reflexivity|]. repeat split. }
    intros s3 t3 recall (-> & -> & ->).
    pose proof (query_entities_asked lower (memory s2) text Hask) as Hq.
    assert (Hne : Memory.query_entities lower (memory s2) text <> "").
    { destruct Hq as [-> | (values & _ & ->)]; cbn; discriminate. }
    rewrite (proj2 (String.eqb_neq _ _) Hne). cbn [negb].
    eapply bind_runs; [apply trace_runs|]. intros s4 t4 [] [Hm4 Hp4].
    eapply bind_runs; [apply remember_runs|].
    intros s5 t5 [] [[ts2 Hm5] Hp5]. rewrite Hm4 in Hm5.
    do 3 eexists. split; [reflexivity|]. split.
    - repeat (apply Forall_app; split); try assumption; constructor.
    - exists ts1, ts2. rewrite Hm2 in Hm5. cbn [Memory.file Memory.history
        Memory.max_turns] in Hm5. rewrite Hm2. split; [reflexivity|].
      exact Hm5. }
  destruct H as (s' & t & r & Hrun & Hp & ts1 & ts2 & -> & Hm).
  eexists s', t, ts1, ts2, _. split; [exact Hrun|]. split; [exact Hp|].
  split; [|split; [|exact Hm]].
  - unfold Memory.query_entities. fold (asks_recall lower text).
    rewrite Hask. reflexivity.
  - intros v Hv.
    destruct (MemoryFacts.recent_entities_stored _ _ _ _ Hv)
      as (entry & es & ty & Hin & Hes & He).
    exists entry, es, ty. auto.
Qed.

(** X22: a failure of the judge surfaces from process.  For a text that
    is no recall question, where no custom commands file exists, an
    exception of detect_intent (the embedding model is down, say) ends
    process with that exception; by then the user's text is in the
    memory, and nothing but prints has been recorded: no skill and no
    model was asked, and no reply is stored. *)
Theorem X22_judge_failure_surfaces (cfg : brain_config W) (text : string)
  (e : exn) (s : brain_state W) :
  asks_recall lower text = false ->
  (forall w, snd (read_commands w) = None) ->
  detect_intent lower strip split extract_keywords encode cos_sim_max text
    = Raise e ->
  exists s' t,
    process lower strip split extract_keywords encode cos_sim_max
      word_search time_time write_json re_greeting re_respond_with
      get_dynamic_context chat read_commands strftime _extract_entities
      str_result cfg text s = (s', t, Raise e) /\
    Forall (fun ev => exists line, ev = EvPrint line) t /\
    exists ts,
      memory s'
      = Memory.mkMemory (Memory.file (memory s))
          (PySeq.slice_from
             (Memory.history (memory s)
              ++ [user_entry text (_extract_entities text) ts])%list
             (- Memory.max_turns (memory s)))
          (Memory.max_turns (memory s)).
Proof.
  intros Hask Hfile Hdet.
  assert (H : exists s' t r,
    process lower strip split extract_keywords encode cos_sim_max
      word_search time_time write_json re_greeting re_respond_with
      get_dynamic_context chat read_commands strftime _extract_entities
      str_result cfg text s = (s', t, r) /\
    (r = Raise e /\
     Forall (fun ev => exists line, ev = EvPrint line) t /\
     exists ts,
       memory s'
       = Memory.mkMemory (Memory.file (memory s))
           (PySeq.slice_from
              (Memory.history (memory s)
               ++ [user_entry text (_extract_entities text) ts])%list
              (- Memory.max_turns (memory s)))
           (Memory.max_turns (memory s)))).
  { unfold process.
    eapply bind_runs; [apply trace_runs|]. intros s1 t1 [] [Hm1 Hp1].
    eapply bind_runs; [apply remember_runs|].
    intros s2 t2 [] [[ts Hm2] Hp2]. rewrite Hm1 in Hm2.
    eapply bind_runs
      with (Qm := fun s3 t3 a =>
                    s3 = s2 /\ t3 = [] /\
                    a = Memory.query_entities lower (memory s2) text).
    { do 3 eexists. split; [reflexivity|]. repeat split. }
    intros s3 t3 recall (-> & -> & ->).
    rewrite (asks_recall_false _ _ Hask). cbn [String.eqb negb].
    eapply bind_runs
      with (Qm := fun s4 t4 a =>
                    memory s4 = memory s2 /\ t4 = [] /\ a = None).
    { unfold lift, _check_custom_commands.
      pose proof (Hfile (ext s2)) as Hf.
      destruct (read_commands (ext s2)) as [w1 o]. cbn in Hf. subst o.
      do 3 eexists. split; [reflexivity|]. repeat split. }
    intros s4 t4 custom (Hm4 & -> & ->).
    unfold intent_stage.
    eapply bind_runs; [apply trace_runs|]. intros s5 t5 [] [Hm5 Hp5].
    rewrite Hdet.
    exists s5, [], (Raise e). split; [reflexivity|].
    split; [reflexivity|]. split.
    - repeat (apply Forall_app; split); try assumption; constructor.
    - exists ts. rewrite Hm5, Hm4. exact Hm2. }
  destruct H as (s' & t & r & Hrun & -> & Hp & Hm).
  exists s', t. auto.
Qed.

Lemma returns_bind {St A B} (I : St -> Prop) (J : A -> St -> Prop)
  (Q : B -> St -> Prop) (m : M St A) (k : A -> M St B) :
  returns I m J -> (forall a, returns (J a) (k a) Q) ->
  returns I (bind m k) Q.
Proof.
  intros Hm Hk s s' t b Hs H. unfold bind in H.
  destruct (m s) as [[s1 t1] [a|e]] eqn:Em; [|discriminate].
  destruct (k a s1) as [[s2 t2] r2] eqn:Ek.
  assert (E1 : s2 = s') by congruence.
  assert (E2 : r2 = Ok b) by congruence. subst.
  eapply Hk; [eapply Hm; eauto | exact Ek].
Qed.

Lemma returns_ret {St A} (I : St -> Prop) (Q : A -> St -> Prop) (a : A) :
  (forall s, I s -> Q a s) -> returns I (ret a) Q.
Proof. intros H s s' t b Hs [= <- _ <-]. apply H, Hs. Qed.

Lemma returns_raise {St A} (I : St -> Prop) (Q : A -> St -> Prop)
  (e : exn) : returns I (raise e) Q.
Proof. intros s s' t b _ [=]. Qed.

(** A step that leaves the memory as it is. *)
Lemma returns_kept {A} (Im : Memory.memory -> Prop)
  (m : M (brain_state W) A) :
  (forall s, memory (fst (fst (m s))) = memory s) ->
  returns (fun s => Im (memory s)) m (fun _ s => Im (memory s)).
Proof.
  intros H s s' t a Hs E. specialize (H s). rewrite E in H. cbn in H.
  rewrite H. exact Hs.
Qed.

Lemma trace_keeps (direction branch payload : string) (s : brain_state W) :
  memory (fst (fst (_trace strftime direction branch payload s)))
  = memory s.
Proof.
  destruct (trace_runs direction branch payload s)
    as (s1 & t1 & a & E & Hm & _).
  rewrite E. exact Hm.
Qed.

Lemma lift_keeps {A} (m : M W A) (s : brain_state W) :
  memory (fst (fst (lift m s))) = memory s.
Proof.
  unfold lift. destruct (m (ext s)) as [[w1 t] r]. reflexivity.
Qed.

Section Turn.

Variable cfg : brain_config W.
Variable text : string.

(** The user's entry is the last one, and the bound leaves room for the
    reply; then the reply follows it. *)
Lemma reply_returns (reply : string) :
  returns
    (fun s =>
       (2 <= Memory.max_turns (memory s))%Z /\
       exists older ts,
         Memory.history (memory s)
         = (older ++ [user_entry text (_extract_entities text) ts])%list)
    (remember time_time write_json "assistant" reply None ;;; ret reply)
    (fun a s' =>
       a = reply /\
       exists older ts1 ts2,
         Memory.history (memory s')
         = (older ++ [user_entry text (_extract_entities text) ts1;
                      assistant_entry reply ts2])%list).
Proof.
  intros s s' t a [Hb (older & ts1 & Hh)] H.
  unfold bind in H.
  destruct (remember_runs "assistant" reply None s)
    as (s1 & t1 & [] & E & [ts2 Hm] & _).
  rewrite E in H. cbn in H.
  assert (E1 : s1 = s') by congruence.
  assert (E2 : reply = a) by congruence. subst s1 a.
  split; [reflexivity|]. rewrite Hm. cbn [Memory.history]. rewrite Hh.
  rewrite <- app_assoc. cbn [app].
  unfold PySeq.slice_from.
  destruct (0 <=? - Memory.max_turns (memory s))%Z eqn:E0;
    [apply Z.leb_le in E0; lia|].
  rewrite Z.opp_involutive, length_app. cbn [List.length].
  rewrite skipn_app.
  replace (List.length older + 2
           - Z.to_nat (Memory.max_turns (memory s)) - List.length older)%nat
    with 0%nat by lia.
  cbn [skipn]. exists (skipn (List.length older + 2
                              - Z.to_nat (Memory.max_turns (memory s)))
                         older), ts1, ts2.
  reflexivity.
Qed.

Lemma finish_returns (gate : Guard.prompt) (final : string) :
  returns
    (fun s =>
       (2 <= Memory.max_turns (memory s))%Z /\
       exists older ts,
         Memory.history (memory s)
         = (older ++ [user_entry text (_extract_entities text) ts])%list)
    (finish lower strip split time_time write_json gate final)
    (fun a s' =>
       a <> "" -> len a < 500 ->
       exists older ts1 ts2,
         Memory.history (memory s')
         = (older ++ [user_entry text (_extract_entities text) ts1;
                      assistant_entry a ts2])%list).
Proof.
  unfold finish.
  set (final' := match Guard.judge _ _ _ _ _ with
                 | Guard.FAIL => _
                 | Guard.PASS => _
                 end).
  destruct (negb (String.eqb final' "") && (len final' <? 500)%nat) eqn:Ec.
  - intros s s' t a Hs H Hne Hlen.
    destruct (reply_returns final' s s' t a Hs H) as [-> Hh]. exact Hh.
  - intros s s' t a Hs H Hne Hlen. exfalso.
    unfold bind, ret in H. cbn in H.
    assert (E : final' = a) by congruence. subst a.
    apply andb_false_iff in Ec. destruct Ec as [Ec | Ec].
    + apply negb_false_iff, String.eqb_eq in Ec. contradiction.
    + apply Nat.ltb_ge in Ec. lia.
Qed.

(** X21: a turn is remembered as a pair.  With a bound of at least 2,
    whenever process returns a reply that is not empty and shorter than
    500 characters, the memory ends with the user's text, with the
    entities found in it, followed by that reply as the assistant's
    entry: whichever branch produced the reply, nothing is stored
    between the two. *)
Theorem X21_turn_is_remembered (s s' : brain_state W) (t : list event)
  (reply : string) :
  (2 <= Memory.max_turns (memory s))%Z ->
  process lower strip split extract_keywords encode cos_sim_max
    word_search time_time write_json re_greeting re_respond_with
    get_dynamic_context chat read_commands strftime _extract_entities
    str_result cfg text s = (s', t, Ok reply) ->
  reply <> "" -> len reply < 500 ->
  exists older ts1 ts2,
    Memory.history (memory s')
    = (older ++ [user_entry text (_extract_entities text) ts1;
                 assistant_entry reply ts2])%list.
Proof.
  intros Hb Hrun.
  pose (Um := fun m : Memory.memory =>
    (2 <= Memory.max_turns m)%Z /\
    exists older ts,
      Memory.history m
      = (older ++ [user_entry text (_extract_entities text) ts])%list).
  pose (U := fun s : brain_state W => Um (memory s)).
  pose (Q := fun (a : string) (s' : brain_state W) =>
    a <> "" -> len a < 500 ->
    exists older ts1 ts2,
      Memory.history (memory s')
      = (older ++ [user_entry text (_extract_entities text) ts1;
                   assistant_entry a ts2])%list).
  assert (Hreply : forall reply0,
    returns U
      (remember time_time write_json "assistant" reply0 None ;;; ret reply0)
      Q).
  { intros reply0 s0 s0' t0 a Hs H _ _.
    destruct (reply_returns reply0 s0 s0' t0 a Hs H) as [-> Hh]. exact Hh. }
  assert (Htrace : forall direction branch payload,
    returns U (_trace strftime direction branch payload) (fun _ => U)).
  { intros direction branch payload.
    apply (returns_kept Um). apply trace_keeps. }
  assert (Hstage : forall gate system_prompt,
    returns U
      (intent_stage lower strip split extract_keywords encode cos_sim_max
         word_search time_time write_json get_dynamic_context chat
         strftime str_result cfg text (_extract_entities text) gate
         system_prompt)
      Q).
  { intros gate system_prompt. unfold intent_stage.
    apply returns_bind with (J := fun _ => U); [apply Htrace|].
    intros [].
    apply returns_bind with (J := fun _ => U).
    { intros s0 s0' t0 a Hs H. unfold lift_result in H.
      assert (E : s0 = s0') by congruence. subst s0'. exact Hs. }
    intros ir.
    apply returns_bind with (J := fun _ => U); [apply Htrace|].
    intros []. cbv beta zeta.
    destruct (String.eqb (action ir) "clarify"); [apply Hreply|].
    destruct (String.eqb (action ir) "confirm").
    { destruct (intent ir); [apply Hreply | apply returns_raise]. }
    apply returns_bind with (J := fun _ => U);
      [|intros final; apply finish_returns].
    apply (returns_kept Um).
    intros s0.
    assert (Hx : forall i,
      memory (fst (fst (execute_branch lower word_search strftime cfg text
                          ir i (_extract_entities text) s0))) = memory s0).
    { intros i. unfold execute_branch.
      unfold bind at 1.
      destruct (trace_runs "INFO" "ROUTER"
                  (i ++ " → "
                   ++ SkillManager.fmt
                        (IntentMap._map_intent_to_skill lower
                           (intent_skill_map cfg) i)) s0)
        as (s1 & t1 & [] & E & Hm1 & _).
      rewrite E.
      destruct (truthy _); [|cbn; exact Hm1].
      unfold bind.
      destruct (trace_runs "SEND" "SKILL"
                  (SkillManager.fmt
                     (IntentMap._map_intent_to_skill lower
                        (intent_skill_map cfg) i)) s1)
        as (s2 & t2 & [] & E2 & Hm2 & _).
      rewrite E2.
      pose proof (lift_keeps
                    (SkillManager.run_skill lower word_search (skills cfg)
                       text (Some ir) (Some (_extract_entities text))) s2)
        as Hm3.
      destruct (lift _ s2) as [[s3 t3] [output|e]]; cbn in Hm3 |- *;
        [|congruence].
      destruct (trace_runs "RECV" "SKILL" (SkillManager.fmt output) s3)
        as (s4 & t4 & [] & E4 & Hm4 & _).
      rewrite E4. cbn. congruence. }
    assert (Hl : forall sp,
      memory (fst (fst (llm_branch strip get_dynamic_context chat strftime
                          cfg text sp s0))) = memory s0).
    { intros sp. unfold llm_branch, bind.
      destruct (trace_runs "SEND" "LLM" text s0)
        as (s1 & t1 & [] & E & Hm1 & _).
      rewrite E.
      pose proof (lift_keeps
                    (LLM.generate_response strip get_dynamic_context chat sp
                       (Memory.context (memory s0) 6)
                       (temp_conversation cfg))
                    s1) as Hm2.
      destruct (lift _ s1) as [[s2 t2] [final|e]]; cbn in Hm2 |- *;
        [|congruence].
      destruct (trace_runs "RECV" "LLM" final s2)
        as (s3 & t3 & [] & E3 & Hm3 & _).
      rewrite E3. cbn. congruence. }
    destruct (String.eqb (action ir) "execute");
      [destruct (intent ir) as [[|ch i]|]|]; first [apply Hx | apply Hl]. }
  assert (Hall :
    returns (fun s0 => (2 <= Memory.max_turns (memory s0))%Z)
      (process lower strip split extract_keywords encode cos_sim_max
         word_search time_time write_json re_greeting re_respond_with
         get_dynamic_context chat read_commands strftime _extract_entities
         str_result cfg text)
      Q).
  { unfold process.
    apply returns_bind
      with (J := fun _ s0 => (2 <= Memory.max_turns (memory s0))%Z).
    { apply (returns_kept (fun m => (2 <= Memory.max_turns m)%Z)).
      apply trace_keeps. }
    intros []. cbv beta zeta.
    apply returns_bind with (J := fun _ => U).
    { intros s0 s0' t0 a Hs H.
      destruct (remember_runs "user" text (Some (_extract_entities text)) s0)
        as (s1 & t1 & [] & E & [ts Hm] & _).
      rewrite E in H. assert (E1 : s1 = s0') by congruence. subst s1.
      unfold U, Um. rewrite Hm. cbn [Memory.history Memory.max_turns].
      split; [exact Hs|].
      destruct (MemoryFacts.slice_last_keeps_end
                  (Memory.history (memory s0))
                  (user_entry text (_extract_entities text) ts)
                  (Memory.max_turns (memory s0))) as [pre Hpre]; [lia|].
      exists pre, ts. exact Hpre. }
    intros [].
    apply returns_bind with (J := fun _ => U).
    { intros s0 s0' t0 a Hs H.
      assert (E : s0 = s0') by congruence. subst s0'. exact Hs. }
    intros recall.
    destruct (negb (String.eqb recall "")).
    { apply returns_bind with (J := fun _ => U); [apply Htrace|].
      intros []. apply Hreply. }
    apply returns_bind with (J := fun _ => U).
    { apply (returns_kept Um). apply lift_keeps. }
    intros [[|ch custom]|]; [apply Hstage | | apply Hstage].
    apply returns_bind with (J := fun _ => U); [apply Htrace|].
    intros []. apply Hreply. }
  exact (Hall s s' t reply Hb Hrun).
Qed.

End Turn.

(** A call that [P] excludes is made after a first part whose calls all
    satisfy [P]: the first part returned, and the call is in the rest. *)
Lemma bind_after {St A B} (P : event -> Prop) (m : M St A)
  (k : A -> M St B) (s s' : St) (t : list event) (r : result B)
  (ev : event) :
  bind m k s = (s', t, r) -> In ev t -> ~ P ev ->
  Forall P (snd (fst (m s))) ->
  exists s1 t1 a t2,
    m s = (s1, t1, Ok a) /\ k a s1 = (s', t2, r) /\ In ev t2.
Proof.
  intros H Hin Hn Hall. unfold bind in H.
  destruct (m s) as [[s1 t1] [a|e]]; cbn in Hall.
  - destruct (k a s1) as [[s2 t2] r2] eqn:Ek.
    assert (E1 : s2 = s') by congruence.
    assert (E2 : (t1 ++ t2)%list = t) by congruence.
    assert (E3 : r2 = r) by congruence. subst.
    exists s1, t1, a, t2. split; [reflexivity|]. split; [exact Ek|].
    apply in_app_or in Hin. destruct Hin as [Hin | Hin]; [|exact Hin].
    rewrite Forall_forall in Hall. destruct (Hn (Hall _ Hin)).
  - assert (E : t1 = t) by congruence. subst.
    rewrite Forall_forall in Hall. destruct (Hn (Hall _ Hin)).
Qed.

Lemma bind_read {St A B} (f : St -> A) (k : A -> M St B) (s : St) :
  bind (fun s0 => (s0, [], Ok (f s0))) k s = k (f s) s.
Proof. unfold bind. destruct (k (f s) s) as [[s1 t1] r1]. reflexivity. Qed.

Lemma bind_value {St A B} (a : A) (k : A -> M St B) (s : St) :
  bind (lift_result (Ok a)) k s = k a s.
Proof.
  unfold bind, lift_result. destruct (k a s) as [[s1 t1] r1]. reflexivity.
Qed.

Lemma only_in {St A} (P : event -> Prop) (m : M St A) (s s' : St)
  (t : list event) (r : result A) (ev : event) :
  only P m -> m s = (s', t, r) -> In ev t -> P ev.
Proof.
  intros H E Hin. specialize (H s). rewrite E in H. cbn in H.
  rewrite Forall_forall in H. exact (H _ Hin).
Qed.

(** The window that [context] hands to the model, when the user's entry
    is the last of the history: at most five earlier turns, then the
    user's text. *)
Lemma context_turns (m : Memory.memory) (text : string)
  (entities : list (string * string)) (older : list Memory.message)
  (ts : float) :
  Memory.history m = (older ++ [user_entry text entities ts])%list ->
  exists turns,
    map LLM.as_pair (filter LLM.is_turn (Memory.context m 6))
    = (turns ++ [("user", text)])%list /\
    List.length turns <= 5 /\
    Forall (fun p => fst p = "user" \/ fst p = "assistant") turns.
Proof.
  intros Hh. unfold Memory.context. cbn [Z.leb Z.compare].
  cbn [filter LLM.is_turn Memory.role Memory.system_prompt String.eqb
       Ascii.eqb Bool.eqb orb andb].
  rewrite Hh.
  destruct (MemoryFacts.slice_last_keeps_end older
              (user_entry text entities ts) 6) as [pre Hpre]; [lia|].
  assert (H6 : (1 <= 6)%Z) by lia.
  pose proof (MemoryFacts.slice_last_length
                (older ++ [user_entry text entities ts])%list 6 H6) as Hlen.
  rewrite Hpre in Hlen |- *. rewrite length_app in Hlen.
  cbn [List.length] in Hlen.
  rewrite filter_app, map_app. cbn.
  exists (map LLM.as_pair (filter LLM.is_turn pre)).
  split; [reflexivity|]. split.
  - rewrite length_map.
    pose proof (filter_length_le LLM.is_turn pre). lia.
  - apply Forall_forall. intros p Hp. apply in_map_iff in Hp.
    destruct Hp as [msg [<- Hmsg]]. apply filter_In in Hmsg.
    destruct Hmsg as [_ Hturn]. unfold LLM.is_turn in Hturn.
    apply orb_true_iff in Hturn. cbn.
    destruct Hturn as [E | E]; apply String.eqb_eq in E; auto.
Qed.

Section Fallback.

Variable cfg : brain_config W.
Variable text : string.

(** X25: what the model is sent and what becomes of its answer.  With a
    bound of at least 1, whenever process calls the model, the model
    receives SYSTEM_CLEAN, the guard's system prompt followed by the
    awareness lines, the dynamic context, at most five earlier turns of
    the conversation and, last, the user's text; process then returns,
    and the reply is the stripped answer (or the text "LLM core error: "
    with the error when the request failed) as the judge lets it pass, or
    else as enforce leaves it. *)
Theorem X25_what_the_model_is_sent (s s' : brain_state W) (t : list event)
  (r : result string) (payload : list (string * string))
  (out : result string) :
  (1 <= Memory.max_turns (memory s))%Z ->
  process lower strip split extract_keywords encode cos_sim_max
    word_search time_time write_json re_greeting re_respond_with
    get_dynamic_context chat read_commands strftime _extract_entities
    str_result cfg text s = (s', t, r) ->
  In (EvLLM payload out) t ->
  (exists ctx turns,
     payload
     = ([LLM.as_pair LLM.SYSTEM_CLEAN;
         ("system",
          with_awareness cfg
            (Guard.system_prompt
               (Guard.build_prompt lower strip re_greeting re_respond_with
                  text)));
         ("system", ctx)]
        ++ turns ++ [("user", text)])%list /\
     List.length turns <= 5 /\
     Forall (fun p => fst p = "user" \/ fst p = "assistant") turns) /\
  r = Ok (let answer :=
            match out with
            | Ok a => strip a
            | Raise e => "LLM core error: " ++ exn_str e
            end in
          let rules :=
            Guard.p_rules
              (Guard.build_prompt lower strip re_greeting re_respond_with
                 text) in
          match Guard.judge lower strip split answer rules with
          | Guard.FAIL => Guard.enforce strip answer rules
          | Guard.PASS => answer
          end).
Proof.
  intros Hb Hrun Hin.
  pose (P := fun ev : event =>
               match ev with EvLLM _ _ => False | _ => True end).
  assert (HnP : ~ P (EvLLM payload out)) by (intros []).
  assert (Pp : forall line, P (EvPrint line)) by (intros; exact I).
  assert (Pc : forall id o, P (EvCheck id o)) by (intros; exact I).
  assert (Pm : forall id ui es o, P (EvRun id (ManualParams ui es) o))
    by (intros; exact I).
  (* the model is called on the fallback path only *)
  assert (Hpath :
    asks_recall lower text = false /\
    detect_intent lower strip split extract_keywords encode cos_sim_max text
      = Ok action_none).
  { pose proof (process_only
      (fun ev =>
         match ev with
         | EvLLM _ _ =>
             asks_recall lower text = false /\
             detect_intent lower strip split extract_keywords encode
               cos_sim_max text = Ok action_none
         | _ => True
         end)) as H.
    specialize (H (fun _ => I) (fun _ _ => I) (fun _ _ _ _ => I) cfg text).
    specialize (H (fun H1 H2 _ _ => conj H1 H2)).
    specialize (H (fun _ _ _ _ _ _ _ _ _ _ _ _ _ _ _ => I)).
    exact (only_in _ _ _ _ _ _ _ H Hrun Hin). }
  destruct Hpath as [Hask Hdet].
  unfold process in Hrun.
  (* the request is traced and stored *)
  destruct (bind_after P _ _ _ _ _ _ _ Hrun Hin HnP
              (trace_only P Pp "RECV" "GUI" text s))
    as (s1 & t1 & [] & t1' & E1 & Hrun1 & Hin1).
  pose proof (trace_keeps "RECV" "GUI" text s) as K1.
  rewrite E1 in K1. cbn in K1. clear Hrun Hin E1.
  destruct (bind_after P _ _ _ _ _ _ _ Hrun1 Hin1 HnP
              (remember_only P Pp "user" text
                 (Some (_extract_entities text)) s1))
    as (s2 & t2 & [] & t2' & E2 & Hrun2 & Hin2).
  assert (U2 : exists older ts,
    Memory.history (memory s2)
    = (older ++ [user_entry text (_extract_entities text) ts])%list).
  { destruct (remember_runs "user" text (Some (_extract_entities text)) s1)
      as (s2' & t2'' & [] & E & [ts Hm] & _).
    rewrite E2 in E. assert (Es : s2 = s2') by congruence. subst s2'.
    rewrite Hm. cbn [Memory.history]. rewrite K1.
    destruct (MemoryFacts.slice_last_keeps_end
                (Memory.history (memory s))
                (user_entry text (_extract_entities text) ts)
                (Memory.max_turns (memory s)) Hb) as [pre Hpre].
    exists pre, ts. exact Hpre. }
  clear Hrun1 Hin1 E2.
  (* no recall *)
  rewrite bind_read, (asks_recall_false _ _ Hask) in Hrun2.
  cbn [String.eqb negb] in Hrun2.
  pose proof Hrun2 as Hrun3. clear Hrun2.
  (* no custom command *)
  destruct (bind_after P _ _ _ _ _ _ _ Hrun3 Hin2 HnP
              (only_lift P _
                 (check_custom_commands_only P Pp Pc Pm cfg text) s2))
    as (s4 & t4 & custom & t4' & E4 & Hrun4 & Hin4).
  pose proof (lift_keeps
                (_check_custom_commands lower strip word_search
                   read_commands cfg text) s2) as K4.
  rewrite E4 in K4. cbn in K4. clear Hrun3 Hin2 E4.
  assert (Hstage :
    intent_stage lower strip split extract_keywords encode cos_sim_max
      word_search time_time write_json get_dynamic_context chat strftime
      str_result cfg text (_extract_entities text)
      (Guard.build_prompt lower strip re_greeting re_respond_with text)
      (with_awareness cfg
         (Guard.system_prompt
            (Guard.build_prompt lower strip re_greeting re_respond_with
               text))) s4 = (s', t4', r)).
  { destruct custom as [[|ch reply]|]; try exact Hrun4.
    exfalso. apply HnP.
    refine (only_in P _ _ _ _ _ _ _ Hrun4 Hin4).
    apply only_bind; [apply trace_only, Pp|]. intros _.
    apply only_bind; [apply remember_only, Pp|]. intros _.
    apply only_ret. }
  clear Hrun4. unfold intent_stage in Hstage.
  (* the judge answers none *)
  destruct (bind_after P _ _ _ _ _ _ _ Hstage Hin4 HnP
              (trace_only P Pp "SEND" "INTENT_JUDGE" text s4))
    as (s5 & t5 & [] & t5' & E5 & Hrun5 & Hin5).
  pose proof (trace_keeps "SEND" "INTENT_JUDGE" text s4) as K5.
  rewrite E5 in K5. cbn in K5. clear Hstage Hin4 E5.
  rewrite Hdet, bind_value in Hrun5.
  pose proof Hrun5 as Hrun6. clear Hrun5.
  destruct (bind_after P _ _ _ _ _ _ _ Hrun6 Hin5 HnP
              (trace_only P Pp "RECV" "INTENT_JUDGE"
                 (str_result action_none) s5))
    as (s7 & t7 & [] & t7' & E7 & Hrun7 & Hin7).
  pose proof (trace_keeps "RECV" "INTENT_JUDGE" (str_result action_none) s5)
    as K7.
  rewrite E7 in K7. cbn in K7. clear Hrun6 Hin5 E7.
  cbn [action intent action_none String.eqb Ascii.eqb Bool.eqb andb]
    in Hrun7.
  (* the fallback *)
  unfold llm_branch in Hrun7.
  unfold bind at 1 in Hrun7. unfold bind at 1 in Hrun7.
  destruct (trace_runs "SEND" "LLM" text s7)
    as (s8 & t8 & [] & E8 & K8 & Hp8).
  unfold bind at 1 in Hrun7. rewrite E8 in Hrun7.
  assert (Hm8 : memory s8 = memory s2) by congruence.
  destruct U2 as (older & ts & Hh).
  rewrite <- K4, <- K5, <- K7 in Hh.
  destruct (context_turns (memory s7) text (_extract_entities text) older ts
              Hh) as (turns & Hturns & Hlen & Hroles).
  unfold bind at 1, lift, LLM.generate_response in Hrun7.
  unfold bind at 1, perform in Hrun7.
  destruct (get_dynamic_context (ext s8)) as [w9 [ctx|e]].
  2:{ exfalso. cbn in Hrun7.
      assert (Et : t7' = (t8 ++ [])%list) by congruence.
      rewrite Et, app_nil_r in Hin7.
      rewrite Forall_forall in Hp8. destruct (Hp8 _ Hin7) as [line Hl].
      discriminate. }
  unfold catch, bind, call in Hrun7.
  destruct (chat _ (temp_conversation cfg) w9) as [w10 out0].
  set (answer := match out0 with
                 | Ok a => strip a
                 | Raise e => "LLM core error: " ++ exn_str e
                 end).
  set (gate := Guard.build_prompt lower strip re_greeting re_respond_with
                 text) in *.
  set (sp := with_awareness cfg (Guard.system_prompt gate)) in *.
  set (full := ([LLM.SYSTEM_CLEAN; LLM.sys sp; LLM.sys ctx]
                ++ filter LLM.is_turn (Memory.context (memory s7) 6))%list)
    in *.
  assert (Hfin : exists tl,
    t7' = (t8 ++ EvLLM (map LLM.as_pair full) out0 :: tl)%list /\
    r = Ok (match Guard.judge lower strip split answer (Guard.p_rules gate)
            with
            | Guard.FAIL => Guard.enforce strip answer (Guard.p_rules gate)
            | Guard.PASS => answer
            end) /\
    Forall (fun ev => exists line, ev = EvPrint line) tl).
  { destruct out0 as [a|e]; cbn [app ret] in Hrun7;
      (destruct (trace_runs "RECV" "LLM" answer
                   (mkState (memory s8) w10))
         as (s11 & t11 & [] & E11 & K11 & Hp11));
      unfold answer in E11; rewrite E11 in Hrun7; cbn [app] in Hrun7;
      unfold finish in Hrun7;
      match type of Hrun7 with
      | context [remember time_time write_json "assistant" ?f None] =>
          destruct (remember_runs "assistant" f None s11)
            as (s12 & t12 & [] & E12 & _ & Hp12)
      end;
      unfold bind, ret in Hrun7;
      (destruct (negb _ && _); [rewrite E12 in Hrun7|]);
      rewrite <- app_assoc in Hrun7; cbn [app] in Hrun7;
      injection Hrun7 as Hs Ht Hr; rewrite <- Ht, <- Hr;
      eexists; (split; [reflexivity|]); (split; [reflexivity|]);
      repeat (apply Forall_app; split); try assumption; constructor. }
  destruct Hfin as (tl & Et & Er & Hptl).
  rewrite Et in Hin7. apply in_app_or in Hin7.
  destruct Hin7 as [Hx | [Hx | Hx]].
  - rewrite Forall_forall in Hp8. destruct (Hp8 _ Hx) as [line Hl].
    discriminate.
  - assert (Ep : map LLM.as_pair full = payload) by congruence.
    assert (Eo : out0 = out) by congruence. subst out payload.
    split; [|exact Er].
    exists ctx, turns. split; [|split; assumption].
    unfold full. rewrite map_app, Hturns. reflexivity.
  - rewrite Forall_forall in Hptl. destruct (Hptl _ Hx) as [line Hl].
    discriminate.
Qed.

End Fallback.

Lemma bind_inv {St A B} (m : M St A) (k : A -> M St B) (s s' : St)
  (t : list event) (r : result B) :
  bind m k s = (s', t, r) ->
  exists s1 t1 ra,
    m s = (s1, t1, ra) /\
    match ra with
    | Ok a => exists t2, k a s1 = (s', t2, r) /\ t = (t1 ++ t2)%list
    | Raise e => s' = s1 /\ t = t1 /\ r = Raise e
    end.
Proof.
  intros H. unfold bind in H.
  destruct (m s) as [[s1 t1] [a|e]].
  - destruct (k a s1) as [[s2 t2] r2] eqn:Ek.
    exists s1, t1, (Ok a). split; [reflexivity|]. exists t2.
    split; congruence.
  - exists s1, t1, (Raise e). split; [reflexivity|].
    repeat split; congruence.
Qed.

(** The guard and the memory write always return. *)
Lemma finish_runs (gate : Guard.prompt) (final : string)
  (s : brain_state W) :
  exists s1 t1,
    finish lower strip split time_time write_json gate final s
    = (s1, t1,
       Ok (match Guard.judge lower strip split final (Guard.p_rules gate)
           with
           | Guard.FAIL => Guard.enforce strip final (Guard.p_rules gate)
           | Guard.PASS => final
           end)) /\
    Forall (fun ev => exists line, ev = EvPrint line) t1.
Proof.
  unfold finish.
  match goal with
  | |- context [remember time_time write_json "assistant" ?f None] =>
      destruct (remember_runs "assistant" f None s)
        as (s1 & t1 & [] & E & _ & Hp)
  end.
  unfold bind, ret. destruct (negb _ && _).
  - rewrite E. do 2 eexists. split; [reflexivity|].
    apply Forall_app. split; [exact Hp | constructor].
  - do 2 eexists. split; [reflexivity|]. constructor.
Qed.

Section Outcome.

Variable cfg : brain_config W.
Variable text : string.

(** X26: what becomes of a skill's outcome on the intent path.  Whenever
    process has run a skill with the dict of an intent: if the run
    raised, process ends with that exception (nothing in process catches
    it); if it returned a string, process returns that string, or
    "Command executed." when the string is empty, as the judge lets it
    pass or else as enforce leaves it. *)
Theorem X26_skill_outcome_is_the_reply (s s' : brain_state W)
  (t : list event) (r : result string) (id user_input : string)
  (i : option string) (c : float) (es : option (list (string * string)))
  (out : result (option string)) :
  process lower strip split extract_keywords encode cos_sim_max
    word_search time_time write_json re_greeting re_respond_with
    get_dynamic_context chat read_commands strftime _extract_entities
    str_result cfg text s = (s', t, r) ->
  In (EvRun id (IntentParams user_input i c es) out) t ->
  match out with
  | Raise e => r = Raise e
  | Ok (Some answer) =>
      r = Ok (let final :=
                if String.eqb answer "" then "Command executed."
                else answer in
              let rules :=
                Guard.p_rules
                  (Guard.build_prompt lower strip re_greeting
                     re_respond_with text) in
              match Guard.judge lower strip split final rules with
              | Guard.FAIL => Guard.enforce strip final rules
              | Guard.PASS => final
              end)
  | Ok None => True
  end.
Proof.
  intros Hrun Hin.
  pose (P := fun ev : event =>
               match ev with
               | EvRun _ (IntentParams _ _ _ _) _ => False
               | _ => True
               end).
  assert (HnP : ~ P (EvRun id (IntentParams user_input i c es) out))
    by (intros []).
  assert (Pp : forall line, P (EvPrint line)) by (intros; exact I).
  assert (Pc : forall id0 o, P (EvCheck id0 o)) by (intros; exact I).
  assert (Pm : forall id0 ui es0 o, P (EvRun id0 (ManualParams ui es0) o))
    by (intros; exact I).
  assert (Pprints : forall tr,
    Forall (fun ev => exists line, ev = EvPrint line) tr ->
    ~ In (EvRun id (IntentParams user_input i c es) out) tr).
  { intros tr Hp Hx. rewrite Forall_forall in Hp.
    destruct (Hp _ Hx) as [line Hl]. discriminate. }
  (* a run with an intent is on the execute path *)
  assert (Hpath :
    asks_recall lower text = false /\
    exists ir name,
      detect_intent lower strip split extract_keywords encode cos_sim_max
        text = Ok ir /\
      action ir = "execute" /\ intent ir = Some name).
  { pose proof (process_only
      (fun ev =>
         match ev with
         | EvRun _ (IntentParams _ _ _ _) _ =>
             asks_recall lower text = false /\
             exists ir name,
               detect_intent lower strip split extract_keywords encode
                 cos_sim_max text = Ok ir /\
               action ir = "execute" /\ intent ir = Some name
         | _ => True
         end)) as H.
    specialize (H (fun _ => I) (fun _ _ => I) (fun _ _ _ _ => I) cfg text).
    specialize (H (fun _ _ _ _ => I)).
    assert (Hr : forall ir name c0 (sk : skill_info W) (inst : Instance W)
                   (out0 : result (option string)),
      asks_recall lower text = false ->
      detect_intent lower strip split extract_keywords encode cos_sim_max
        text = Ok ir ->
      action ir = "execute" -> intent ir = Some name ->
      confidence ir = Some c0 ->
      IntentMap._map_intent_to_skill lower (intent_skill_map cfg) name
        <> None ->
      In sk (skills cfg) -> instance sk = Some inst ->
      In name (supported_intents sk) ->
      asks_recall lower text = false /\
      exists ir' name',
        detect_intent lower strip split extract_keywords encode
          cos_sim_max text = Ok ir' /\
        action ir' = "execute" /\ intent ir' = Some name').
    { intros ir name c0 sk inst out0 H1 H2 H3 H4 _ _ _ _ _.
      split; [exact H1|]. exists ir, name. auto. }
    specialize (H Hr).
    exact (only_in _ _ _ _ _ _ _ H Hrun Hin). }
  destruct Hpath as (Hask & ir & name & Hdet & Hex & Hi).
  assert (Hname : exists ch name', name = String ch name').
  { destruct (detect_intent_kinds _ _ Hdet)
      as [-> | (name0 & c0 & Hi0 & Hin0 & _)]; [discriminate|].
    assert (E : name0 = name) by congruence. subst name0.
    destruct name as [|ch name']; [|eauto].
    exfalso. cbn in Hin0. intuition discriminate. }
  destruct Hname as (ch & name' & ->).
  unfold process in Hrun.
  destruct (bind_after P _ _ _ _ _ _ _ Hrun Hin HnP
              (trace_only P Pp "RECV" "GUI" text s))
    as (s1 & t1 & [] & t1' & _ & Hrun1 & Hin1).
  clear Hrun Hin.
  destruct (bind_after P _ _ _ _ _ _ _ Hrun1 Hin1 HnP
              (remember_only P Pp "user" text
                 (Some (_extract_entities text)) s1))
    as (s2 & t2 & [] & t2' & _ & Hrun2 & Hin2).
  clear Hrun1 Hin1.
  rewrite bind_read, (asks_recall_false _ _ Hask) in Hrun2.
  cbn [String.eqb negb] in Hrun2.
  destruct (bind_after P _ _ _ _ _ _ _ Hrun2 Hin2 HnP
              (only_lift P _
                 (check_custom_commands_only P Pp Pc Pm cfg text) s2))
    as (s4 & t4 & custom & t4' & _ & Hrun4 & Hin4).
  clear Hrun2 Hin2.
  assert (Hstage :
    intent_stage lower strip split extract_keywords encode cos_sim_max
      word_search time_time write_json get_dynamic_context chat strftime
      str_result cfg text (_extract_entities text)
      (Guard.build_prompt lower strip re_greeting re_respond_with text)
      (with_awareness cfg
         (Guard.system_prompt
            (Guard.build_prompt lower strip re_greeting re_respond_with
               text))) s4 = (s', t4', r)).
  { destruct custom as [[|ch0 reply]|]; try exact Hrun4.
    exfalso. apply HnP.
    refine (only_in P _ _ _ _ _ _ _ Hrun4 Hin4).
    apply only_bind; [apply trace_only, Pp|]. intros _.
    apply only_bind; [apply remember_only, Pp|]. intros _.
    apply only_ret. }
  clear Hrun4. unfold intent_stage in Hstage.
  destruct (bind_after P _ _ _ _ _ _ _ Hstage Hin4 HnP
              (trace_only P Pp "SEND" "INTENT_JUDGE" text s4))
    as (s5 & t5 & [] & t5' & _ & Hrun5 & Hin5).
  clear Hstage Hin4.
  rewrite Hdet, bind_value in Hrun5.
  destruct (bind_after P _ _ _ _ _ _ _ Hrun5 Hin5 HnP
              (trace_only P Pp "RECV" "INTENT_JUDGE" (str_result ir) s5))
    as (s7 & t7 & [] & t7' & _ & Hrun7 & Hin7).
  clear Hrun5 Hin5.
  cbv zeta in Hrun7. rewrite Hex, Hi in Hrun7.
  cbn [String.eqb Ascii.eqb Bool.eqb andb] in Hrun7.
  (* the execute branch, then the guard *)
  apply bind_inv in Hrun7.
  destruct Hrun7 as (s8 & t8 & ra & Hx & Hrest).
  assert (Hin8 : In (EvRun id (IntentParams user_input i c es) out) t8 /\
                 match ra with
                 | Ok final =>
                     r = Ok (match Guard.judge lower strip split final
                                     (Guard.p_rules
                                        (Guard.build_prompt lower strip
                                           re_greeting re_respond_with text))
                             with
                             | Guard.FAIL =>
                                 Guard.enforce strip final
                                   (Guard.p_rules
                                      (Guard.build_prompt lower strip
                                         re_greeting re_respond_with text))
                             | Guard.PASS => final
                             end)
                 | Raise e => r = Raise e
                 end).
  { destruct ra as [final|e].
    - destruct Hrest as (tf & Hf & ->).
      destruct (finish_runs
                  (Guard.build_prompt lower strip re_greeting
                     re_respond_with text) final s8)
        as (sf & tf' & Ef & Hpf).
      rewrite Ef in Hf.
      assert (E1 : tf' = tf) by congruence. subst tf'.
      split; [|congruence].
      apply in_app_or in Hin7. destruct Hin7 as [Hx7 | Hx7]; [exact Hx7|].
      destruct (Pprints _ Hpf Hx7).
    - destruct Hrest as (_ & -> & ->). split; [exact Hin7 | reflexivity]. }
  destruct Hin8 as [Hin8 Hr]. clear Hrest Hin7.
  unfold execute_branch in Hx.
  match type of Hx with
  | bind (_trace strftime ?d ?b ?p) _ _ = _ =>
      destruct (bind_after P _ _ _ _ _ _ _ Hx Hin8 HnP
                  (trace_only P Pp d b p s7))
        as (s9 & t9 & [] & t9' & _ & Hx9 & Hin9)
  end.
  clear Hx Hin8.
  destruct (truthy _).
  2:{ exfalso. apply HnP.
      refine (only_in P _ _ _ _ _ _ _ Hx9 Hin9). apply only_ret. }
  match type of Hx9 with
  | bind (_trace strftime ?d ?b ?p) _ _ = _ =>
      destruct (bind_after P _ _ _ _ _ _ _ Hx9 Hin9 HnP
                  (trace_only P Pp d b p s9))
        as (s10 & t10 & [] & t10' & _ & Hx10 & Hin10)
  end.
  clear Hx9 Hin9.
  apply bind_inv in Hx10.
  destruct Hx10 as (s11 & t11 & rb & Hskill & Hafter).
  (* the dispatch *)
  unfold lift in Hskill.
  destruct (SkillManager.run_skill lower word_search (skills cfg) text
              (Some ir) (Some (_extract_entities text)) (ext s10))
    as [[w11 t11'] rb'] eqn:Hdisp.
  assert (E11 : t11' = t11 /\ rb' = rb) by (split; congruence).
  destruct E11 as [-> ->]. clear Hskill.
  rewrite (SkillManagerFacts.run_skill_execute W lower word_search
             (skills cfg) text ir (Some (_extract_entities text)) Hex)
    in Hdisp.
  assert (Hin11 : In (EvRun id (IntentParams user_input i c es) out) t11).
  { destruct rb as [output|e].
    - destruct Hafter as (ta & Ha & ->).
      apply in_app_or in Hin10. destruct Hin10 as [Hx0 | Hx0]; [exact Hx0|].
      exfalso. apply HnP.
      refine (only_in P _ _ _ _ _ _ _ Ha Hx0).
      apply only_bind; [apply trace_only, Pp|]. intros _. apply only_ret.
    - destruct Hafter as (_ & -> & _). exact Hin10. }
  destruct (SkillManagerFacts.run_intent_dispatch W (skills cfg) text
              (intent ir)
              (match confidence ir with Some c0 => c0 | None => 0.0%float end)
              (Some (_extract_entities text)) (ext s10) w11 t11 rb Hdisp)
    as [(_ & -> & _) | (_ & o & Hd & Hrb)]; [destruct Hin11|].
  apply in_split in Hin11. destruct Hin11 as (pre & post & Et).
  destruct (SkillManagerFacts.dispatch_trace_run W _ _ _ _ Hd
              _ _ _ _ _ Et) as [_ [Hnone | [-> Ho]]].
  { rewrite Hnone. exact I. }
  destruct out as [[answer|]|e]; [| exact I |].
  - (* the run returned a string *)
    rewrite Ho in Hrb. cbn in Hrb. subst rb.
    destruct Hafter as (ta & Ha & _).
    apply bind_inv in Ha. destruct Ha as (s12 & t12 & rc & Htr & Hret).
    destruct (trace_runs "RECV" "SKILL" (SkillManager.fmt (Some answer)) s11)
      as (s12' & t12' & [] & E12 & _ & _).
    rewrite E12 in Htr.
    assert (Erc : rc = Ok tt) by congruence. subst rc.
    destruct Hret as (t13 & Hret & _). unfold ret in Hret.
    assert (Era : ra = Ok (if String.eqb answer "" then "Command executed."
                           else answer)) by congruence.
    subst ra. exact Hr.
  - (* the run raised *)
    rewrite Ho in Hrb. cbn in Hrb. subst rb.
    destruct Hafter as (_ & _ & ->). exact Hr.
Qed.

End Outcome.

End Steps.

(** X18, on a recall question asked of an empty memory: the answer lists
    the capitalised words of the question itself, which was stored
    first. *)
Lemma X18_witness :
  exists s' t ts1 ts2,
    MoreExamples.ask "Who did I ask about Lucky?" MoreExamples.fresh
      = (s', t, Ok "You recently asked about: Who, Lucky?") /\
    Forall (fun ev => exists line, ev = EvPrint line) t /\
    (forall v, In v ["Who"; "Lucky?"] ->
       exists entry es ty,
         In entry [user_entry "Who did I ask about Lucky?"
                     [("thing", "Who"); ("thing", "Lucky?")] ts1] /\
         Memory.entities entry = Some es /\ In (ty, v) es) /\
    memory s'
    = Memory.mkMemory "crystal_memory.json"
        [user_entry "Who did I ask about Lucky?"
           [("thing", "Who"); ("thing", "Lucky?")] ts1;
         assistant_entry "You recently asked about: Who, Lucky?" ts2]
        20.
Proof.
  destruct (X18_recall_is_answered_from_memory nat Examples.lower
              Examples.strip Examples.split Examples.extract_keywords string
              Examples.encode Examples.cos_sim_music Examples.word_search
              MoreExamples.epoch MoreExamples.disk MoreExamples.re_greeting
              MoreExamples.re_respond_with MoreExamples.context_at_noon
              MoreExamples.ollama_chats MoreExamples.no_commands
              MoreExamples.strftime MoreExamples.capitalised
              MoreExamples.show_result MoreExamples.brain
              "Who did I ask about Lucky?" MoreExamples.fresh eq_refl)
    as (s' & t & ts1 & ts2 & reply & Hrun & Hp & Hreply & Hstored & Hm).
  assert (E : reply = "You recently asked about: Who, Lucky?").
  { rewrite Hreply. reflexivity. }
  subst reply. exists s', t, ts1, ts2.
  split; [exact Hrun|]. split; [exact Hp|]. split; [exact Hstored|].
  exact Hm.
Defined.

(** X19, on small talk, which the judge does not score. *)
Lemma X19_witness :
  asks_recall Examples.lower "how are you today" = false /\
  detect_intent Examples.lower Examples.strip Examples.split
    Examples.extract_keywords Examples.encode Examples.cos_sim_music
    "how are you today" = Ok action_none.
Proof.
  eapply (X19_llm_is_fallback_only nat Examples.lower
            Examples.strip Examples.split Examples.extract_keywords string
            Examples.encode Examples.cos_sim_music Examples.word_search
            MoreExamples.epoch MoreExamples.disk MoreExamples.re_greeting
            MoreExamples.re_respond_with MoreExamples.context_at_noon
            MoreExamples.ollama_chats MoreExamples.no_commands
            MoreExamples.strftime MoreExamples.capitalised
            MoreExamples.show_result MoreExamples.brain
            "how are you today" MoreExamples.fresh
            (fst (fst (MoreExamples.ask "how are you today"
                         MoreExamples.fresh)))
            (snd (fst (MoreExamples.ask "how are you today"
                         MoreExamples.fresh)))
            (snd (MoreExamples.ask "how are you today" MoreExamples.fresh))).
  - vm_compute. reflexivity.
  - vm_compute. do 4 right. left. reflexivity.
Defined.

(** X20, on "play jazz": the radio is asked and is not ready, the
    jukebox runs with the judge's decision. *)
Lemma X20_witness :
  exists ir name sk inst,
    asks_recall Examples.lower "play jazz" = false /\
    detect_intent Examples.lower Examples.strip Examples.split
      Examples.extract_keywords Examples.encode Examples.cos_sim_music
      "play jazz" = Ok ir /\
    action ir = "execute" /\ intent ir = Some name /\
    confidence ir = Some 0.844%float /\
    "play jazz" = "play jazz" /\ Some "music_skill" = Some name /\
    Some (@nil (string * string))
      = Some (MoreExamples.capitalised "play jazz") /\
    IntentMap._map_intent_to_skill Examples.lower
      (intent_skill_map MoreExamples.brain) name <> None /\
    In sk (skills MoreExamples.brain) /\ instance sk = Some inst /\
    inst_id inst = "Jukebox" /\ In name (supported_intents sk).
Proof.
  eapply (X20_intent_runs_follow_the_judge nat Examples.lower
            Examples.strip Examples.split Examples.extract_keywords string
            Examples.encode Examples.cos_sim_music Examples.word_search
            MoreExamples.epoch MoreExamples.disk MoreExamples.re_greeting
            MoreExamples.re_respond_with MoreExamples.context_at_noon
            MoreExamples.ollama_chats MoreExamples.no_commands
            MoreExamples.strftime MoreExamples.capitalised
            MoreExamples.show_result MoreExamples.brain
            "play jazz" MoreExamples.fresh
            (fst (fst (MoreExamples.ask "play jazz" MoreExamples.fresh)))
            (snd (fst (MoreExamples.ask "play jazz" MoreExamples.fresh)))
            (snd (MoreExamples.ask "play jazz" MoreExamples.fresh))
            "Jukebox" "play jazz" (Some "music_skill") 0.844%float
            (Some []) (Ok (Some "Playing jazz"))).
  - vm_compute. reflexivity.
  - vm_compute. do 7 right. left. reflexivity.
Defined.

(** X21, on the same request: the memory ends with the request and the
    jukebox's answer. *)
Lemma X21_witness :
  exists older ts1 ts2,
    Memory.history
      (memory (fst (fst (MoreExamples.ask "play jazz" MoreExamples.fresh))))
    = (older ++ [user_entry "play jazz"
                   (MoreExamples.capitalised "play jazz") ts1;
                 assistant_entry "Playing jazz" ts2])%list.
Proof.
  apply (X21_turn_is_remembered nat Examples.lower
           Examples.strip Examples.split Examples.extract_keywords string
           Examples.encode Examples.cos_sim_music Examples.word_search
           MoreExamples.epoch MoreExamples.disk MoreExamples.re_greeting
           MoreExamples.re_respond_with MoreExamples.context_at_noon
           MoreExamples.ollama_chats MoreExamples.no_commands
           MoreExamples.strftime MoreExamples.capitalised
           MoreExamples.show_result MoreExamples.brain
           "play jazz" MoreExamples.fresh
           (fst (fst (MoreExamples.ask "play jazz" MoreExamples.fresh)))
           (snd (fst (MoreExamples.ask "play jazz" MoreExamples.fresh)))
           "Playing jazz").
  - vm_compute. discriminate.
  - vm_compute. reflexivity.
  - discriminate.
  - vm_compute. lia.
Defined.

(** X22, on "play jazz" while the embedding model is down. *)
Lemma X22_witness :
  exists s' t,
    MoreExamples.ask_down "play jazz" MoreExamples.fresh
      = (s', t, Raise (OtherError "model unavailable")) /\
    Forall (fun ev => exists line, ev = EvPrint line) t /\
    exists ts,
      memory s'
      = Memory.mkMemory "crystal_memory.json"
          (PySeq.slice_from
             ([] ++ [user_entry "play jazz"
                       (MoreExamples.capitalised "play jazz") ts])%list
             (- 20))
          20.
Proof.
  apply (X22_judge_failure_surfaces nat Examples.lower
           Examples.strip Examples.split Examples.extract_keywords string
           Examples.encode_down Examples.cos_sim_music Examples.word_search
           MoreExamples.epoch MoreExamples.disk MoreExamples.re_greeting
           MoreExamples.re_respond_with MoreExamples.context_at_noon
           MoreExamples.ollama_chats MoreExamples.no_commands
           MoreExamples.strftime MoreExamples.capitalised
           MoreExamples.show_result MoreExamples.brain
           "play jazz" (OtherError "model unavailable") MoreExamples.fresh).
  - vm_compute. reflexivity.
  - intros w. reflexivity.
  - vm_compute. reflexivity.
Defined.

(** X25, on small talk with an empty memory: the model gets the three
    system messages and the user's text, and its stripped answer passes
    the guard. *)
Lemma X25_witness :
  (exists ctx turns,
     [LLM.as_pair LLM.SYSTEM_CLEAN;
      ("system",
       with_awareness MoreExamples.brain
         (Guard.system_prompt
            (Guard.build_prompt Examples.lower Examples.strip
               MoreExamples.re_greeting MoreExamples.re_respond_with
               "how are you today")));
      ("system", "[Context: Current Time is 12:00 PM. Battery: 80%]");
      ("user", "how are you today")]
     = ([LLM.as_pair LLM.SYSTEM_CLEAN;
         ("system",
          with_awareness MoreExamples.brain
            (Guard.system_prompt
               (Guard.build_prompt Examples.lower Examples.strip
                  MoreExamples.re_greeting MoreExamples.re_respond_with
                  "how are you today")));
         ("system", ctx)]
        ++ turns ++ [("user", "how are you today")])%list /\
     List.length turns <= 5 /\
     Forall (fun p => fst p = "user" \/ fst p = "assistant") turns) /\
  snd (MoreExamples.ask "how are you today" MoreExamples.fresh)
  = Ok (let answer := Examples.strip " At your service. " in
        let rules :=
          Guard.p_rules
            (Guard.build_prompt Examples.lower Examples.strip
               MoreExamples.re_greeting MoreExamples.re_respond_with
               "how are you today") in
        match Guard.judge Examples.lower Examples.strip Examples.split
                answer rules with
        | Guard.FAIL => Guard.enforce Examples.strip answer rules
        | Guard.PASS => answer
        end).
Proof.
  apply (X25_what_the_model_is_sent nat Examples.lower
           Examples.strip Examples.split Examples.extract_keywords string
           Examples.encode Examples.cos_sim_music Examples.word_search
           MoreExamples.epoch MoreExamples.disk MoreExamples.re_greeting
           MoreExamples.re_respond_with MoreExamples.context_at_noon
           MoreExamples.ollama_chats MoreExamples.no_commands
           MoreExamples.strftime MoreExamples.capitalised
           MoreExamples.show_result MoreExamples.brain
           "how are you today" MoreExamples.fresh
           (fst (fst (MoreExamples.ask "how are you today"
                        MoreExamples.fresh)))
           (snd (fst (MoreExamples.ask "how are you today"
                        MoreExamples.fresh)))
           (snd (MoreExamples.ask "how are you today" MoreExamples.fresh))
           [LLM.as_pair LLM.SYSTEM_CLEAN;
            ("system",
             with_awareness MoreExamples.brain
               (Guard.system_prompt
                  (Guard.build_prompt Examples.lower Examples.strip
                     MoreExamples.re_greeting MoreExamples.re_respond_with
                     "how are you today")));
            ("system", "[Context: Current Time is 12:00 PM. Battery: 80%]");
            ("user", "how are you today")]
           (Ok " At your service. ")).
  - vm_compute. discriminate.
  - vm_compute. reflexivity.
  - vm_compute. do 4 right. left. reflexivity.
Defined.

(** X26, on "play jazz": the jukebox's answer is the reply. *)
Lemma X26_witness :
  snd (MoreExamples.ask "play jazz" MoreExamples.fresh)
  = Ok (let final :=
          if String.eqb "Playing jazz" "" then "Command executed."
          else "Playing jazz" in
        let rules :=
          Guard.p_rules
            (Guard.build_prompt Examples.lower Examples.strip
               MoreExamples.re_greeting MoreExamples.re_respond_with
               "play jazz") in
        match Guard.judge Examples.lower Examples.strip Examples.split
                final rules with
        | Guard.FAIL => Guard.enforce Examples.strip final rules
        | Guard.PASS => final
        end).
Proof.
  apply (X26_skill_outcome_is_the_reply nat Examples.lower
           Examples.strip Examples.split Examples.extract_keywords string
           Examples.encode Examples.cos_sim_music Examples.word_search
           MoreExamples.epoch MoreExamples.disk MoreExamples.re_greeting
           MoreExamples.re_respond_with MoreExamples.context_at_noon
           MoreExamples.ollama_chats MoreExamples.no_commands
           MoreExamples.strftime MoreExamples.capitalised
           MoreExamples.show_result MoreExamples.brain
           "play jazz" MoreExamples.fresh
           (fst (fst (MoreExamples.ask "play jazz" MoreExamples.fresh)))
           (snd (fst (MoreExamples.ask "play jazz" MoreExamples.fresh)))
           (snd (MoreExamples.ask "play jazz" MoreExamples.fresh))
           "Jukebox" "play jazz" (Some "music_skill") 0.844%float
           (Some []) (Ok (Some "Playing jazz"))).
  - vm_compute. reflexivity.
  - vm_compute. do 7 right. left. reflexivity.
Defined.

End PipelineFacts.


(** ** The ranking of the judge *)

Module RankingFacts.

Import IntentJudge.

Ltac cmp_cases :=
  repeat match goal with
  | H : context [Z.compare ?x ?y] |- _ => destruct (Z.compare_spec x y)
  | |- context [Z.compare ?x ?y] => destruct (Z.compare_spec x y)
  | H : context [Pos.compare ?x ?y] |- _ => destruct (Pos.compare_spec x y)
  | |- context [Pos.compare ?x ?y] => destruct (Pos.compare_spec x y)
  end.

(** The comparisons of binary64 numbers, NaN apart, are those of a total
    order. *)
Lemma SFleb_trans (a b c : spec_float) :
  SFleb a b = true -> SFleb b c = true -> SFleb a c = true.
Proof.
  unfold SFleb, SFcompare.
  change (Pos.compare_cont Eq) with Pos.compare.
  destruct a as [sa|sa| |sa ma ea], b as [sb|sb| |sb mb eb],
    c as [sc|sc| |sc mc ec];
    try destruct sa; try destruct sb; try destruct sc;
    try discriminate; try reflexivity;
    intros H1 H2; cmp_cases; subst; cbn in *;
    try discriminate; try reflexivity; try lia.
Qed.

Lemma SFleb_total (a b : spec_float) :
  SFeqb a a = true -> SFeqb b b = true ->
  SFltb a b = false -> SFleb b a = true.
Proof.
  unfold SFeqb, SFltb, SFleb, SFcompare.
  change (Pos.compare_cont Eq) with Pos.compare.
  destruct a as [sa|sa| |sa ma ea], b as [sb|sb| |sb mb eb];
    try destruct sa; try destruct sb;
    try discriminate; try reflexivity;
    intros H1 H2 H3; cmp_cases; subst; cbn in *;
    try discriminate; try reflexivity; try lia.
Qed.

Lemma leb_trans (a b c : float) :
  (a <=? b)%float = true -> (b <=? c)%float = true ->
  (a <=? c)%float = true.
Proof. rewrite !FloatAxioms.leb_spec. apply SFleb_trans. Qed.

Lemma ltb_leb (a b : float) :
  (a <? b)%float = true -> (a <=? b)%float = true.
Proof.
  rewrite FloatAxioms.ltb_spec, FloatAxioms.leb_spec. unfold SFltb, SFleb.
  destruct (SFcompare _ _) as [[]|]; auto.
Qed.

Lemma not_ltb_leb (a b : float) :
  (a =? a)%float = true -> (b =? b)%float = true ->
  (a <? b)%float = false -> (b <=? a)%float = true.
Proof.
  rewrite !FloatAxioms.eqb_spec, FloatAxioms.ltb_spec, FloatAxioms.leb_spec.
  apply SFleb_total.
Qed.

(** The head of the sorted list is the first of the entries with the
    greatest score: the entries before it in the unsorted list score
    less, those after it do not score more. *)
Lemma sort_desc_best (l : list (string * float)) :
  (forall p, In p l -> (snd p =? snd p)%float = true) ->
  l = [] \/
  exists top rest before after,
    sort_desc l = top :: rest /\ l = (before ++ top :: after)%list /\
    (forall p, In p before -> (snd p <? snd top)%float = true) /\
    (forall p, In p after -> (snd p <=? snd top)%float = true).
Proof.
  induction l as [|x l IH]; intros Hnum; [left; reflexivity|].
  right. cbn [sort_desc fold_right].
  change (fold_right insert_desc [] l) with (sort_desc l).
  destruct IH as [-> | (top & rest & before & after & Hs & Hl & Hb & Ha)].
  - intros p Hp. apply Hnum. right. exact Hp.
  - exists x, [], [], []. cbn. repeat split; intros p [].
  - rewrite Hs. cbn [insert_desc].
    assert (Hx : (snd x =? snd x)%float = true)
      by (apply Hnum; left; reflexivity).
    assert (Ht : (snd top =? snd top)%float = true).
    { apply Hnum. right. rewrite Hl. apply in_or_app. right. left.
      reflexivity. }
    destruct (snd x <? snd top)%float eqn:E.
    + exists top, (insert_desc x rest), (x :: before), after.
      split; [reflexivity|]. split; [rewrite Hl; reflexivity|].
      split; [|exact Ha].
      intros p [<- | Hp]; [exact E | apply Hb, Hp].
    + exists x, (top :: rest), [], l.
      split; [reflexivity|]. split; [reflexivity|].
      split; [intros p []|].
      pose proof (not_ltb_leb _ _ Hx Ht E) as Htx.
      intros p Hp. rewrite Hl in Hp. apply in_app_or in Hp.
      destruct Hp as [Hp | [<- | Hp]].
      * apply leb_trans with (b := snd top); [|exact Htx].
        apply ltb_leb, Hb, Hp.
      * exact Htx.
      * apply leb_trans with (b := snd top); [|exact Htx]. apply Ha, Hp.
Qed.

(** A decision that names an intent names the head of the ranking. *)
Lemma decide_top (top_intent : string) (top_score : float)
  (rest : list (string * float)) (r : IntentResult) (name : string) :
  decide ((top_intent, top_score) :: rest) = Ok r ->
  intent r = Some name ->
  name = top_intent /\ confidence r = Some (round3 top_score).
Proof.
  unfold decide.
  destruct (_ && _).
  { intros H. apply (f_equal (fun x => match x with
                                       | Ok v => (intent v, confidence v)
                                       | Raise _ => (None, None)
                                       end)) in H.
    cbn in H. intros Hi. rewrite Hi in H.
    split; congruence. }
  destruct (HIGH_CONFIDENCE <=? top_score)%float.
  { intros H. apply (f_equal (fun x => match x with
                                       | Ok v => (intent v, confidence v)
                                       | Raise _ => (None, None)
                                       end)) in H.
    cbn in H. intros Hi. rewrite Hi in H.
    split; congruence. }
  destruct (MEDIUM_CONFIDENCE <=? top_score)%float.
  { intros H. apply (f_equal (fun x => match x with
                                       | Ok v => (intent v, confidence v)
                                       | Raise _ => (None, None)
                                       end)) in H.
    cbn in H. intros Hi. rewrite Hi in H.
    split; congruence. }
  intros H. apply (f_equal (fun x => match x with
                                     | Ok v => intent v
                                     | Raise _ => None
                                     end)) in H.
  cbn in H. congruence.
Qed.

Section Ranking.

Variable lower : string -> string.
Variable strip : string -> string.
Variable split : string -> list string.
Variable extract_keywords : string -> list string.
Variable Embedding : Type.
Variable encode : string -> result Embedding.
Variable cos_sim_max : Embedding -> string -> result float.

Lemma score_intents_spec (emb : Embedding) :
  forall (intents : list string) (scores : list (string * float)),
    score_intents cos_sim_max emb intents = Ok scores ->
    map fst scores = intents /\
    forall p, In p scores -> cos_sim_max emb (fst p) = Ok (snd p).
Proof.
  induction intents as [|i intents IH]; intros scores H; cbn in H.
  - assert (E : scores = []) by congruence. subst. split; [reflexivity|].
    intros p [].
  - destruct (cos_sim_max emb i) as [c|e] eqn:Ec; [|discriminate].
    cbn [rbind] in H.
    destruct (score_intents cos_sim_max emb intents) as [rest|e] eqn:Er;
      [|discriminate].
    cbn [rbind] in H. destruct (IH rest eq_refl) as [Hn Hs].
    assert (E : scores = (i, c) :: rest) by congruence. subst scores.
    split; [cbn; f_equal; exact Hn|].
    intros p [<- | Hp]; [exact Ec | apply Hs, Hp].
Qed.

(** X24: the intent that detect_intent names is the best match.  When
    every similarity is a number (none is NaN) and the result names an
    intent, the confidence is the similarity of that intent, rounded to
    three decimals, no intent of INTENTS has a greater similarity, and
    every intent that comes before it in INTENTS has a smaller one: among
    equals the first in INTENTS wins. *)
Theorem X24_intent_is_the_best_match (text : string) (r : IntentResult)
  (name : string) :
  (forall emb i c, cos_sim_max emb i = Ok c -> (c =? c)%float = true) ->
  detect_intent lower strip split extract_keywords encode cos_sim_max text
    = Ok r ->
  intent r = Some name ->
  exists emb top before after,
    encode (strip (lower text)) = Ok emb /\
    INTENTS = (before ++ name :: after)%list /\
    cos_sim_max emb name = Ok top /\
    confidence r = Some (round3 top) /\
    (forall i, In i before ->
       exists c, cos_sim_max emb i = Ok c /\ (c <? top)%float = true) /\
    (forall i, In i after ->
       exists c, cos_sim_max emb i = Ok c /\ (c <=? top)%float = true).
Proof.
  intros Hnum Hd Hi. unfold detect_intent in Hd.
  destruct (String.eqb _ _).
  { assert (E : r = action_none) by congruence. subst r. discriminate. }
  destruct (split _) as [|first_word ws]; [discriminate|].
  destruct (_ && _).
  { assert (E : r = action_none) by congruence. subst r. discriminate. }
  destruct (encode (strip (lower text))) as [emb|e] eqn:Ee; [|discriminate].
  cbn [rbind] in Hd.
  destruct (score_intents cos_sim_max emb INTENTS) as [scores|e] eqn:Es;
    [|discriminate].
  cbn [rbind] in Hd.
  destruct (score_intents_spec emb INTENTS scores Es) as [Hnames Hsc].
  destruct (sort_desc_best scores)
    as [-> | (top & rest & before & after & Hs & Hl & Hb & Ha)].
  - intros p Hp. apply (Hnum emb (fst p)). apply Hsc, Hp.
  - discriminate.
  - rewrite Hs in Hd. destruct top as [top_intent top_score].
    destruct (decide_top _ _ _ _ _ Hd Hi) as [-> Hc].
    exists emb, top_score, (map fst before), (map fst after).
    split; [reflexivity|]. split.
    { rewrite <- Hnames, Hl, map_app. reflexivity. }
    split.
    { apply (Hsc (top_intent, top_score)). rewrite Hl.
      apply in_or_app. right. left. reflexivity. }
    split; [exact Hc|]. split.
    + intros i Hin. apply in_map_iff in Hin. destruct Hin as [p [<- Hp]].
      exists (snd p). split; [|exact (Hb p Hp)].
      apply Hsc. rewrite Hl. apply in_or_app. left. exact Hp.
    + intros i Hin. apply in_map_iff in Hin. destruct Hin as [p [<- Hp]].
      exists (snd p). split; [|exact (Ha p Hp)].
      apply Hsc. rewrite Hl. apply in_or_app. right. right. exact Hp.
Qed.

End Ranking.

(** X24, on "play jazz" and a model that is sure of music: the judge
    names music_skill, the second intent of INTENTS. *)
Lemma X24_witness :
  exists emb top before after,
    Examples.encode (Examples.strip (Examples.lower "play jazz")) = Ok emb /\
    INTENTS = (before ++ "music_skill"%string :: after)%list /\
    Examples.cos_sim_music emb "music_skill" = Ok top /\
    confidence Examples.execute_music = Some (round3 top) /\
    (forall i, In i before ->
       exists c, Examples.cos_sim_music emb i = Ok c /\
                 (c <? top)%float = true) /\
    (forall i, In i after ->
       exists c, Examples.cos_sim_music emb i = Ok c /\
                 (c <=? top)%float = true).
Proof.
  apply (X24_intent_is_the_best_match Examples.lower Examples.strip
           Examples.split Examples.extract_keywords string Examples.encode
           Examples.cos_sim_music "play jazz" Examples.execute_music
           "music_skill").
  - intros emb i c H. unfold Examples.cos_sim_music in H.
    destruct (String.eqb i "music_skill");
      apply (f_equal (fun x => match x with
                               | Ok v => (v =? v)%float
                               | Raise _ => true
                               end)) in H;
      vm_compute in H; symmetry; exact H.
  - vm_compute. reflexivity.
  - reflexivity.
Defined.

End RankingFacts.

(** ** The pace of the monitor *)

Module MonitorPace.

Import Brain.

Section Pace.

Variable W : Type.
Variable cpu_percent : W -> W * result float.

Lemma hooks_no_sleep (t : list event) :
  forallb is_hook_ok t = true -> forall n, ~ In (EvSleep n) t.
Proof.
  induction t as [|ev t IH]; cbn; [intros _ n []|].
  intros H n [E | Hin].
  - subst ev. discriminate.
  - apply andb_true_iff in H. exact (IH (proj2 H) n Hin).
Qed.

(** X23: every cycle of the monitor ends with a sleep, and sleeps once.
    The sleep is the last call of the cycle and the cycle returns; it is
    5 seconds after a pass in which the load was not above 90, every
    scheduled hook was called and none raised, and 10 seconds otherwise:
    under load, when no hook is called at all, and after an exception of
    a hook or of the load probe, which is printed first. *)
Theorem X23_every_cycle_sleeps (skills : list (skill_info W)) (w : W) :
  exists w' calls seconds,
    monitor_cycle cpu_percent skills w
      = (w', (calls ++ [EvSleep seconds])%list, Ok tt) /\
    (forall n, ~ In (EvSleep n) calls) /\
    ((seconds = 5%Z /\
      exists c hooks,
        calls = EvCpu (Ok c) :: hooks /\ (90 <? c)%float = false /\
        forallb is_hook_ok hooks = true /\
        hook_calls hooks = scheduled skills) \/
     (seconds = 10%Z /\
      ((exists c, calls = [EvCpu (Ok c)] /\ (90 <? c)%float = true) \/
       (exists before e,
          calls = (before
                   ++ [EvPrint ("⚠️ [MONITOR ERROR]: " ++ exn_str e)])%list)))).
Proof.
  unfold monitor_cycle, catch, monitor_body, bind, call.
  destruct (cpu_percent w) as [w1 [c|e]].
  - destruct (90 <? c)%float eqn:Eload.
    + exists w1, [EvCpu (Ok c)], 10%Z. cbn. split; [reflexivity|]. split.
      * intros n [H | []]. discriminate.
      * right. split; [reflexivity|]. left. exists c. auto.
    + pose proof (BrainFacts.tick_skills_until_failure W skills w1) as Hs.
      destruct (tick_skills skills w1) as [[w2 t2] r2] eqn:Et.
      destruct (BrainFacts.tick_skills_prefix W skills w1 w2 t2 r2 Et)
        as [rest [Hp Hr]].
      cbn in Hs.
      destruct Hs as [[-> Hok] | (t0 & id & hk & e & -> & Hok & ->)].
      * exists w2, (EvCpu (Ok c) :: t2), 5%Z. cbn. split; [reflexivity|].
        split.
        -- intros n [H | H]; [discriminate|].
           exact (hooks_no_sleep _ Hok n H).
        -- left. split; [reflexivity|]. exists c, t2.
           split; [reflexivity|]. split; [exact Eload|].
           split; [exact Hok|].
           rewrite (Hr eq_refl), app_nil_r in Hp. symmetry. exact Hp.
      * exists w2,
          (EvCpu (Ok c) :: (t0 ++ [EvHook id hk (Raise e)])
           ++ [EvPrint ("⚠️ [MONITOR ERROR]: " ++ exn_str e)])%list,
          10%Z.
        cbn. split.
        -- rewrite <- !app_assoc. reflexivity.
        -- split.
           ++ intros n [H | H]; [discriminate|].
              apply in_app_or in H. destruct H as [H | [H | []]];
                [|discriminate].
              apply in_app_or in H. destruct H as [H | [H | []]];
                [|discriminate].
              exact (hooks_no_sleep _ Hok n H).
           ++ right. split; [reflexivity|]. right.
              exists (EvCpu (Ok c) :: t0 ++ [EvHook id hk (Raise e)])%list, e.
              reflexivity.
  - exists w1, [EvCpu (Raise e);
                EvPrint ("⚠️ [MONITOR ERROR]: " ++ exn_str e)], 10%Z.
    cbn. split; [reflexivity|]. split.
    + intros n [H | [H | []]]; discriminate.
    + right. split; [reflexivity|]. right.
      exists [EvCpu (Raise e)], e. reflexivity.
Qed.

End Pace.

End MonitorPace.


(** ** The arbitrator runs one candidate *)

Module ArbitratorMore.

Import Arbitrator ArbiterSpec EffFacts.
Local Open Scope string_scope.

Section OneRun.

Variable W : Type.
Variable lower : string -> string.
Variable strip : string -> string.
Variable strip_chars : string -> string -> string.
Variable py_int : string -> option Z.
Variable run_llm : list (string * string) -> W -> W * result string.
Variable input : string -> W -> W * result string.

Variable cands : list (skill_info W).
Variable user_input : string.
Variable caught : bool.

Lemma quiet_no_runs {A} (m : M W A) (w : W) :
  emits (fun ev => negb (is_run ev)) m ->
  existsb is_run (snd (fst (m w))) = false.
Proof.
  intros H. apply (forallb_excludes (fun ev => negb (is_run ev))).
  - intros ev Hev. apply negb_true_iff in Hev. exact Hev.
  - apply H.
Qed.

Lemma shape_prepend (t1 t2 : list event) (r : result (option string)) :
  existsb is_run t1 = false ->
  arbiter_shape cands user_input caught t2 r ->
  arbiter_shape cands user_input caught (t1 ++ t2) r.
Proof.
  intros H1 H. destruct H as [t r H | pre sk inst out post Hpre Hpost Hin Hi].
  - apply ar_no_run. rewrite existsb_app, H1, H. reflexivity.
  - rewrite app_assoc. apply ar_run with (sk := sk); try assumption.
    rewrite existsb_app, H1, Hpre. reflexivity.
Qed.

(** A step that runs nothing, followed by steps of the shape. *)
Lemma shape_bind {A} (m : M W A) (k : A -> M W (option string)) (w : W) :
  emits (fun ev => negb (is_run ev)) m ->
  (forall a w1,
     arbiter_shape cands user_input caught
       (snd (fst (k a w1))) (snd (k a w1))) ->
  arbiter_shape cands user_input caught
    (snd (fst (bind m k w))) (snd (bind m k w)).
Proof.
  intros Hm Hk. pose proof (quiet_no_runs m w Hm) as Hq. unfold bind.
  destruct (m w) as [[w1 t1] [a|e]]; cbn in Hq |- *.
  - specialize (Hk a w1). destruct (k a w1) as [[w2 t2] r2]. cbn in *.
    apply shape_prepend; assumption.
  - apply ar_no_run. exact Hq.
Qed.

End OneRun.

Section SelectSkillMore.

Variable W : Type.
Variable lower : string -> string.
Variable strip : string -> string.
Variable strip_chars : string -> string -> string.
Variable py_int : string -> option Z.
Variable run_llm : list (string * string) -> W -> W * result string.
Variable input : string -> W -> W * result string.

Lemma execute_selected_shape (cands : list (skill_info W))
  (user_input : string) (sel : option (skill_info W)) (w : W) :
  (forall s, sel = Some s -> In s cands) ->
  arbiter_shape cands user_input true
    (snd (fst (execute_selected user_input sel w)))
    (snd (execute_selected user_input sel w)).
Proof.
  intros Hsel. destruct sel as [s|]; cbn [execute_selected];
    [|apply ar_no_run; reflexivity].
  unfold catch, call_run.
  destruct (instance s) as [inst|] eqn:Ei.
  - unfold call. destruct (run inst (ArbiterParams user_input) w)
      as [w1 [v|e]]; cbn.
    + apply (@ar_run _ cands user_input true [] s inst (Ok v) []);
        auto.
    + apply (@ar_run _ cands user_input true [] s inst (Raise e)
               [EvPrint ("❌ [ARBITRATOR]: Skill execution failed: "
                          ++ exn_str e)]); auto.
  - cbn. apply ar_no_run. reflexivity.
Qed.

Lemma ask_operator_shape (cands : list (skill_info W))
  (user_input : string) (w : W) :
  arbiter_shape cands user_input true
    (snd (fst (ask_operator strip py_int input user_input cands w)))
    (snd (ask_operator strip py_int input user_input cands w)).
Proof.
  unfold ask_operator.
  apply shape_bind.
  { apply ArbitratorFacts.print_emits. reflexivity. }
  intros _ w1. apply shape_bind.
  { apply ArbitratorFacts.print_choices_emits. reflexivity. }
  intros _ w2. apply shape_bind.
  { apply emits_call. reflexivity. }
  intros raw w3.
  destruct (read_choice py_int cands (strip raw)) as [sel|] eqn:Er.
  - apply execute_selected_shape. intros s ->.
    unfold read_choice in Er. destruct (py_int (strip raw)); [|discriminate].
    destruct (_ && _); [|discriminate].
    injection Er as Er. eapply nth_error_In, Er.
  - apply ar_no_run. reflexivity.
Qed.

(** X27: the arbitrator runs at most one skill.  In every call of
    select_skill, a run is the only run of the call, the skill is one of
    the keyword candidates and gets the dict with the user's input only.
    What the run returns is the result.  When it raises, the exception
    escapes select_skill if the skill was the only candidate (the direct
    path has no handler), and is printed and turned into [None] if the
    skill was chosen among several. *)
Theorem X27_arbitrator_runs_one_candidate (skills : list (skill_info W))
  (user_input : string) (w w' : W) (t : list event)
  (r : result (option string))
  (pre post : list event) (id : string) (p : params)
  (out : result (option string)) :
  select_skill lower strip strip_chars py_int run_llm input skills
    user_input w = (w', t, r) ->
  t = (pre ++ EvRun id p out :: post)%list ->
  existsb is_run pre = false /\ existsb is_run post = false /\
  p = ArbiterParams user_input /\
  (exists sk inst,
     In sk (keyword_candidates lower strip_chars skills user_input) /\
     instance sk = Some inst /\ inst_id inst = id) /\
  r = match out with
      | Ok v => Ok v
      | Raise e =>
          match keyword_candidates lower strip_chars skills user_input with
          | [_] => Raise e
          | _ => Ok None
          end
      end.
Proof.
  intros Hrun Et.
  assert (Hshape :
    arbiter_shape (keyword_candidates lower strip_chars skills user_input)
      user_input
      (match keyword_candidates lower strip_chars skills user_input with
       | [_] => false
       | _ => true
       end)
      (snd (fst (select_skill lower strip strip_chars py_int run_llm input
                   skills user_input w)))
      (snd (select_skill lower strip strip_chars py_int run_llm input
              skills user_input w))).
  { unfold select_skill.
    destruct (keyword_candidates lower strip_chars skills user_input)
      as [|c1 [|c2 cs]] eqn:Ec.
    - apply ar_no_run. reflexivity.
    - unfold call_run. destruct (instance c1) as [inst|] eqn:Ei.
      + unfold call. destruct (run inst (ArbiterParams user_input) w)
          as [w1 out0]. cbn.
        pose proof (@ar_run _ [c1] user_input false [] c1 inst out0 []
                      eq_refl eq_refl (or_introl eq_refl) Ei) as H.
        cbn [app] in H. destruct out0; exact H.
      + apply ar_no_run. reflexivity.
    - apply shape_bind.
      { apply ArbitratorFacts.describe_emits. }
      intros lines w1. apply shape_bind.
      { apply ArbitratorFacts.classify_emits; reflexivity. }
      intros decision w2.
      destruct (find _ (c1 :: c2 :: cs)) as [s|] eqn:Ef.
      + apply execute_selected_shape. intros s0 [= <-].
        apply find_some in Ef. exact (proj1 Ef).
      + apply ask_operator_shape. }
  rewrite Hrun in Hshape. cbn [fst snd] in Hshape.
  inversion Hshape as [t0 r0 Hno | pre0 sk inst out0 post0 Hpre Hpost Hin Hi
                                     Ht Hr].
  - exfalso. subst. revert Hno. rewrite existsb_app. cbn.
    rewrite orb_true_r. discriminate.
  - rewrite Et in Ht.
    apply (BrainFacts.unique_split is_run) in Ht;
      [| exact Hpre | exact Hpost | reflexivity].
    destruct Ht as (-> & Hev & ->).
    assert (E1 : id = inst_id inst) by congruence.
    assert (E2 : p = ArbiterParams user_input) by congruence.
    assert (E3 : out = out0) by congruence. subst id p out0.
    split; [exact Hpre|]. split; [exact Hpost|]. split; [reflexivity|].
    split; [exists sk, inst; auto|].
    destruct out as [v|e]; [reflexivity|].
    destruct (keyword_candidates lower strip_chars skills user_input)
      as [|c1 [|c2 cs]]; reflexivity.
Qed.

End SelectSkillMore.

(** X27, on a broken radio that is the only candidate: its exception
    escapes the arbitrator. *)
Lemma X27_witness :
  existsb is_run [] = false /\ existsb is_run [] = false /\
  ArbiterParams "radio" = ArbiterParams "radio" /\
  (exists sk inst,
     In sk (keyword_candidates Examples.lower Examples.strip_chars
              [Examples.radio_broken] "radio") /\
     instance sk = Some inst /\ inst_id inst = "RadioBroken") /\
  (Raise (OtherError "stream down") : result (option string))
  = match keyword_candidates Examples.lower Examples.strip_chars
            [Examples.radio_broken] "radio" with
    | [_] => Raise (OtherError "stream down")
    | _ => Ok None
    end.
Proof.
  apply (X27_arbitrator_runs_one_candidate nat Examples.lower
           Examples.strip Examples.strip_chars Examples.py_int
           (Examples.llm_says "RadioBroken") (Examples.operator_types "1")
           [Examples.radio_broken] "radio" 0 1
           [EvRun "RadioBroken" (ArbiterParams "radio")
                  (Raise (OtherError "stream down"))]
           (Raise (OtherError "stream down")) [] [] "RadioBroken"
           (ArbiterParams "radio") (Raise (OtherError "stream down"))).
  - vm_compute. reflexivity.
  - reflexivity.
Defined.

End ArbitratorMore.
